(** * Serendipity draft: the generation pipeline of [services/geminiService.ts]

    A shallow embedding of the script generator, the prompt deriver, the two
    keyframe paths, the video poll loop and the orchestrator, together with
    the caller [handleScriptGeneration] of [App.tsx].

    The remote services, the progress callback, [console.error], [fetch],
    [JSON.parse] and [URL.createObjectURL] are the environment.  A [World]
    answers every external call as a function of the history of the run so
    far, and every call is appended to that history with its answer, so a
    run is a pure function from a world to an outcome and a trace. *)

From Stdlib Require Import String Ascii List ZArith Bool Lia.
Import ListNotations.
Open Scope string_scope.

Set Implicit Arguments.
Set Warnings "-register-all".

(** ** Strings as JavaScript builds them *)

Module Js.

(** The characters a template literal of the source contains and a Rocq
    string cannot spell directly. *)
Definition dq : string := String (ascii_of_nat 34) EmptyString.
Definition nl : string := String (ascii_of_nat 10) EmptyString.

(** [Array.prototype.join] on an array of strings. *)
Definition join (sep : string) (parts : list string) : string :=
  String.concat sep parts.

(** [Boolean(s)] for a string: the empty string is the only falsy one. *)
Definition nonempty (s : string) : bool :=
  match s with
  | EmptyString => false
  | String _ _ => true
  end.

(** Strings are kept as the UTF-8 bytes of the JavaScript string.
    [bytes codes] is the string with the given byte values. *)
Definition bytes (codes : list nat) : string :=
  string_of_list_ascii (map ascii_of_nat codes).

(** What [String.prototype.trim] strips, as UTF-8: the white space of the
    language (tab U+0009, vertical tab U+000B, form feed U+000C, the byte
    order mark U+FEFF and the space separators U+0020, U+00A0, U+1680,
    U+2000 to U+200A, U+202F, U+205F, U+3000) and its line terminators
    (U+000A, U+000D, U+2028, U+2029). *)
Definition whiteSpace : list string :=
  [ bytes [9]; bytes [10]; bytes [11]; bytes [12]; bytes [13]; bytes [32];
    bytes [194; 160];
    bytes [225; 154; 128];
    bytes [226; 128; 128]; bytes [226; 128; 129]; bytes [226; 128; 130];
    bytes [226; 128; 131]; bytes [226; 128; 132]; bytes [226; 128; 133];
    bytes [226; 128; 134]; bytes [226; 128; 135]; bytes [226; 128; 136];
    bytes [226; 128; 137]; bytes [226; 128; 138];
    bytes [226; 128; 168]; bytes [226; 128; 169]; bytes [226; 128; 175];
    bytes [226; 129; 159];
    bytes [227; 128; 128];
    bytes [239; 187; 191] ].

(** [s] without the given prefix, if it starts with it. *)
Fixpoint dropPrefix (prefix s : string) : option string :=
  match prefix, s with
  | EmptyString, _ => Some s
  | String a prefix', String b s' => if Ascii.eqb a b then dropPrefix prefix' s' else None
  | String _ _, EmptyString => None
  end.

(** [s] without one leading character of [spaces], if it starts with one. *)
Fixpoint dropOne (spaces : list string) (s : string) : option string :=
  match spaces with
  | [] => None
  | space :: more =>
      match dropPrefix space s with
      | Some rest => Some rest
      | None => dropOne more s
      end
  end.

(** Drops leading characters of [spaces], at most [count] of them. *)
Fixpoint dropLeading (count : nat) (spaces : list string) (s : string) : string :=
  match count with
  | O => s
  | S count' =>
      match dropOne spaces s with
      | Some rest => dropLeading count' spaces rest
      | None => s
      end
  end.

Definition reverse (s : string) : string :=
  string_of_list_ascii (rev (list_ascii_of_string s)).

Definition trimStart (s : string) : string :=
  dropLeading (String.length s) whiteSpace s.

(** The trailing white space is the leading white space of the reversed
    string, each character's bytes reversed. *)
Definition trimEnd (s : string) : string :=
  reverse (dropLeading (String.length s) (map reverse whiteSpace) (reverse s)).

Definition trim (s : string) : string := trimEnd (trimStart s).

(** A value as [JSON.parse] produces it, plus [undefined], which property
    access adds.  Numbers are kept as integers: the code only ever asks
    whether one is zero. *)
Inductive Value : Type :=
| Undefined
| Null
| Bool (b : bool)
| Num (z : Z)
| Str (s : string)
| Arr (items : list Value)
| Obj (fields : list (string * Value)).

(** The own property [key] of an object, [undefined] when there is none
    (an object holds each key once). *)
Fixpoint lookup (key : string) (fields : list (string * Value)) : Value :=
  match fields with
  | [] => Undefined
  | (k, v) :: rest => if String.eqb k key then v else lookup key rest
  end.

(** The exceptions of the run: [new Error(message)] of the source, the
    [TypeError] of a property read on [null] or [undefined], the
    [SyntaxError] of [JSON.parse], and a rejected remote call. *)
Inductive Exn : Type :=
| Error (message : string)
| TypeError (message : string)
| SyntaxError (message : string)
| Rejected (reason : string).

(** [v.key] (or [v[key]]).  It throws on [null] and [undefined]; strings and
    arrays answer [length]; every other read of a primitive or an array gives
    [undefined] (the keys the code reads are not prototype members). *)
Definition get (v : Value) (key : string) : Exn + Value :=
  match v with
  | Undefined => inl (TypeError ("Cannot read properties of undefined (reading '" ++ key ++ "')"))
  | Null => inl (TypeError ("Cannot read properties of null (reading '" ++ key ++ "')"))
  | Obj fields => inr (lookup key fields)
  | Str s => inr (if String.eqb key "length" then Num (Z.of_nat (String.length s)) else Undefined)
  | Arr items => inr (if String.eqb key "length" then Num (Z.of_nat (List.length items)) else Undefined)
  | Bool _ | Num _ => inr Undefined
  end.

(** [Boolean(v)], the test behind [!v], [v || w] and [v ? a : b]. *)
Definition truthy (v : Value) : bool :=
  match v with
  | Undefined | Null => false
  | Bool b => b
  | Num z => negb (Z.eqb z 0)
  | Str s => nonempty s
  | Arr _ | Obj _ => true
  end.

(** [v || w]. *)
Definition or_else (v w : Value) : Value := if truthy v then v else w.

(** [v === 0]. *)
Definition is_zero (v : Value) : bool :=
  match v with
  | Num z => Z.eqb z 0
  | _ => false
  end.

End Js.

Import Js.

(** ** The data model of [types.ts] *)

Record InspirationFile : Type := {
  base64 : string;
  mimeType : string;
  name : string;
  description : string;
  previewUrl : string
}.

Record UserInput : Type := {
  idea : string;
  inspirationImages : list InspirationFile;
  inspirationVideos : list InspirationFile;
  inspirationAudio : option InspirationFile;
  duration : string;
  mood : string;
  aspectRatio : string;
  audience : string
}.

Record Script : Type := {
  title : string;
  logline : string;
  fullScript : string
}.

Inductive Stage : Type :=
| IDEA | INSPIRATION | FINETUNING | SCRIPT_SELECT | GENERATING_VIDEO | RESULT.

(** ** The requests and responses of the [@google/genai] client

    Only the fields the source writes or reads.  A field the source reaches
    through a chain of property reads is an [option], [None] standing for
    [undefined]. *)

Module Sdk.

Inductive SchemaType : Type := OBJECT | ARRAY | STRING.

Inductive Schema : Type :=
| MkSchema (type : SchemaType) (description : option string)
           (properties : list (string * Schema)) (items : option Schema)
           (required : list string).

Definition properties_of (s : Schema) : list (string * Schema) :=
  match s with MkSchema _ _ properties _ _ => properties end.

Definition required_of (s : Schema) : list string :=
  match s with MkSchema _ _ _ _ required => required end.

(** Every field name a schema mentions, at any depth: the keys of
    [properties], the entries of [required], and those of the nested
    schemas. *)
Fixpoint names_of (s : Schema) : list string :=
  match s with
  | MkSchema _ _ properties items required =>
      flat_map (fun kv => fst kv :: names_of (snd kv)) properties
      ++ match items with Some i => names_of i | None => [] end
      ++ required
  end.

Inductive Modality : Type := IMAGE | TEXT.

Module Blob.
Record t : Type := { data : string; mimeType : string }.
End Blob.

Module Part.
Record t : Type := { inlineData : option Blob.t; text : option Value }.
End Part.

Inductive Contents : Type :=
| Prompt (text : string)
| Parts (parts : list Part.t).

Module Config.
Record t : Type := {
  responseMimeType : option string;
  responseSchema : option Schema;
  responseModalities : option (list Modality)
}.
End Config.

Module ContentRequest.
Record t : Type := { model : string; contents : Contents; config : option Config.t }.
End ContentRequest.

Module Content.
Record t : Type := { parts : option (list Part.t) }.
End Content.

Module Candidate.
Record t : Type := { content : option Content.t }.
End Candidate.

Module ContentResponse.
Record t : Type := { text : option string; candidates : option (list Candidate.t) }.
End ContentResponse.

Module Image.
Record t : Type := { imageBytes : string; mimeType : string }.
End Image.

Module ImagesConfig.
Record t : Type := { numberOfImages : Z; outputMimeType : string; aspectRatio : string }.
End ImagesConfig.

Module ImagesRequest.
Record t : Type := { model : string; prompt : string; config : ImagesConfig.t }.
End ImagesRequest.

Module GeneratedImage.
Record t : Type := { image : option Image.t }.
End GeneratedImage.

Module ImagesResponse.
Record t : Type := { generatedImages : option (list GeneratedImage.t) }.
End ImagesResponse.

Module VideosRequest.
Record t : Type := { model : string; prompt : Value; image : Image.t; numberOfVideos : Z }.
End VideosRequest.

Module Video.
Record t : Type := { uri : option string }.
End Video.

Module GeneratedVideo.
Record t : Type := { video : option Video.t }.
End GeneratedVideo.

Module VideosResponse.
Record t : Type := { generatedVideos : option (list GeneratedVideo.t) }.
End VideosResponse.

(** A long-running operation: an opaque name, the completion flag (an
    absent flag reads as [false]) and the result payload. *)
Module Operation.
Record t : Type := { name : string; done : bool; response : option VideosResponse.t }.
End Operation.

(** What [fetch] resolves to: the status, and what [blob()] resolves to or
    rejects with. *)
Module FetchResponse.
Record t : Type := { ok : bool; statusText : string; blob : Exn + string }.
End FetchResponse.

End Sdk.

(** ** The environment and the runs *)

(** One entry per external interaction, in the order of the run, each remote
    call with the answer it got. *)
Inductive Event : Type :=
| Progress (message : string)
| GenerateContent (request : Sdk.ContentRequest.t) (answer : Exn + Sdk.ContentResponse.t)
| GenerateImages (request : Sdk.ImagesRequest.t) (answer : Exn + Sdk.ImagesResponse.t)
| GenerateVideos (request : Sdk.VideosRequest.t) (answer : Exn + Sdk.Operation.t)
| Sleep (milliseconds : Z)
| GetVideosOperation (operation : Sdk.Operation.t) (answer : Exn + Sdk.Operation.t)
| Fetch (url : string) (answer : Exn + Sdk.FetchResponse.t)
| CreateObjectURL (blob : string) (url : string)
| ConsoleError (label : string) (error : Exn).

Definition Trace : Type := list Event.

(** The environment: [process.env.API_KEY] (the module refuses to load
    without it), the remote services, [fetch], [URL.createObjectURL] and
    [JSON.parse] ([None] is its [SyntaxError]).  An answer may depend on
    everything that happened before the call.  The progress callback is the
    caller's state setter: it is logged and does not throw. *)
Record World : Type := {
  API_KEY : string;
  generateContent : Trace -> Sdk.ContentRequest.t -> Exn + Sdk.ContentResponse.t;
  generateImages : Trace -> Sdk.ImagesRequest.t -> Exn + Sdk.ImagesResponse.t;
  generateVideos : Trace -> Sdk.VideosRequest.t -> Exn + Sdk.Operation.t;
  getVideosOperation : Trace -> Sdk.Operation.t -> Exn + Sdk.Operation.t;
  fetch : Trace -> string -> Exn + Sdk.FetchResponse.t;
  createObjectURL : Trace -> string -> string;
  JSON_parse : string -> option Value
}.

(** How a run stands: it returned, it threw, or it is still waiting in the
    poll loop when the allotted number of polls is used up. *)
Inductive Outcome (A : Type) : Type :=
| Returned (a : A)
| Threw (e : Exn)
| Polling.

Arguments Returned {A} a.
Arguments Threw {A} e.
Arguments Polling {A}.

Definition M (A : Type) : Type := World -> Trace -> Outcome A * Trace.

Definition ret {A} (a : A) : M A := fun _ t => (Returned a, t).

Definition throw {A} (e : Exn) : M A := fun _ t => (Threw e, t).

Definition polling {A} : M A := fun _ t => (Polling, t).

Definition bind {A B} (m : M A) (k : A -> M B) : M B :=
  fun w t =>
    match m w t with
    | (Returned a, t') => k a w t'
    | (Threw e, t') => (Threw e, t')
    | (Polling, t') => (Polling, t')
    end.

(** [try { m } catch (error) { handler error }]. *)
Definition try_catch {A} (m : M A) (handler : Exn -> M A) : M A :=
  fun w t =>
    match m w t with
    | (Threw e, t') => handler e w t'
    | settled => settled
    end.

Declare Scope js_scope.
Delimit Scope js_scope with js.
Notation "x <- m ;; k" := (bind m (fun x => k))
  (at level 61, m at next level, right associativity) : js_scope.
Notation "m ;; k" := (bind m (fun _ => k))
  (at level 61, right associativity) : js_scope.
Open Scope js_scope.

(** A step that throws or yields without touching the environment. *)
Definition lift {A} (r : Exn + A) : M A :=
  match r with
  | inl e => throw e
  | inr a => ret a
  end.

(** A remote call: ask the world, log the call with its answer, then return
    or throw as the answer says. *)
Definition call {Q A} (ask : World -> Trace -> Q -> Exn + A)
    (log : Q -> Exn + A -> Event) (q : Q) : M A :=
  fun w t => let r := ask w t q in lift r w (t ++ [log q r])%list.

Definition emit (e : Event) : M unit := fun _ t => (Returned tt, (t ++ [e])%list).

Definition console_error (label : string) (e : Exn) : M unit :=
  emit (ConsoleError label e).

Definition sleep (ms : Z) : M unit := emit (Sleep ms).

(** [JSON.parse(text)]: a [SyntaxError] on [undefined] and on a text that
    is not JSON. *)
Definition parseText (w : World) (text : option string) : Exn + Value :=
  match text with
  | Some s =>
      match JSON_parse w s with
      | Some v => inr v
      | None => inl (SyntaxError "Unexpected token in JSON")
      end
  | None => inl (SyntaxError "undefined is not valid JSON")
  end.

Definition JSON_parse_text (text : option string) : M Value :=
  fun w => lift (parseText w text) w.

(** The outcome and the trace of a run that starts from nothing. *)
Definition run {A} (m : M A) (w : World) : Outcome A * Trace := m w [].

(** ** [generateScripts] *)

Definition imageInspirationText (userInput : UserInput) : string :=
  join nl (map (fun img => "- Image " ++ dq ++ name img ++ dq ++ ": " ++ description img)
               (inspirationImages userInput)).

Definition videoInspirationText (userInput : UserInput) : string :=
  join nl (map (fun vid => "- Video " ++ dq ++ name vid ++ dq ++ ": " ++ description vid)
               (inspirationVideos userInput)).

Definition inspirationText (userInput : UserInput) : string :=
  join nl (filter nonempty [imageInspirationText userInput; videoInspirationText userInput]).

(** The template literal [prompt] of [generateScripts], line by line. *)
Definition scriptsPrompt (userInput : UserInput) : string :=
  nl ++
  "    You are a creative assistant for a storyteller. Based on the following detailed creative brief, generate 2 distinct script ideas for a short video." ++ nl ++
  nl ++
  "    --- Creative Brief ---" ++ nl ++
  "    Core Idea: " ++ dq ++ idea userInput ++ dq ++ nl ++
  "    " ++ nl ++
  "    Fine-Tuning Details:" ++ nl ++
  "    - Desired Mood & Style: " ++ mood userInput ++ nl ++
  "    - Target Audience: " ++ audience userInput ++ nl ++
  "    - Aspect Ratio: " ++ aspectRatio userInput ++ nl ++
  "    - Desired Duration: Approximately " ++ duration userInput ++ " seconds" ++ nl ++
  nl ++
  "    User-Provided Inspirations:" ++ nl ++
  "    " ++ (if nonempty (inspirationText userInput)
             then inspirationText userInput
             else "No specific visual or video inspiration provided.") ++ nl ++
  "    " ++ (match inspirationAudio userInput with
             | Some audio =>
                 "- The user provided an audio track named " ++ dq ++ name audio ++ dq
                 ++ " to set the tone."
             | None => ""
             end) ++ nl ++
  "    ---" ++ nl ++
  nl ++
  "    For each of the 2 ideas, provide:" ++ nl ++
  "    1. A catchy Title." ++ nl ++
  "    2. A concise Logline (1-2 sentences)." ++ nl ++
  "    3. A Full Script with scene descriptions and actions, tailored to the specified duration and aspect ratio." ++ nl ++
  "    ".

Definition stringField : Sdk.Schema := Sdk.MkSchema Sdk.STRING None [] None [].

Definition scriptsSchema : Sdk.Schema :=
  Sdk.MkSchema Sdk.OBJECT None
    [("scripts",
      Sdk.MkSchema Sdk.ARRAY None []
        (Some (Sdk.MkSchema Sdk.OBJECT None
                 [("title", stringField); ("logline", stringField); ("fullScript", stringField)]
                 None
                 ["title"; "logline"; "fullScript"]))
        [])]
    None
    ["scripts"].

Definition jsonConfig (schema : Sdk.Schema) : Sdk.Config.t :=
  {| Sdk.Config.responseMimeType := Some "application/json";
     Sdk.Config.responseSchema := Some schema;
     Sdk.Config.responseModalities := None |}.

Definition scriptsRequest (userInput : UserInput) : Sdk.ContentRequest.t :=
  {| Sdk.ContentRequest.model := "gemini-2.5-flash";
     Sdk.ContentRequest.contents := Sdk.Prompt (scriptsPrompt userInput);
     Sdk.ContentRequest.config := Some (jsonConfig scriptsSchema) |}.

Definition ScriptGenerationFailed : Exn := Error "Failed to generate scripts from the idea.".

(** The body of the [try] block of [generateScripts]. *)
Definition generateScripts_try (userInput : UserInput) : M Value :=
  response <- call generateContent GenerateContent (scriptsRequest userInput) ;;
  jsonResponse <- JSON_parse_text (Sdk.ContentResponse.text response) ;;
  scripts <- lift (Js.get jsonResponse "scripts") ;;
  ret (or_else scripts (Arr [])).

Definition generateScripts (userInput : UserInput) : M Value :=
  try_catch (generateScripts_try userInput)
    (fun error =>
       console_error "Error generating scripts:" error ;;
       throw ScriptGenerationFailed).

(** ** [getVideoGenerationPrompts] *)

Definition promptsPrompt (script : Script) (needsEditPrompt : bool) : string :=
  nl ++
  "    Based on the following script, create one or two things:" ++ nl ++
  "    1. A concise, descriptive prompt for a video generation AI (VEO 2.0) to create a single, cohesive video that tells the story of the script. This prompt should describe the visual style, pacing, key actions, and overall mood." ++ nl ++
  "    " ++ (if needsEditPrompt
             then "2. A short, creative prompt for an image editing AI (Nano Banana) to modify a base image to become a representative keyframe for the video. This prompt should describe what to add or change to capture the video's essence."
             else "") ++ nl ++
  "    " ++ nl ++
  "    Script Title: " ++ dq ++ title script ++ dq ++ nl ++
  "    Script Logline: " ++ dq ++ logline script ++ dq ++ nl ++
  "    Full Script: " ++ dq ++ fullScript script ++ dq ++ nl ++
  "    ".

(** [responseSchema] of the call: the spread
    [...(needsEditPrompt && { keyframeEditPrompt: ... })] adds the second
    property when the flag is set and nothing when it is [false]. *)
Definition promptsSchema (needsEditPrompt : bool) : Sdk.Schema :=
  Sdk.MkSchema Sdk.OBJECT None
    (("videoPrompt",
      Sdk.MkSchema Sdk.STRING (Some "Prompt for VEO 2.0 video generation.") [] None [])
     :: (if needsEditPrompt
         then [("keyframeEditPrompt",
                Sdk.MkSchema Sdk.STRING (Some "Prompt for Nano Banana image editing.") [] None [])]
         else []))
    None
    ["videoPrompt"].

Definition promptsRequest (script : Script) (needsEditPrompt : bool) : Sdk.ContentRequest.t :=
  {| Sdk.ContentRequest.model := "gemini-2.5-flash";
     Sdk.ContentRequest.contents := Sdk.Prompt (promptsPrompt script needsEditPrompt);
     Sdk.ContentRequest.config := Some (jsonConfig (promptsSchema needsEditPrompt)) |}.

Definition getVideoGenerationPrompts (script : Script) (needsEditPrompt : bool) : M Value :=
  response <- call generateContent GenerateContent (promptsRequest script needsEditPrompt) ;;
  JSON_parse_text (Sdk.ContentResponse.text response).

(** ** The two keyframe paths *)

Definition editRequest (baseImage : InspirationFile) (editPrompt : Value) : Sdk.ContentRequest.t :=
  {| Sdk.ContentRequest.model := "gemini-2.5-flash-image-preview";
     Sdk.ContentRequest.contents :=
       Sdk.Parts
         [ {| Sdk.Part.inlineData :=
                Some {| Sdk.Blob.data := base64 baseImage;
                        Sdk.Blob.mimeType := mimeType baseImage |};
              Sdk.Part.text := None |};
           {| Sdk.Part.inlineData := None; Sdk.Part.text := Some editPrompt |} ];
     Sdk.ContentRequest.config :=
       Some {| Sdk.Config.responseMimeType := None;
               Sdk.Config.responseSchema := None;
               Sdk.Config.responseModalities := Some [Sdk.IMAGE; Sdk.TEXT] |} |}.

(** [response.candidates[0].content.parts]: each missing link of the chain
    is a [TypeError]. *)
Definition firstCandidateParts (response : Sdk.ContentResponse.t) : Exn + list Sdk.Part.t :=
  match Sdk.ContentResponse.candidates response with
  | None => inl (TypeError "Cannot read properties of undefined (reading '0')")
  | Some candidates =>
      match nth_error candidates 0 with
      | None => inl (TypeError "Cannot read properties of undefined (reading 'content')")
      | Some candidate =>
          match Sdk.Candidate.content candidate with
          | None => inl (TypeError "Cannot read properties of undefined (reading 'parts')")
          | Some content =>
              match Sdk.Content.parts content with
              | None => inl (TypeError "undefined is not iterable")
              | Some parts => inr parts
              end
          end
      end
  end.

(** The [for ... of] loop: the data of the first part that has
    [inlineData]. *)
Fixpoint firstInlineData (parts : list Sdk.Part.t) : option string :=
  match parts with
  | [] => None
  | part :: rest =>
      match Sdk.Part.inlineData part with
      | Some inline => Some (Sdk.Blob.data inline)
      | None => firstInlineData rest
      end
  end.

Definition generateKeyframeWithEdit (baseImage : InspirationFile) (editPrompt : Value) : M string :=
  response <- call generateContent GenerateContent (editRequest baseImage editPrompt) ;;
  parts <- lift (firstCandidateParts response) ;;
  match firstInlineData parts with
  | Some data => ret data
  | None => throw (Error "Nano Banana model did not return an image.")
  end.

Module Keyframe.
Record t : Type := { base64 : string; mimeType : string }.
End Keyframe.

Definition keyframePromptRequest (script : Script) (aspectRatio : string) : Sdk.ContentRequest.t :=
  {| Sdk.ContentRequest.model := "gemini-2.5-flash";
     Sdk.ContentRequest.contents :=
       Sdk.Prompt
         ("Based on the following script, create a single, concise, and highly descriptive prompt for an image generation AI (Imagen 4.0) to create a beautiful and representative keyframe image. The prompt should capture the core visual essence, style, and mood of the story. The aspect ratio should be " ++ aspectRatio ++ "." ++ nl ++
          "        " ++ nl ++
          "        Script Title: " ++ dq ++ title script ++ dq ++ nl ++
          "        Script Logline: " ++ dq ++ logline script ++ dq ++ nl ++
          "        Full Script: " ++ dq ++ fullScript script ++ dq ++ nl ++
          "        " ++ nl ++
          "        The final output should be just the prompt text, nothing else.");
     Sdk.ContentRequest.config := None |}.

Definition validAspectRatios : list string := ["1:1"; "3:4"; "4:3"; "9:16"; "16:9"].

(** [Array.prototype.includes] on strings. *)
Definition includes (items : list string) (s : string) : bool :=
  existsb (String.eqb s) items.

Definition validatedAspectRatio (aspectRatio : string) : string :=
  if includes validAspectRatios aspectRatio then aspectRatio else "16:9".

Definition imagesRequest (imagePrompt aspectRatio : string) : Sdk.ImagesRequest.t :=
  {| Sdk.ImagesRequest.model := "imagen-4.0-generate-001";
     Sdk.ImagesRequest.prompt := imagePrompt;
     Sdk.ImagesRequest.config :=
       {| Sdk.ImagesConfig.numberOfImages := 1;
          Sdk.ImagesConfig.outputMimeType := "image/png";
          Sdk.ImagesConfig.aspectRatio := validatedAspectRatio aspectRatio |} |}.

(** [promptGenResponse.text.trim()]. *)
Definition trimmedText (response : Sdk.ContentResponse.t) : Exn + string :=
  match Sdk.ContentResponse.text response with
  | Some text => inr (trim text)
  | None => inl (TypeError "Cannot read properties of undefined (reading 'trim')")
  end.

(** [generatedImages[0].image.imageBytes], after the guard on a missing or
    empty [generatedImages]. *)
Definition firstImageBytes (response : Sdk.ImagesResponse.t) : Exn + string :=
  match Sdk.ImagesResponse.generatedImages response with
  | None | Some [] => inl (Error "Imagen model did not return an image.")
  | Some (generated :: _) =>
      match Sdk.GeneratedImage.image generated with
      | None => inl (TypeError "Cannot read properties of undefined (reading 'imageBytes')")
      | Some image => inr (Sdk.Image.imageBytes image)
      end
  end.

Definition generateInitialKeyframe (script : Script) (aspectRatio : string) : M Keyframe.t :=
  promptGenResponse <- call generateContent GenerateContent
                         (keyframePromptRequest script aspectRatio) ;;
  imagePrompt <- lift (trimmedText promptGenResponse) ;;
  imageGenResponse <- call generateImages GenerateImages
                        (imagesRequest imagePrompt aspectRatio) ;;
  base64ImageBytes <- lift (firstImageBytes imageGenResponse) ;;
  ret {| Keyframe.base64 := base64ImageBytes; Keyframe.mimeType := "image/png" |}.

(** ** [generateVideo] *)

Definition videosRequest (videoPrompt : Value) (keyframeImageBase64 mimeType : string)
  : Sdk.VideosRequest.t :=
  {| Sdk.VideosRequest.model := "veo-2.0-generate-001";
     Sdk.VideosRequest.prompt := videoPrompt;
     Sdk.VideosRequest.image :=
       {| Sdk.Image.imageBytes := keyframeImageBase64; Sdk.Image.mimeType := mimeType |};
     Sdk.VideosRequest.numberOfVideos := 1 |}.

(** [while (!operation.done) { wait 10000 ms; operation = poll }].
    [polls] bounds the iterations this run is given; the source has no
    bound, and a run that uses them all up is still [Polling]. *)
Fixpoint pollUntilDone (polls : nat) (operation : Sdk.Operation.t) : M Sdk.Operation.t :=
  if Sdk.Operation.done operation then ret operation
  else
    match polls with
    | O => polling
    | S polls' =>
        sleep 10000 ;;
        refreshed <- call getVideosOperation GetVideosOperation operation ;;
        pollUntilDone polls' refreshed
    end.

(** [operation.response?.generatedVideos?.[0]?.video?.uri]. *)
Definition downloadLinkOf (operation : Sdk.Operation.t) : option string :=
  match Sdk.Operation.response operation with
  | None => None
  | Some response =>
      match Sdk.VideosResponse.generatedVideos response with
      | None => None
      | Some videos =>
          match nth_error videos 0 with
          | None => None
          | Some generated =>
              match Sdk.GeneratedVideo.video generated with
              | None => None
              | Some video => Sdk.Video.uri video
              end
          end
      end
  end.

Definition VideoLinkMissing : Exn := Error "Video generation did not produce a download link.".

(** The statements after the loop: [!downloadLink] rejects a missing and an
    empty link. *)
Definition resolveDownloadLink (operation : Sdk.Operation.t) : M string :=
  match downloadLinkOf operation with
  | Some downloadLink =>
      if nonempty downloadLink then ret downloadLink else throw VideoLinkMissing
  | None => throw VideoLinkMissing
  end.

Definition generateVideo (polls : nat) (videoPrompt : Value)
    (keyframeImageBase64 mimeType : string) : M string :=
  operation <- call generateVideos GenerateVideos
                 (videosRequest videoPrompt keyframeImageBase64 mimeType) ;;
  finished <- pollUntilDone polls operation ;;
  resolveDownloadLink finished.

(** ** [generateVideoFromScript] *)

Module VideoResult.
Record t : Type := { videoUrl : string; keyframeUrl : string }.
End VideoResult.

Definition updateLoadingMessage (message : string) : M unit := emit (Progress message).

Definition PipelineFailed : Exn := Error "Failed to generate the final video.".

Definition EditPromptMissing : Exn := Error "Failed to generate a keyframe editing prompt.".

(** [userInput.inspirationImages[0]] followed by the read of its
    [mimeType]. *)
Definition firstInspirationImage (userInput : UserInput) : Exn + InspirationFile :=
  match nth_error (inspirationImages userInput) 0 with
  | Some inspirationImage => inr inspirationImage
  | None => inl (TypeError "Cannot read properties of undefined (reading 'mimeType')")
  end.

(** [fetch(`${videoApiUrl}&key=${process.env.API_KEY}`)]. *)
Definition fetchVideo (videoApiUrl : string) : M Sdk.FetchResponse.t :=
  fun w => call fetch Fetch (videoApiUrl ++ "&key=" ++ API_KEY w) w.

Definition URL_createObjectURL (blob : string) : M string :=
  fun w t => let url := createObjectURL w t blob in
             (Returned url, (t ++ [CreateObjectURL blob url])%list).

(** The [if]/[else] of the [try] block: it settles [keyframeBase64],
    [keyframeMimeType] and [videoPrompt]. *)
Definition prepareKeyframe (script : Script) (userInput : UserInput)
  : M (string * string * Value) :=
  if (0 <? List.length (inspirationImages userInput))%nat then
    inspirationImage <- lift (firstInspirationImage userInput) ;;
    let keyframeMimeType := mimeType inspirationImage in
    updateLoadingMessage "Developing creative prompts for AI models..." ;;
    prompts <- getVideoGenerationPrompts script true ;;
    videoPrompt <- lift (Js.get prompts "videoPrompt") ;;
    updateLoadingMessage "Editing inspiration image to create a keyframe..." ;;
    keyframeEditPrompt <- lift (Js.get prompts "keyframeEditPrompt") ;;
    (if negb (truthy keyframeEditPrompt) then throw EditPromptMissing else ret tt) ;;
    keyframeBase64 <- generateKeyframeWithEdit inspirationImage keyframeEditPrompt ;;
    ret (keyframeBase64, keyframeMimeType, videoPrompt)
  else
    updateLoadingMessage "Generating a keyframe image from your script..." ;;
    keyframe <- generateInitialKeyframe script (aspectRatio userInput) ;;
    updateLoadingMessage "Developing a video prompt from your script..." ;;
    prompts <- getVideoGenerationPrompts script false ;;
    videoPrompt <- lift (Js.get prompts "videoPrompt") ;;
    ret (Keyframe.base64 keyframe, Keyframe.mimeType keyframe, videoPrompt).

(** The statements of the [try] block after the [if]/[else]. *)
Definition synthesizeAndDownload (polls : nat) (prepared : string * string * Value)
  : M VideoResult.t :=
  let '(keyframeBase64, keyframeMimeType, videoPrompt) := prepared in
  updateLoadingMessage "Generating video with VEO 2.0 (this may take several minutes)..." ;;
  videoApiUrl <- generateVideo polls videoPrompt keyframeBase64 keyframeMimeType ;;
  updateLoadingMessage "Downloading generated video..." ;;
  response <- fetchVideo videoApiUrl ;;
  (if negb (Sdk.FetchResponse.ok response)
   then throw (Error ("Failed to download video: " ++ Sdk.FetchResponse.statusText response))
   else ret tt) ;;
  videoBlob <- lift (Sdk.FetchResponse.blob response) ;;
  videoUrl <- URL_createObjectURL videoBlob ;;
  let keyframeUrl := "data:" ++ keyframeMimeType ++ ";base64," ++ keyframeBase64 in
  ret {| VideoResult.videoUrl := videoUrl; VideoResult.keyframeUrl := keyframeUrl |}.

Definition generateVideoFromScript_try (polls : nat) (script : Script) (userInput : UserInput)
  : M VideoResult.t :=
  prepared <- prepareKeyframe script userInput ;;
  synthesizeAndDownload polls prepared.

(** The [catch] block: log the cause, throw the one pipeline error. *)
Definition generateVideoFromScript_catch (error : Exn) : M VideoResult.t :=
  console_error "Error in video generation pipeline:" error ;;
  throw PipelineFailed.

Definition generateVideoFromScript (polls : nat) (script : Script) (userInput : UserInput)
  : M VideoResult.t :=
  try_catch (generateVideoFromScript_try polls script userInput)
    generateVideoFromScript_catch.

(** ** [handleScriptGeneration] of [App.tsx] *)

Module App.

Record State : Type := {
  stage : Stage;
  error : option string;
  isLoading : bool;
  scripts : Value
}.

(** [err instanceof Error ? err.message : "An unknown error occurred."]. *)
Definition messageOf (err : Exn) : string :=
  match err with
  | Error message | TypeError message | SyntaxError message => message
  | Rejected _ => "An unknown error occurred."
  end.

Definition handleScriptGeneration (userInput : UserInput) (state : State) (w : World) (t : Trace)
  : State * Trace :=
  let attempt :=
    generatedScripts <- generateScripts userInput ;;
    len <- lift (Js.get generatedScripts "length") ;;
    ret (generatedScripts, len) in
  match attempt w t with
  | (Returned (generatedScripts, len), t') =>
      if is_zero len then
        ({| stage := stage state;
            error := Some "The AI couldn't generate any scripts. Try adjusting your inputs.";
            isLoading := false;
            scripts := scripts state |}, t')
      else
        ({| stage := SCRIPT_SELECT; error := None; isLoading := false;
            scripts := generatedScripts |}, t')
  | (Threw err, t') =>
      ({| stage := stage state; error := Some (messageOf err); isLoading := false;
          scripts := scripts state |}, t')
  | (Polling, t') =>
      ({| stage := stage state; error := None; isLoading := true;
          scripts := scripts state |}, t')
  end.

End App.

(** ** Reading a trace *)

(** The response schemas a trace shows being sent to the text model. *)
Definition schemaSent (e : Event) : option Sdk.Schema :=
  match e with
  | GenerateContent request _ =>
      match Sdk.ContentRequest.config request with
      | Some config => Sdk.Config.responseSchema config
      | None => None
      end
  | _ => None
  end.

(** The prompt texts a trace shows being sent to the text model. *)
Definition promptSent (e : Event) : option string :=
  match e with
  | GenerateContent request _ =>
      match Sdk.ContentRequest.contents request with
      | Sdk.Prompt text => Some text
      | Sdk.Parts _ => None
      end
  | _ => None
  end.

(** The aspect ratios a trace shows being sent to image synthesis. *)
Definition aspectRatioSent (e : Event) : option string :=
  match e with
  | GenerateImages request _ =>
      Some (Sdk.ImagesConfig.aspectRatio (Sdk.ImagesRequest.config request))
  | _ => None
  end.

(** An image-edit call: a [generateContent] whose contents are parts. *)
Definition editCall (e : Event) : option (list Sdk.Part.t) :=
  match e with
  | GenerateContent request _ =>
      match Sdk.ContentRequest.contents request with
      | Sdk.Parts parts => Some parts
      | Sdk.Prompt _ => None
      end
  | _ => None
  end.

Definition isEditCall (e : Event) : bool :=
  match editCall e with Some _ => true | None => false end.

Definition isSynthesisCall (e : Event) : bool :=
  match e with GenerateImages _ _ => true | _ => false end.

(** The operation states a trace shows the poller observing. *)
Definition operationObserved (e : Event) : option Sdk.Operation.t :=
  match e with
  | GenerateVideos _ (inr operation) => Some operation
  | GetVideosOperation _ (inr operation) => Some operation
  | _ => None
  end.

(** A remote call the trace shows being rejected. *)
Definition isRejection (e : Event) : bool :=
  match e with
  | GenerateContent _ (inl _) | GenerateImages _ (inl _) | GenerateVideos _ (inl _)
  | GetVideosOperation _ (inl _) | Fetch _ (inl _) => true
  | _ => false
  end.

(** The events of a poll loop that starts at [operation] and gets the
    [answers] one after the other: each poll comes right after a wait of
    10000 milliseconds and sends the operation state obtained last. *)
Fixpoint pollTrace (operation : Sdk.Operation.t) (answers : list Sdk.Operation.t) : Trace :=
  match answers with
  | [] => []
  | refreshed :: rest =>
      Sleep 10000 :: GetVideosOperation operation (inr refreshed) :: pollTrace refreshed rest
  end.

Definition notDone (operation : Sdk.Operation.t) : Prop :=
  Sdk.Operation.done operation = false.

(** [select f t]: the values [f] reads off the events of [t], in order. *)
Fixpoint select {A} (f : Event -> option A) (t : Trace) : list A :=
  match t with
  | [] => []
  | e :: rest =>
      match f e with
      | Some a => a :: select f rest
      | None => select f rest
      end
  end.

(** ** Sample environments

    A world in which every remote call is rejected, and ways to script the
    answers of one service after another. *)

Module Sample.

Definition offline : World :=
  {| API_KEY := "KEY";
     generateContent := fun _ _ => inl (Rejected "offline");
     generateImages := fun _ _ => inl (Rejected "offline");
     generateVideos := fun _ _ => inl (Rejected "offline");
     getVideosOperation := fun _ _ => inl (Rejected "offline");
     fetch := fun _ _ => inl (Rejected "offline");
     createObjectURL := fun _ _ => "blob:video";
     JSON_parse := fun _ => None |}.

Definition textResponse (text : string) : Sdk.ContentResponse.t :=
  {| Sdk.ContentResponse.text := Some text; Sdk.ContentResponse.candidates := None |}.

(** A text model that answers every prompt with [text], and a [JSON.parse]
    that knows the given texts. *)
Definition answering (text : string) (parse : string -> option Value) : World :=
  {| API_KEY := "KEY";
     generateContent := fun _ _ => inr (textResponse text);
     generateImages := generateImages offline;
     generateVideos := generateVideos offline;
     getVideosOperation := getVideosOperation offline;
     fetch := fetch offline;
     createObjectURL := createObjectURL offline;
     JSON_parse := parse |}.

Definition script : Script :=
  {| title := "Harbour"; logline := "A boat leaves at dawn."; fullScript := "Scene 1: the quay." |}.

Definition image (mime : string) : InspirationFile :=
  {| base64 := "AAAA"; mimeType := mime; name := "sunset.webp";
     description := "warm sunset tones"; previewUrl := "blob:preview" |}.

Definition audio (bytes : string) : InspirationFile :=
  {| base64 := bytes; mimeType := "audio/mpeg"; name := "theme.mp3";
     description := ""; previewUrl := "" |}.

Definition brief (images : list InspirationFile) (track : option InspirationFile)
    (ratio : string) : UserInput :=
  {| idea := "A robot chef"; inspirationImages := images; inspirationVideos := [];
     inspirationAudio := track; duration := "15"; mood := "Nostalgic";
     aspectRatio := ratio; audience := "General audience on social media" |}.

(** The JSON texts the sample models answer with, and what [JSON.parse]
    makes of them. *)
Definition emptyObjectText : string := "{}".
Definition noScriptsText : string := "{" ++ dq ++ "scripts" ++ dq ++ ":[]}".
Definition videoOnlyText : string :=
  "{" ++ dq ++ "videoPrompt" ++ dq ++ ":" ++ dq ++ "A boat at dawn" ++ dq ++ "}".
Definition emptyEditText : string :=
  "{" ++ dq ++ "videoPrompt" ++ dq ++ ":" ++ dq ++ "A boat at dawn" ++ dq ++ ","
  ++ dq ++ "keyframeEditPrompt" ++ dq ++ ":" ++ dq ++ dq ++ "}".
Definition bothPromptsText : string :=
  "{" ++ dq ++ "videoPrompt" ++ dq ++ ":" ++ dq ++ "A boat at dawn" ++ dq ++ ","
  ++ dq ++ "keyframeEditPrompt" ++ dq ++ ":" ++ dq ++ "Add fog" ++ dq ++ "}".

Definition knownJson : list (string * Value) :=
  [ ("null", Null);
    (emptyObjectText, Obj []);
    (noScriptsText, Obj [("scripts", Arr [])]);
    (videoOnlyText, Obj [("videoPrompt", Str "A boat at dawn")]);
    (emptyEditText, Obj [("videoPrompt", Str "A boat at dawn"); ("keyframeEditPrompt", Str "")]);
    (bothPromptsText,
     Obj [("videoPrompt", Str "A boat at dawn"); ("keyframeEditPrompt", Str "Add fog")]) ].

Fixpoint parseKnown (table : list (string * Value)) (s : string) : option Value :=
  match table with
  | [] => None
  | (text, v) :: rest => if String.eqb text s then Some v else parseKnown rest s
  end.

Definition parse : string -> option Value := parseKnown knownJson.

(** A studio in which every service works.  The text model answers a
    request for JSON with [promptsText] and any other prompt with a padded
    line of prose; the edit model returns a text part and then a JPEG; the
    video operation is done at the [needed]-th poll. *)
Definition editedImage : Sdk.ContentResponse.t :=
  {| Sdk.ContentResponse.text := None;
     Sdk.ContentResponse.candidates :=
       Some [ {| Sdk.Candidate.content :=
                   Some {| Sdk.Content.parts :=
                             Some [ {| Sdk.Part.inlineData := None;
                                       Sdk.Part.text := Some (Str "Here is the keyframe.") |};
                                    {| Sdk.Part.inlineData :=
                                         Some {| Sdk.Blob.data := "RURJVEVE";
                                                 Sdk.Blob.mimeType := "image/jpeg" |};
                                       Sdk.Part.text := None |} ] |} |} ] |}.

Definition synthesizedImage : Sdk.ImagesResponse.t :=
  {| Sdk.ImagesResponse.generatedImages :=
       Some [ {| Sdk.GeneratedImage.image :=
                   Some {| Sdk.Image.imageBytes := "iVBORw0KGgo";
                           Sdk.Image.mimeType := "image/png" |} |} ] |}.

Definition pendingOperation : Sdk.Operation.t :=
  {| Sdk.Operation.name := "operations/42"; Sdk.Operation.done := false;
     Sdk.Operation.response := None |}.

Definition finishedOperation : Sdk.Operation.t :=
  {| Sdk.Operation.name := "operations/42"; Sdk.Operation.done := true;
     Sdk.Operation.response :=
       Some {| Sdk.VideosResponse.generatedVideos :=
                 Some [ {| Sdk.GeneratedVideo.video :=
                             Some {| Sdk.Video.uri :=
                                       Some "https://video.example/clip?alt=media" |} |} ] |} |}.

Definition isPoll (e : Event) : option unit :=
  match e with GetVideosOperation _ _ => Some tt | _ => None end.

Definition studio (promptsText : string) (needed : nat) : World :=
  {| API_KEY := "KEY";
     generateContent := fun _ request =>
       match Sdk.ContentRequest.contents request, Sdk.ContentRequest.config request with
       | Sdk.Parts _, _ => inr editedImage
       | Sdk.Prompt _, Some _ => inr (textResponse promptsText)
       | Sdk.Prompt _, None => inr (textResponse "  A quay at dawn, film grain.  ")
       end;
     generateImages := fun _ _ => inr synthesizedImage;
     generateVideos := fun _ _ => inr pendingOperation;
     getVideosOperation := fun history _ =>
       if (needed <=? S (List.length (select isPoll history)))%nat
       then inr finishedOperation else inr pendingOperation;
     fetch := fun _ _ =>
       inr {| Sdk.FetchResponse.ok := true; Sdk.FetchResponse.statusText := "OK";
              Sdk.FetchResponse.blob := inr "AAAAIGZ0eXBpc29t" |};
     createObjectURL := fun _ _ => "blob:video";
     JSON_parse := parseKnown knownJson |}.

(** The same studio with a video service that never finishes. *)
Definition stalled : World :=
  {| API_KEY := "KEY";
     generateContent := generateContent (studio "{}" 0);
     generateImages := generateImages (studio "{}" 0);
     generateVideos := generateVideos (studio "{}" 0);
     getVideosOperation := fun _ _ => inr pendingOperation;
     fetch := fetch (studio "{}" 0);
     createObjectURL := createObjectURL (studio "{}" 0);
     JSON_parse := JSON_parse (studio "{}" 0) |}.

(** The studio (video done at the first poll) with a download that is
    refused. *)
Definition forbidden : World :=
  {| API_KEY := "KEY";
     generateContent := generateContent (studio bothPromptsText 1);
     generateImages := generateImages (studio bothPromptsText 1);
     generateVideos := generateVideos (studio bothPromptsText 1);
     getVideosOperation := getVideosOperation (studio bothPromptsText 1);
     fetch := fun _ _ =>
       inr {| Sdk.FetchResponse.ok := false; Sdk.FetchResponse.statusText := "Forbidden";
              Sdk.FetchResponse.blob := inr "" |};
     createObjectURL := createObjectURL (studio bothPromptsText 1);
     JSON_parse := parse |}.

End Sample.

(** ** What the remote answer to [generateScripts] was

    The three ways the [try] block of [generateScripts] can go, read off the
    world's answer to its one request. *)

Definition callFails (userInput : UserInput) (w : World) (t : Trace) : Prop :=
  exists e, generateContent w t (scriptsRequest userInput) = inl e.

Definition parseFails (userInput : UserInput) (w : World) (t : Trace) : Prop :=
  exists response e,
    generateContent w t (scriptsRequest userInput) = inr response
    /\ parseText w (Sdk.ContentResponse.text response) = inl e.

Definition parsesTo (userInput : UserInput) (w : World) (t : Trace) (v : Value) : Prop :=
  exists response,
    generateContent w t (scriptsRequest userInput) = inr response
    /\ parseText w (Sdk.ContentResponse.text response) = inr v.

(** [null] and [undefined]: the values no property can be read from. *)
Definition nullish (v : Value) : Prop := v = Null \/ v = Undefined.

(** Claim C6 as the specification words it: the error is raised exactly
    when the call or the parse fails. *)
Definition error_iff_call_or_parse_fails (userInput : UserInput) (w : World) : Prop :=
  fst (run (generateScripts userInput) w) = Threw ScriptGenerationFailed
  <-> callFails userInput w [] \/ parseFails userInput w [].

(** ** The two paths of the orchestrator, as a trace shows them *)

(** An event that belongs to neither keyframe path and sends no schema:
    progress, video submission and polling, download, logging. *)
Definition neutral (e : Event) : Prop :=
  editCall e = None /\ isSynthesisCall e = false /\ schemaSent e = None.

(** An event of the edit path: never image synthesis; a schema, if one is
    sent, is the one with the edit prompt; an edit call carries the given
    inspiration image and an edit prompt that is truthy. *)
Definition onEditPath (inspirationImage : InspirationFile) (e : Event) : Prop :=
  isSynthesisCall e = false
  /\ (forall schema, schemaSent e = Some schema -> schema = promptsSchema true)
  /\ (forall parts,
        editCall e = Some parts ->
        exists editPrompt,
          truthy editPrompt = true
          /\ Sdk.Parts parts
             = Sdk.ContentRequest.contents (editRequest inspirationImage editPrompt)).

(** An event of the synthesis path: never an edit call; a schema, if one is
    sent, is the one without the edit prompt. *)
Definition onSynthesisPath (e : Event) : Prop :=
  isEditCall e = false
  /\ (forall schema, schemaSent e = Some schema -> schema = promptsSchema false).

(** [keyframeEditPrompt] as the orchestrator reads it off the derived
    prompts. *)
Definition editPromptOf (prompts : Value) : Value :=
  match Js.get prompts "keyframeEditPrompt" with
  | inr editPrompt => editPrompt
  | inl _ => Undefined
  end.


(** Claim C1 as the specification words it, for the schemas one call
    sends. *)
Definition requires_edit_prompt_iff_needed (script : Script) (needsEditPrompt : bool)
    (w : World) : Prop :=
  forall schema,
    In schema (select schemaSent (snd (run (getVideoGenerationPrompts script needsEditPrompt) w))) ->
    In "videoPrompt" (Sdk.required_of schema)
    /\ (In "keyframeEditPrompt" (Sdk.required_of schema) <-> needsEditPrompt = true)
    /\ (needsEditPrompt = false -> ~ In "keyframeEditPrompt" (Sdk.names_of schema)).

(** ** The rest of [App.tsx]

    The parts of the component that are plain state updates: the rotation
    of the waiting messages, the edit of an inspiration's description with
    the index arithmetic of the list that calls it, the options of the
    aspect-ratio select, and [handleVideoGeneration]. *)

(** The progress message an event carries to the caller. *)
Definition progressOf (e : Event) : option string :=
  match e with Progress message => Some message | _ => None end.

Module Session.

Definition INITIAL_USER_INPUT : UserInput :=
  {| idea := "";
     inspirationImages := [];
     inspirationVideos := [];
     inspirationAudio := None;
     duration := "15";
     mood := "Cinematic";
     aspectRatio := "9:16";
     audience := "General audience on social media" |}.

Definition VEO_GENERATION_MESSAGES : list string :=
  [ "Warming up the director's chair...";
    "Analyzing your creative vision...";
    "Breaking down your script into shots...";
    "Generating a keyframe to set the mood...";
    "Assembling the first scene...";
    "Rendering high-fidelity visuals...";
    "This can take a few minutes, the best art takes time.";
    "Applying cinematic color grading...";
    "Adding final touches to the masterpiece...";
    "Almost there, preparing the final cut..." ].

(** The [value]s of the [option]s of the aspect-ratio [Select]. *)
Definition aspectRatioOptions : list string := ["9:16"; "16:9"; "1:1"; "4:3"; "3:4"].

(** The interval callback of the effect:
    [messageIndex = (messageIndex + 1) % VEO_GENERATION_MESSAGES.length]. *)
Definition nextMessageIndex (messageIndex : nat) : nat :=
  (messageIndex + 1) mod List.length VEO_GENERATION_MESSAGES.

(** [messageIndex] after the given number of ticks; it starts at 0. *)
Fixpoint messageIndexAfter (ticks : nat) : nat :=
  match ticks with
  | O => 0
  | S earlier => nextMessageIndex (messageIndexAfter earlier)
  end.

(** [VEO_GENERATION_MESSAGES[messageIndex]], [None] for [undefined]. *)
Definition loadingMessageAfter (ticks : nat) : option string :=
  nth_error VEO_GENERATION_MESSAGES (messageIndexAfter ticks).

Inductive InspirationType : Type := image | video.

(** [array[index]] for a JavaScript number that is an integer. *)
Definition at_index {A} (items : list A) (index : Z) : option A :=
  if (index <? 0)%Z then None else nth_error items (Z.to_nat index).

Definition withDescription (file : InspirationFile) (text : string) : InspirationFile :=
  {| base64 := base64 file; mimeType := mimeType file; name := name file;
     description := text; previewUrl := previewUrl file |}.

(** The array after [array[index].description = text], for an index in
    range. *)
Fixpoint describeAt (items : list InspirationFile) (index : nat) (text : string)
  : list InspirationFile :=
  match items, index with
  | [], _ => []
  | file :: rest, O => withDescription file text :: rest
  | file :: rest, S index' => file :: describeAt rest index' text
  end.

(** [handleInspirationDescriptionChange]: the chosen array is copied, the
    description of its [index]-th element is assigned (a [TypeError] when
    there is no such element) and the copy is stored back. *)
Definition handleInspirationDescriptionChange (userInput : UserInput) (index : Z)
    (text : string) (type : InspirationType) : Exn + UserInput :=
  let targetArray :=
    match type with
    | image => inspirationImages userInput
    | video => inspirationVideos userInput
    end in
  match at_index targetArray index with
  | None => inl (TypeError "Cannot set properties of undefined (setting 'description')")
  | Some _ =>
      let updated := describeAt targetArray (Z.to_nat index) text in
      inr match type with
          | image =>
              {| idea := idea userInput;
                 inspirationImages := updated;
                 inspirationVideos := inspirationVideos userInput;
                 inspirationAudio := inspirationAudio userInput;
                 duration := duration userInput;
                 mood := mood userInput;
                 aspectRatio := aspectRatio userInput;
                 audience := audience userInput |}
          | video =>
              {| idea := idea userInput;
                 inspirationImages := inspirationImages userInput;
                 inspirationVideos := updated;
                 inspirationAudio := inspirationAudio userInput;
                 duration := duration userInput;
                 mood := mood userInput;
                 aspectRatio := aspectRatio userInput;
                 audience := audience userInput |}
          end
  end.

(** [file.mimeType.startsWith('image')]. *)
Definition isImage (file : InspirationFile) : bool := String.prefix "image" (mimeType file).

(** [isImage ? index : index - userInput.inspirationImages.length]. *)
Definition originalIndex (userInput : UserInput) (file : InspirationFile) (index : Z) : Z :=
  if isImage file then index
  else (index - Z.of_nat (List.length (inspirationImages userInput)))%Z.

(** The [onChange] of the description box rendered for the [index]-th
    entry of [[...inspirationImages, ...inspirationVideos]]. *)
Definition describeRendered (userInput : UserInput) (index : nat) (text : string)
  : option (Exn + UserInput) :=
  match nth_error (inspirationImages userInput ++ inspirationVideos userInput)%list index with
  | None => None
  | Some file =>
      Some (handleInspirationDescriptionChange userInput
              (originalIndex userInput file (Z.of_nat index)) text
              (if isImage file then image else video))
  end.

(** The state [handleVideoGeneration] reads and writes. *)
Record State : Type := {
  stage : Stage;
  userInput : UserInput;
  error : option string;
  selectedScript : option Script;
  finalVideoUrl : option string;
  finalKeyframeUrl : option string
}.

(** [err instanceof Error ? err.message
     : "An unknown error occurred during video generation."]. *)
Definition videoErrorMessage (err : Exn) : string :=
  match err with
  | Error message | TypeError message | SyntaxError message => message
  | Rejected _ => "An unknown error occurred during video generation."
  end.

(** [handleVideoGeneration]; [polls] bounds the polls the pipeline is
    given, and a pipeline still polling leaves the stage at
    [GENERATING_VIDEO]. *)
Definition handleVideoGeneration (polls : nat) (script : Script) (state : State)
    (w : World) (t : Trace) : State * Trace :=
  match generateVideoFromScript polls script (userInput state) w t with
  | (Returned result, t') =>
      ({| stage := RESULT; userInput := userInput state; error := None;
          selectedScript := Some script;
          finalVideoUrl := Some (VideoResult.videoUrl result);
          finalKeyframeUrl := Some (VideoResult.keyframeUrl result) |}, t')
  | (Threw err, t') =>
      ({| stage := SCRIPT_SELECT; userInput := userInput state;
          error := Some (videoErrorMessage err);
          selectedScript := Some script;
          finalVideoUrl := finalVideoUrl state;
          finalKeyframeUrl := finalKeyframeUrl state |}, t')
  | (Polling, t') =>
      ({| stage := GENERATING_VIDEO; userInput := userInput state; error := None;
          selectedScript := Some script;
          finalVideoUrl := finalVideoUrl state;
          finalKeyframeUrl := finalKeyframeUrl state |}, t')
  end.

End Session.

(** ** The progress a run reports

    [reports m messages]: a run of [m] only appends to the trace, the
    progress messages it appends are an initial part of [messages], in that
    order, and all of them when the run returned. *)
Definition reports {A} (m : M A) (messages : list string) : Prop :=
  forall w t,
  exists d,
    snd (m w t) = (t ++ d)%list
    /\ (exists rest, messages = (select progressOf d ++ rest)%list)
    /\ (forall a, fst (m w t) = Returned a -> select progressOf d = messages).

Definition editPathMessages : list string :=
  [ "Developing creative prompts for AI models...";
    "Editing inspiration image to create a keyframe...";
    "Generating video with VEO 2.0 (this may take several minutes)...";
    "Downloading generated video..." ].

Definition synthesisPathMessages : list string :=
  [ "Generating a keyframe image from your script...";
    "Developing a video prompt from your script...";
    "Generating video with VEO 2.0 (this may take several minutes)...";
    "Downloading generated video..." ].

(** ** More sample environments *)

Module MoreSamples.

(** An edit model that answers with words only. *)
Definition wordsOnly : Sdk.ContentResponse.t :=
  {| Sdk.ContentResponse.text := None;
     Sdk.ContentResponse.candidates :=
       Some [ {| Sdk.Candidate.content :=
                   Some {| Sdk.Content.parts :=
                             Some [ {| Sdk.Part.inlineData := None;
                                       Sdk.Part.text := Some (Str "I cannot edit this.") |} ] |} |} ] |}.

(** A finished operation that carries no video. *)
Definition emptyOperation : Sdk.Operation.t :=
  {| Sdk.Operation.name := "operations/43"; Sdk.Operation.done := true;
     Sdk.Operation.response :=
       Some {| Sdk.VideosResponse.generatedVideos := Some [] |} |}.

(** The studio of [Sample] with image models that return no image and a
    video service that is done at once, with or without a video. *)
Definition barren (withVideo : bool) : World :=
  {| API_KEY := "KEY";
     generateContent := fun _ request =>
       match Sdk.ContentRequest.contents request, Sdk.ContentRequest.config request with
       | Sdk.Parts _, _ => inr wordsOnly
       | Sdk.Prompt _, Some _ => inr (Sample.textResponse Sample.bothPromptsText)
       | Sdk.Prompt _, None => inr (Sample.textResponse "  A quay at dawn, film grain.  ")
       end;
     generateImages := fun _ _ => inr {| Sdk.ImagesResponse.generatedImages := Some [] |};
     generateVideos := fun _ _ =>
       inr (if withVideo then Sample.finishedOperation else emptyOperation);
     getVideosOperation := fun _ _ => inl (Rejected "unknown operation");
     fetch := fetch (Sample.studio Sample.bothPromptsText 1);
     createObjectURL := fun _ _ => "blob:video";
     JSON_parse := Sample.parse |}.

End MoreSamples.

(** ** Uploading inspiration files *)

Module Uploads.

(** A file as the browser hands it over: its media type, its name, and
    its content. *)
Record File : Type := { type : string; fileName : string; content : string }.

(** [text.includes(part)] on strings. *)
Fixpoint containsText (text part : string) : bool :=
  if String.prefix part text then true
  else
    match text with
    | EmptyString => false
    | String _ rest => containsText rest part
    end.

(** [await Promise.all(files.map(async file => ...))]: every file is
    encoded; when all succeed, the inspiration records in the order of the
    files.  When some fail, the promise rejects with the failure that
    happens first in time, which the files do not determine: the model keeps
    every failure, in the order of the files, and the rejection is one of
    them. *)
Fixpoint newInspirationFiles (toBase64 : File -> Exn + string)
    (createObjectURL : File -> string) (files : list File)
  : list Exn + list InspirationFile :=
  match files with
  | [] => inr []
  | file :: rest =>
      match toBase64 file, newInspirationFiles toBase64 createObjectURL rest with
      | inr encoded, inr records =>
          inr ({| base64 := encoded; mimeType := type file; name := fileName file;
                  description := ""; previewUrl := createObjectURL file |} :: records)
      | inr _, inl causes => inl causes
      | inl e, inr _ => inl [e]
      | inl e, inl causes => inl (e :: causes)
      end
  end.

(** What [handleInspirationFilesChange] does to [userInput]: nothing when
    the input has no file list; otherwise the new records are appended to
    the list its [type] argument names, or, when an encoding failed, the
    handler rejects (with one of the failures kept on the left) before any
    update.  ([toBase64] is the helper of [utils/fileUtils]; the
    [loadedmetadata] callbacks the video branch registers run later, as
    handlers of their own.) *)
Definition handleInspirationFilesChange (toBase64 : File -> Exn + string)
    (createObjectURL : File -> string) (userInput : UserInput)
    (files : option (list File)) (type : Session.InspirationType)
  : list Exn + UserInput :=
  match files with
  | None => inr userInput
  | Some files =>
      match newInspirationFiles toBase64 createObjectURL files with
      | inl causes => inl causes
      | inr records =>
          inr match type with
              | Session.image =>
                  {| idea := idea userInput;
                     inspirationImages := inspirationImages userInput ++ records;
                     inspirationVideos := inspirationVideos userInput;
                     inspirationAudio := inspirationAudio userInput;
                     duration := duration userInput;
                     mood := mood userInput;
                     aspectRatio := aspectRatio userInput;
                     audience := audience userInput |}
              | Session.video =>
                  {| idea := idea userInput;
                     inspirationImages := inspirationImages userInput;
                     inspirationVideos := inspirationVideos userInput ++ records;
                     inspirationAudio := inspirationAudio userInput;
                     duration := duration userInput;
                     mood := mood userInput;
                     aspectRatio := aspectRatio userInput;
                     audience := audience userInput |}
              end
      end
  end.

(** The [accept] attribute of the file input for images and videos. *)
Definition inspirationAccept : string := "image/*,video/*".

(** The [onChange] of that input:
    [handleInspirationFilesChange(e,
       e.target.accept.includes('image') ? 'image' : 'video')]. *)
Definition onInspirationFiles (toBase64 : File -> Exn + string)
    (createObjectURL : File -> string) (userInput : UserInput)
    (accept : string) (files : option (list File)) : list Exn + UserInput :=
  handleInspirationFilesChange toBase64 createObjectURL userInput files
    (if containsText accept "image" then Session.image else Session.video).

(** The record an uploaded file becomes. *)
Definition recordOf (encoded : string) (createObjectURL : File -> string) (file : File)
  : InspirationFile :=
  {| base64 := encoded; mimeType := type file; name := fileName file;
     description := ""; previewUrl := createObjectURL file |}.

End Uploads.

(** * Properties *)

Open Scope list_scope.

(** ** How runs compose *)

Lemma call_eq {Q A} (ask : World -> Trace -> Q -> Exn + A) (log : Q -> Exn + A -> Event)
    (q : Q) (w : World) (t : Trace) :
  call ask log q w t =
  (match ask w t q with inl e => Threw e | inr a => Returned a end,
   t ++ [log q (ask w t q)]).
Proof. unfold call, lift. destruct (ask w t q); reflexivity. Qed.

Lemma select_app {A} (f : Event -> option A) (t d : Trace) :
  select f (t ++ d) = select f t ++ select f d.
Proof.
  induction t as [|e t IH]; simpl; [reflexivity|].
  destruct (f e); simpl; rewrite IH; reflexivity.
Qed.

(** The equations of a run, one per kind of step. *)

Lemma bind_ret {A B} (a : A) (k : A -> M B) (w : World) (t : Trace) :
  bind (ret a) k w t = k a w t.
Proof. reflexivity. Qed.

Lemma bind_throw {A B} (e : Exn) (k : A -> M B) (w : World) (t : Trace) :
  bind (throw e) k w t = (Threw e, t).
Proof. reflexivity. Qed.

Lemma bind_emit {B} (e : Event) (k : unit -> M B) (w : World) (t : Trace) :
  bind (emit e) k w t = k tt w (t ++ [e]).
Proof. reflexivity. Qed.

Lemma bind_lift {A B} (r : Exn + A) (k : A -> M B) (w : World) (t : Trace) :
  bind (lift r) k w t =
  match r with
  | inl e => (Threw e, t)
  | inr a => k a w t
  end.
Proof. destruct r; reflexivity. Qed.

Lemma bind_call {Q A B} (ask : World -> Trace -> Q -> Exn + A) (log : Q -> Exn + A -> Event)
    (q : Q) (k : A -> M B) (w : World) (t : Trace) :
  bind (call ask log q) k w t =
  match ask w t q with
  | inl e => (Threw e, t ++ [log q (inl e)])
  | inr a => k a w (t ++ [log q (inr a)])
  end.
Proof. unfold bind. rewrite call_eq. destruct (ask w t q); reflexivity. Qed.

Lemma bind_assoc {A B C} (m : M A) (k : A -> M B) (h : B -> M C) (w : World) (t : Trace) :
  bind (bind m k) h w t = bind m (fun a => bind (k a) h) w t.
Proof. unfold bind. destruct (m w t) as [[a | e |] t']; reflexivity. Qed.

Lemma bind_returned {A B} (m : M A) (k : A -> M B) (w : World) (t t' : Trace) (b : B) :
  bind m k w t = (Returned b, t') ->
  exists a t1, m w t = (Returned a, t1) /\ k a w t1 = (Returned b, t').
Proof.
  unfold bind. destruct (m w t) as [[a | e |] t1]; intros Hrun; try discriminate Hrun.
  exists a, t1. split; [reflexivity | exact Hrun].
Qed.

(** ** What a run adds to the trace

    [emits good m]: a run of [m] only appends to the trace, every event it
    appends is [good], and when a remote call among them was rejected the
    run threw. *)

Definition emits {A} (good : Event -> Prop) (m : M A) : Prop :=
  forall w t,
  exists d,
    snd (m w t) = t ++ d
    /\ Forall good d
    /\ (existsb isRejection d = true -> exists e, fst (m w t) = Threw e).

Lemma emits_ret {A} (good : Event -> Prop) (a : A) : emits good (ret a).
Proof.
  intros w t. exists []. rewrite app_nil_r.
  split; [reflexivity|]. split; [constructor | discriminate].
Qed.

Lemma emits_throw {A} (good : Event -> Prop) (e : Exn) : emits good (@throw A e).
Proof.
  intros w t. exists []. rewrite app_nil_r.
  split; [reflexivity|]. split; [constructor | discriminate].
Qed.

Lemma emits_polling {A} (good : Event -> Prop) : emits good (@polling A).
Proof.
  intros w t. exists []. rewrite app_nil_r.
  split; [reflexivity|]. split; [constructor | discriminate].
Qed.

Lemma emits_lift {A} (good : Event -> Prop) (r : Exn + A) : emits good (lift r).
Proof. destruct r; [apply emits_throw | apply emits_ret]. Qed.

Lemma emits_parse (good : Event -> Prop) (text : option string) :
  emits good (JSON_parse_text text).
Proof. intros w t. unfold JSON_parse_text. apply emits_lift. Qed.

Lemma emits_emit (good : Event -> Prop) (e : Event) :
  good e -> isRejection e = false -> emits good (emit e).
Proof.
  intros Hgood Hquiet w t. exists [e].
  split; [reflexivity|]. split; [constructor; [exact Hgood | constructor]|].
  simpl. rewrite Hquiet. discriminate.
Qed.

Lemma emits_call {Q A} (good : Event -> Prop) (ask : World -> Trace -> Q -> Exn + A)
    (log : Q -> Exn + A -> Event) (q : Q) :
  (forall r, good (log q r)) ->
  (forall a, isRejection (log q (inr a)) = false) ->
  emits good (call ask log q).
Proof.
  intros Hgood Hquiet w t. rewrite call_eq. exists [log q (ask w t q)].
  split; [reflexivity|]. split; [constructor; [apply Hgood | constructor]|].
  destruct (ask w t q) as [e | a]; simpl.
  - intros _. exists e. reflexivity.
  - rewrite Hquiet. discriminate.
Qed.

Lemma emits_bind {A B} (good : Event -> Prop) (m : M A) (k : A -> M B) :
  emits good m -> (forall a, emits good (k a)) -> emits good (bind m k).
Proof.
  intros Hm Hk w t. unfold bind.
  destruct (Hm w t) as (d1 & Htrace & Hgood & Hrejected).
  destruct (m w t) as [[a | e |] t1]; simpl in Htrace, Hrejected; subst t1.
  - destruct (Hk a w (t ++ d1)) as (d2 & Htrace2 & Hgood2 & Hrejected2).
    exists (d1 ++ d2). rewrite app_assoc.
    split; [exact Htrace2|]. split; [apply Forall_app; split; assumption|].
    rewrite existsb_app. intros Hsome. apply orb_true_iff in Hsome.
    destruct Hsome as [Hfirst | Hsecond].
    + destruct (Hrejected Hfirst) as [e He]. discriminate He.
    + apply Hrejected2. exact Hsecond.
  - exists d1. split; [reflexivity|]. split; [exact Hgood|]. intros _. exists e. reflexivity.
  - exists d1. split; [reflexivity|]. split; [exact Hgood|].
    intros Hsome. destruct (Hrejected Hsome) as [e He]. discriminate He.
Qed.

Lemma emits_weaken {A} (good better : Event -> Prop) (m : M A) :
  (forall e, better e -> good e) -> emits better m -> emits good m.
Proof.
  intros Himpl Hm w t. destruct (Hm w t) as (d & Htrace & Hbetter & Hrejected).
  exists d. split; [exact Htrace|]. split; [|exact Hrejected].
  eapply Forall_impl; [exact Himpl | exact Hbetter].
Qed.

(** ** The pure helpers on small inputs *)

Example trim_padded : trim "  A quay at dawn, film grain.  " = "A quay at dawn, film grain.".
Proof. reflexivity. Qed.

Example validatedAspectRatio_known : validatedAspectRatio "9:16" = "9:16".
Proof. reflexivity. Qed.

Example validatedAspectRatio_unknown : validatedAspectRatio "7:3" = "16:9".
Proof. reflexivity. Qed.

Example inspirationText_one_image :
  inspirationText (Sample.brief [Sample.image "image/webp"] None "9:16")
  = ("- Image " ++ dq ++ "sunset.webp" ++ dq ++ ": warm sunset tones")%string.
Proof. reflexivity. Qed.

Example truthy_empty_string : truthy (Str "") = false.
Proof. reflexivity. Qed.

Example editPromptOf_absent :
  editPromptOf (Obj [("videoPrompt", Str "A boat at dawn")]) = Undefined.
Proof. reflexivity. Qed.

Example downloadLinkOf_finished :
  downloadLinkOf Sample.finishedOperation = Some "https://video.example/clip?alt=media".
Proof. reflexivity. Qed.

(** ** The schema [getVideoGenerationPrompts] requests *)

(** C1, counterexample: asked for an edit prompt, the call sends a schema
    whose [required] list is still ["videoPrompt"] alone, so
    [keyframeEditPrompt] is not a required field although [needsEditPrompt]
    is true. *)
Lemma C1_edit_prompt_not_required :
  ~ requires_edit_prompt_iff_needed Sample.script true Sample.offline.
Proof.
  intros claim.
  destruct (claim (promptsSchema true)) as (_ & [_ need] & _).
  - left. reflexivity.
  - specialize (need eq_refl). simpl in need.
    destruct need as [absurd | []]. discriminate absurd.
Qed.

(** C1, as amended: every call sends exactly one schema; it requires
    [videoPrompt] and nothing else, whatever the flag; it declares
    [keyframeEditPrompt] as a property if and only if [needsEditPrompt] is
    true; and when the flag is false the name appears nowhere in it. *)
Theorem C1_prompts_schema (script : Script) (needsEditPrompt : bool) (w : World) (t : Trace) :
  exists schema,
    select schemaSent (snd (getVideoGenerationPrompts script needsEditPrompt w t))
    = select schemaSent t ++ [schema]
    /\ Sdk.required_of schema = ["videoPrompt"]
    /\ (In "keyframeEditPrompt" (map fst (Sdk.properties_of schema)) <-> needsEditPrompt = true)
    /\ (needsEditPrompt = false -> ~ In "keyframeEditPrompt" (Sdk.names_of schema)).
Proof.
  exists (promptsSchema needsEditPrompt). split.
  - unfold getVideoGenerationPrompts, bind. rewrite call_eq.
    destruct (generateContent w t (promptsRequest script needsEditPrompt)) as [e | response];
      simpl.
    + rewrite select_app. reflexivity.
    + unfold JSON_parse_text.
      destruct (parseText w (Sdk.ContentResponse.text response));
        simpl; rewrite select_app; reflexivity.
  - destruct needsEditPrompt; simpl.
    + split; [reflexivity|]. split; [|discriminate].
      split; [reflexivity|]. intros _. right. left. reflexivity.
    + split; [reflexivity|]. split.
      * split; [|discriminate]. intros [absurd | []]. discriminate absurd.
      * intros _ [absurd | [absurd | []]]; discriminate absurd.
Qed.

(** ** The aspect ratio [generateInitialKeyframe] sends *)

Lemma includes_In (items : list string) (s : string) :
  includes items s = true <-> In s items.
Proof.
  unfold includes. rewrite existsb_exists. split.
  - intros (x & Hx & Heq). apply String.eqb_eq in Heq. subst x. exact Hx.
  - intros Hin. exists s. split; [exact Hin | apply String.eqb_refl].
Qed.

Lemma validatedAspectRatio_valid (aspectRatio : string) :
  In (validatedAspectRatio aspectRatio) validAspectRatios.
Proof.
  unfold validatedAspectRatio.
  destruct (includes validAspectRatios aspectRatio) eqn:Hin.
  - apply includes_In. exact Hin.
  - simpl. tauto.
Qed.

(** C5: the ratio handed to image synthesis is always one of 1:1, 3:4,
    4:3, 9:16 and 16:9; each of these five goes through unchanged and any
    other input becomes 16:9; and the synthesis call is made with that ratio whenever
    the prompt step before it succeeded, whatever the input ratio was (an
    unknown ratio raises nothing). *)
Theorem C5_aspect_ratio_coerced (script : Script) (aspectRatio : string) (w : World) (t : Trace) :
  In (validatedAspectRatio aspectRatio) ["1:1"; "3:4"; "4:3"; "9:16"; "16:9"]
  /\ (In aspectRatio ["1:1"; "3:4"; "4:3"; "9:16"; "16:9"] ->
      validatedAspectRatio aspectRatio = aspectRatio)
  /\ (~ In aspectRatio ["1:1"; "3:4"; "4:3"; "9:16"; "16:9"] ->
      validatedAspectRatio aspectRatio = "16:9")
  /\ select aspectRatioSent (snd (generateInitialKeyframe script aspectRatio w t))
     = select aspectRatioSent t
       ++ match generateContent w t (keyframePromptRequest script aspectRatio) with
          | inr response =>
              match Sdk.ContentResponse.text response with
              | Some _ => [validatedAspectRatio aspectRatio]
              | None => []
              end
          | inl _ => []
          end.
Proof.
  change ["1:1"; "3:4"; "4:3"; "9:16"; "16:9"] with validAspectRatios.
  split; [apply validatedAspectRatio_valid|].
  split; [|split].
  - intros Hin. unfold validatedAspectRatio.
    apply includes_In in Hin. rewrite Hin. reflexivity.
  - intros Hout. unfold validatedAspectRatio.
    destruct (includes validAspectRatios aspectRatio) eqn:Hin; [|reflexivity].
    apply includes_In in Hin. contradiction.
  - unfold generateInitialKeyframe, bind. rewrite call_eq.
    destruct (generateContent w t (keyframePromptRequest script aspectRatio))
      as [e | response]; simpl.
    + rewrite select_app. reflexivity.
    + unfold trimmedText.
      destruct (Sdk.ContentResponse.text response) as [text|]; simpl.
      * rewrite call_eq.
        match goal with
        | |- context [generateImages w ?h ?q] => destruct (generateImages w h q) as [e | images]
        end; simpl.
        -- rewrite !select_app. simpl. rewrite <- app_assoc. reflexivity.
        -- destruct (firstImageBytes images); simpl;
             rewrite !select_app; simpl; rewrite <- app_assoc; reflexivity.
      * rewrite select_app. reflexivity.
Qed.

(** ** What [generateScripts] tells the text model about the audio *)

(** C9: two briefs that agree on everything but the audio track, and whose
    tracks are both absent or bear the same file name, lead to the same
    prompt and to the same run in every environment: the bytes of the track
    (and its other fields) reach neither the prompt nor the request. *)
Theorem C9_prompt_ignores_audio_bytes (u1 u2 : UserInput) :
  idea u1 = idea u2 ->
  inspirationImages u1 = inspirationImages u2 ->
  inspirationVideos u1 = inspirationVideos u2 ->
  duration u1 = duration u2 ->
  mood u1 = mood u2 ->
  aspectRatio u1 = aspectRatio u2 ->
  audience u1 = audience u2 ->
  option_map name (inspirationAudio u1) = option_map name (inspirationAudio u2) ->
  scriptsPrompt u1 = scriptsPrompt u2
  /\ scriptsRequest u1 = scriptsRequest u2
  /\ (forall w t, generateScripts u1 w t = generateScripts u2 w t)
  /\ (forall w t, select promptSent (snd (generateScripts u1 w t))
                  = select promptSent t ++ [scriptsPrompt u2]).
Proof.
  intros Hidea Himages Hvideos Hduration Hmood Hratio Haudience Haudio.
  assert (Hprompt : scriptsPrompt u1 = scriptsPrompt u2).
  { unfold scriptsPrompt, inspirationText, imageInspirationText, videoInspirationText.
    rewrite Hidea, Himages, Hvideos, Hduration, Hmood, Hratio, Haudience.
    destruct (inspirationAudio u1) as [a1|], (inspirationAudio u2) as [a2|];
      simpl in Haudio; try discriminate Haudio; [|reflexivity].
    injection Haudio as Hname. rewrite Hname. reflexivity. }
  assert (Hrequest : scriptsRequest u1 = scriptsRequest u2).
  { unfold scriptsRequest. rewrite Hprompt. reflexivity. }
  split; [exact Hprompt|]. split; [exact Hrequest|]. split.
  - intros w t. unfold generateScripts, generateScripts_try. rewrite Hrequest. reflexivity.
  - intros w t. unfold generateScripts, generateScripts_try, try_catch, bind.
    rewrite Hrequest, call_eq.
    destruct (generateContent w t (scriptsRequest u2)) as [e | response]; simpl.
    + rewrite !select_app. simpl. rewrite app_nil_r. reflexivity.
    + unfold JSON_parse_text.
      destruct (parseText w (Sdk.ContentResponse.text response)) as [e | v]; simpl.
      * rewrite !select_app. simpl. rewrite app_nil_r. reflexivity.
      * destruct (Js.get v "scripts"); simpl;
          rewrite !select_app; simpl; rewrite ?app_nil_r; reflexivity.
Qed.

(** C9, witness: two briefs whose audio tracks have the same name and
    different bytes. *)
Lemma C9_prompt_ignores_audio_bytes_witness :
  Sample.audio "SUQzBAAAAAAA" <> Sample.audio "T2dnUwACAAAA"
  /\ scriptsPrompt (Sample.brief [] (Some (Sample.audio "SUQzBAAAAAAA")) "9:16")
     = scriptsPrompt (Sample.brief [] (Some (Sample.audio "T2dnUwACAAAA")) "9:16").
Proof.
  split; [discriminate|].
  apply (C9_prompt_ignores_audio_bytes
           (Sample.brief [] (Some (Sample.audio "SUQzBAAAAAAA")) "9:16")
           (Sample.brief [] (Some (Sample.audio "T2dnUwACAAAA")) "9:16"));
    reflexivity.
Defined.

(** ** When [generateScripts] fails *)

(** The outcome of [generateScripts], read off the world's answer. *)
Lemma generateScripts_outcome (userInput : UserInput) (w : World) (t : Trace) :
  fst (generateScripts userInput w t) =
  match generateContent w t (scriptsRequest userInput) with
  | inl _ => Threw ScriptGenerationFailed
  | inr response =>
      match parseText w (Sdk.ContentResponse.text response) with
      | inl _ => Threw ScriptGenerationFailed
      | inr v =>
          match Js.get v "scripts" with
          | inl _ => Threw ScriptGenerationFailed
          | inr scripts => Returned (or_else scripts (Arr []))
          end
      end
  end.
Proof.
  unfold generateScripts, generateScripts_try, try_catch, bind, JSON_parse_text.
  rewrite call_eq.
  destruct (generateContent w t (scriptsRequest userInput)) as [e | response]; simpl;
    [reflexivity|].
  destruct (parseText w (Sdk.ContentResponse.text response)) as [e | v]; simpl;
    [reflexivity|].
  destruct (Js.get v "scripts"); reflexivity.
Qed.

Lemma get_fails_iff_nullish (v : Value) (key : string) :
  (exists e, Js.get v key = inl e) <-> nullish v.
Proof.
  unfold nullish. split.
  - intros [e He]. destruct v; simpl in He; try discriminate He; tauto.
  - intros [-> | ->]; simpl; eexists; reflexivity.
Qed.

(** C6, counterexample: the text model answers the four characters
    [null].  The call succeeds and [JSON.parse] succeeds, yet reading
    [scripts] from [null] throws inside the [try] block and the error is
    raised. *)
Lemma C6_null_response_raises :
  ~ error_iff_call_or_parse_fails (Sample.brief [] None "9:16")
      (Sample.answering "null" Sample.parse).
Proof.
  intros [raised _].
  destruct (raised eq_refl) as [[e He] | (response & e & Hanswer & He)].
  - discriminate He.
  - simpl in Hanswer. injection Hanswer as <-. discriminate He.
Qed.

(** A parsed response whose [scripts] is missing or the empty array:
    [generateScripts] returns the empty list after its one remote call. *)
Lemma generateScripts_empty (userInput : UserInput) (w : World) (t : Trace)
    (v scripts : Value) :
  parsesTo userInput w t v ->
  Js.get v "scripts" = inr scripts ->
  scripts = Undefined \/ scripts = Arr [] ->
  generateScripts userInput w t
  = (Returned (Arr []),
     t ++ [GenerateContent (scriptsRequest userInput)
             (generateContent w t (scriptsRequest userInput))]).
Proof.
  intros (response & Hanswer & Hparse) Hget Hempty.
  unfold generateScripts, generateScripts_try, try_catch, bind, JSON_parse_text.
  rewrite call_eq, Hanswer. simpl. rewrite Hparse. simpl. rewrite Hget. simpl.
  destruct Hempty as [-> | ->]; reflexivity.
Qed.

(** C6, as amended: [generateScripts] raises its error exactly when the
    call fails, the parse fails, or the parsed response is [null] (no
    [scripts] can be read from it); it raises no other error and always
    settles; and a parsed response whose [scripts] is missing or the empty
    array is returned as the empty list after the one remote call. *)
Theorem C6_scripts_error_cases (userInput : UserInput) (w : World) (t : Trace) :
  (fst (generateScripts userInput w t) = Threw ScriptGenerationFailed
   <-> callFails userInput w t \/ parseFails userInput w t
       \/ exists v, parsesTo userInput w t v /\ nullish v)
  /\ (forall e, fst (generateScripts userInput w t) = Threw e -> e = ScriptGenerationFailed)
  /\ fst (generateScripts userInput w t) <> Polling
  /\ (forall v scripts,
        parsesTo userInput w t v ->
        Js.get v "scripts" = inr scripts ->
        scripts = Undefined \/ scripts = Arr [] ->
        generateScripts userInput w t
        = (Returned (Arr []),
           t ++ [GenerateContent (scriptsRequest userInput)
                   (generateContent w t (scriptsRequest userInput))])).
Proof.
  split; [|split; [|split]]; [| | |apply generateScripts_empty].
  - rewrite generateScripts_outcome. unfold callFails, parseFails, parsesTo.
    destruct (generateContent w t (scriptsRequest userInput)) as [e0 | response].
    { split; [|reflexivity]. intros _. left. exists e0. reflexivity. }
    destruct (parseText w (Sdk.ContentResponse.text response)) as [e1 | v] eqn:Hparse.
    { split; [|reflexivity]. intros _. right. left. exists response, e1.
      split; [reflexivity | exact Hparse]. }
    destruct (Js.get v "scripts") as [e2 | scripts] eqn:Hget.
    { split; [|reflexivity]. intros _. right. right. exists v. split.
      - exists response. split; [reflexivity | exact Hparse].
      - apply (get_fails_iff_nullish v "scripts"). exists e2. exact Hget. }
    split; [discriminate|].
    intros [[e He] | [(r & e & Hr & He) | (v' & (r & Hr & Hv) & Hnull)]].
    + discriminate He.
    + injection Hr as Hr. subst r. congruence.
    + injection Hr as Hr. subst r. rewrite Hparse in Hv. injection Hv as Hv. subst v'.
      apply (get_fails_iff_nullish v "scripts") in Hnull. destruct Hnull as [e He].
      congruence.
  - intros e. rewrite generateScripts_outcome.
    destruct (generateContent w t (scriptsRequest userInput)) as [e0 | response];
      [congruence|].
    destruct (parseText w (Sdk.ContentResponse.text response)) as [e1 | v]; [congruence|].
    destruct (Js.get v "scripts"); congruence.
  - rewrite generateScripts_outcome.
    destruct (generateContent w t (scriptsRequest userInput)) as [e0 | response];
      [discriminate|].
    destruct (parseText w (Sdk.ContentResponse.text response)) as [e1 | v]; [discriminate|].
    destruct (Js.get v "scripts"); discriminate.
Qed.

(** C6, witness: a response that parses to an object with an empty
    [scripts] array, and one with no [scripts] at all, both come back as the
    empty list. *)
Lemma C6_scripts_error_cases_witness :
  fst (run (generateScripts (Sample.brief [] None "9:16"))
         (Sample.answering Sample.noScriptsText Sample.parse))
  = Returned (Arr [])
  /\ fst (run (generateScripts (Sample.brief [] None "9:16"))
            (Sample.answering Sample.emptyObjectText Sample.parse))
     = Returned (Arr []).
Proof.
  split.
  - pose proof (C6_scripts_error_cases (Sample.brief [] None "9:16")
                  (Sample.answering Sample.noScriptsText Sample.parse) [])
      as (_ & _ & _ & Hempty).
    unfold run.
    rewrite (Hempty (Obj [("scripts", Arr [])]) (Arr [])).
    + reflexivity.
    + eexists. split; reflexivity.
    + reflexivity.
    + right. reflexivity.
  - pose proof (C6_scripts_error_cases (Sample.brief [] None "9:16")
                  (Sample.answering Sample.emptyObjectText Sample.parse) [])
      as (_ & _ & _ & Hempty).
    unfold run.
    rewrite (Hempty (Obj []) Undefined).
    + reflexivity.
    + eexists. split; reflexivity.
    + reflexivity.
    + left. reflexivity.
Defined.

(** The caller tells the two apart: an empty list becomes the "try
    adjusting your inputs" message and the stage does not advance, while a
    failure shows the error's own message. *)
Lemma handleScriptGeneration_empty (userInput : UserInput) (state : App.State)
    (w : World) (t : Trace) (v : Value) (scripts : Value) :
  parsesTo userInput w t v ->
  Js.get v "scripts" = inr scripts ->
  scripts = Undefined \/ scripts = Arr [] ->
  fst (App.handleScriptGeneration userInput state w t)
  = {| App.stage := App.stage state;
       App.error := Some "The AI couldn't generate any scripts. Try adjusting your inputs.";
       App.isLoading := false;
       App.scripts := App.scripts state |}.
Proof.
  intros Hparsed Hget Hempty.
  unfold App.handleScriptGeneration, bind.
  rewrite (generateScripts_empty Hparsed Hget Hempty). reflexivity.
Qed.

Lemma handleScriptGeneration_failed (userInput : UserInput) (state : App.State)
    (w : World) (t : Trace) :
  fst (generateScripts userInput w t) = Threw ScriptGenerationFailed ->
  fst (App.handleScriptGeneration userInput state w t)
  = {| App.stage := App.stage state;
       App.error := Some "Failed to generate scripts from the idea.";
       App.isLoading := false;
       App.scripts := App.scripts state |}.
Proof.
  intros Hfailed.
  unfold App.handleScriptGeneration, bind.
  destruct (generateScripts userInput w t) as [outcome t']. simpl in Hfailed.
  rewrite Hfailed. reflexivity.
Qed.

(** ** The poll loop of [generateVideo] *)

Lemma pollUntilDone_done (polls : nat) (operation : Sdk.Operation.t) (w : World) (t : Trace) :
  Sdk.Operation.done operation = true ->
  pollUntilDone polls operation w t = (Returned operation, t).
Proof. intros Hdone. destruct polls; simpl; rewrite Hdone; reflexivity. Qed.

Lemma pollUntilDone_out_of_polls (operation : Sdk.Operation.t) (w : World) (t : Trace) :
  notDone operation ->
  pollUntilDone 0 operation w t = (Polling, t).
Proof. intros Hpending. simpl. rewrite Hpending. reflexivity. Qed.

Lemma pollUntilDone_step (polls : nat) (operation : Sdk.Operation.t) (w : World) (t : Trace) :
  notDone operation ->
  pollUntilDone (S polls) operation w t =
  match getVideosOperation w (t ++ [Sleep 10000]) operation with
  | inl e => (Threw e, t ++ [Sleep 10000; GetVideosOperation operation (inl e)])
  | inr refreshed =>
      pollUntilDone polls refreshed w
        (t ++ [Sleep 10000; GetVideosOperation operation (inr refreshed)])
  end.
Proof.
  intros Hpending. simpl. rewrite Hpending.
  unfold bind, sleep, emit. rewrite call_eq.
  destruct (getVideosOperation w (t ++ [Sleep 10000]) operation);
    rewrite <- app_assoc; reflexivity.
Qed.

Local Ltac flag := first [eassumption | reflexivity].

(** How the loop can stand after at most [polls] polls: it left with the
    first state whose flag is set, or it is still polling with every state
    seen so far unfinished, or a poll was rejected. *)
Lemma pollUntilDone_cases (polls : nat) :
  forall (operation : Sdk.Operation.t) (w : World) (t : Trace),
  exists answers earlier final,
    operation :: answers = earlier ++ [final]
    /\ Forall notDone earlier
    /\ List.length answers <= polls
    /\ ((pollUntilDone polls operation w t = (Returned final, t ++ pollTrace operation answers)
         /\ Sdk.Operation.done final = true)
        \/ (pollUntilDone polls operation w t = (Polling, t ++ pollTrace operation answers)
            /\ notDone final /\ List.length answers = polls)
        \/ (exists e,
              pollUntilDone polls operation w t
              = (Threw e, t ++ pollTrace operation answers
                            ++ [Sleep 10000; GetVideosOperation final (inl e)])
              /\ notDone final)).
Proof.
  induction polls as [|polls IH]; intros operation w t.
  - exists [], [], operation. simpl pollTrace. rewrite app_nil_r.
    split; [reflexivity|]. split; [constructor|]. split; [simpl; lia|].
    destruct (Sdk.Operation.done operation) eqn:Hflag.
    + left. split; [apply pollUntilDone_done; flag | flag].
    + right. left. split; [apply pollUntilDone_out_of_polls; flag|].
      split; [flag | reflexivity].
  - destruct (Sdk.Operation.done operation) eqn:Hflag.
    + exists [], [], operation. simpl pollTrace. rewrite app_nil_r.
      split; [reflexivity|]. split; [constructor|]. split; [simpl; lia|].
      left. split; [apply pollUntilDone_done; flag | flag].
    + rewrite (pollUntilDone_step polls w t Hflag).
      destruct (getVideosOperation w (t ++ [Sleep 10000]) operation) as [e | refreshed].
      * exists [], [], operation. simpl pollTrace.
        split; [reflexivity|]. split; [constructor|]. split; [simpl; lia|].
        right. right. exists e. split; [reflexivity | flag].
      * destruct (IH refreshed w
                    (t ++ [Sleep 10000; GetVideosOperation operation (inr refreshed)]))
          as (answers & earlier & final & Hsplit & Hearlier & Hlen & Hcases).
        exists (refreshed :: answers), (operation :: earlier), final.
        split; [simpl; rewrite Hsplit; reflexivity|].
        split; [constructor; [flag | exact Hearlier]|].
        split; [simpl; lia|].
        simpl pollTrace.
        destruct Hcases as [[Hrun Hdone] | [(Hrun & Hpending & Hused) | (e & Hrun & Hpending)]].
        -- left. split; [|exact Hdone]. rewrite Hrun, <- app_assoc. reflexivity.
        -- right. left. split; [|split; [exact Hpending | simpl; lia]].
           rewrite Hrun, <- app_assoc. reflexivity.
        -- right. right. exists e. split; [|exact Hpending].
           rewrite Hrun, <- !app_assoc. reflexivity.
Qed.

(** The operation states a poll trace shows. *)
Lemma select_pollTrace (operation : Sdk.Operation.t) (answers : list Sdk.Operation.t) :
  select operationObserved (pollTrace operation answers) = answers.
Proof.
  revert operation. induction answers as [|refreshed rest IH]; intros operation; simpl;
    [reflexivity|]. rewrite IH. reflexivity.
Qed.

(** More polls do not change a run that has settled. *)
Lemma pollUntilDone_more (polls : nat) :
  forall (extra : nat) (operation : Sdk.Operation.t) (w : World) (t : Trace),
    fst (pollUntilDone polls operation w t) <> Polling ->
    pollUntilDone (polls + extra) operation w t = pollUntilDone polls operation w t.
Proof.
  induction polls as [|polls IH]; intros extra operation w t Hsettled.
  - destruct (Sdk.Operation.done operation) eqn:Hflag.
    + rewrite !pollUntilDone_done by exact Hflag. reflexivity.
    + rewrite pollUntilDone_out_of_polls in Hsettled by exact Hflag.
      simpl in Hsettled. congruence.
  - destruct (Sdk.Operation.done operation) eqn:Hflag.
    + rewrite !pollUntilDone_done by exact Hflag. reflexivity.
    + change (S polls + extra) with (S (polls + extra)).
      rewrite (pollUntilDone_step (polls + extra) w t Hflag).
      rewrite (pollUntilDone_step polls w t Hflag) in Hsettled |- *.
      destruct (getVideosOperation w (t ++ [Sleep 10000]) operation) as [e | refreshed];
        [reflexivity|].
      apply IH. exact Hsettled.
Qed.

Lemma resolveDownloadLink_pure (operation : Sdk.Operation.t) (w : World) (t : Trace) :
  resolveDownloadLink operation w t = (fst (resolveDownloadLink operation w []), t).
Proof.
  unfold resolveDownloadLink.
  destruct (downloadLinkOf operation) as [link|]; [destruct (nonempty link)|]; reflexivity.
Qed.

Lemma resolveDownloadLink_returned (operation : Sdk.Operation.t) (w : World) (link : string) :
  fst (resolveDownloadLink operation w []) = Returned link ->
  downloadLinkOf operation = Some link /\ nonempty link = true.
Proof.
  unfold resolveDownloadLink.
  destruct (downloadLinkOf operation) as [found|]; [|discriminate].
  destruct (nonempty found) eqn:Hfound; [|discriminate].
  simpl. intros Heq. injection Heq as <-. split; [reflexivity | exact Hfound].
Qed.

Lemma resolveDownloadLink_settles (operation : Sdk.Operation.t) (w : World) :
  fst (resolveDownloadLink operation w []) <> Polling.
Proof.
  unfold resolveDownloadLink.
  destruct (downloadLinkOf operation) as [found|]; [destruct (nonempty found)|]; discriminate.
Qed.

(** Every way a run of [generateVideo] can stand after at most [polls]
    polls. *)
Lemma generateVideo_cases (polls : nat) (videoPrompt : Value)
    (keyframeImageBase64 mime : string) (w : World) (t : Trace) :
  let request := videosRequest videoPrompt keyframeImageBase64 mime in
  let r := generateVideo polls videoPrompt keyframeImageBase64 mime w t in
  (exists e,
     generateVideos w t request = inl e
     /\ r = (Threw e, t ++ [GenerateVideos request (inl e)]))
  \/ (exists submitted answers earlier final,
        generateVideos w t request = inr submitted
        /\ submitted :: answers = earlier ++ [final]
        /\ Forall notDone earlier
        /\ List.length answers <= polls
        /\ ((Sdk.Operation.done final = true
             /\ r = (fst (resolveDownloadLink final w []),
                     t ++ GenerateVideos request (inr submitted) :: pollTrace submitted answers))
            \/ (notDone final /\ List.length answers = polls
                /\ r = (Polling,
                        t ++ GenerateVideos request (inr submitted)
                          :: pollTrace submitted answers))
            \/ (exists e,
                  notDone final
                  /\ r = (Threw e,
                          t ++ GenerateVideos request (inr submitted)
                            :: pollTrace submitted answers
                            ++ [Sleep 10000; GetVideosOperation final (inl e)])))).
Proof.
  intros request r. subst r. unfold generateVideo, bind. fold request. rewrite call_eq.
  destruct (generateVideos w t request) as [e | submitted].
  - left. exists e. split; reflexivity.
  - right.
    destruct (pollUntilDone_cases polls submitted w (t ++ [GenerateVideos request (inr submitted)]))
      as (answers & earlier & final & Hsplit & Hearlier & Hlen & Hcases).
    exists submitted, answers, earlier, final.
    split; [reflexivity|]. split; [exact Hsplit|]. split; [exact Hearlier|].
    split; [exact Hlen|].
    destruct Hcases as [[Hrun Hdone] | [(Hrun & Hpending & Hused) | (e & Hrun & Hpending)]];
      rewrite Hrun, <- app_assoc; simpl app.
    + left. split; [exact Hdone|]. apply resolveDownloadLink_pure.
    + right. left. split; [exact Hpending|]. split; [exact Hused | reflexivity].
    + right. right. exists e. split; [exact Hpending | reflexivity].
Qed.

(** Against a service that answers every poll with an unfinished
    operation, the loop uses up every poll it is given. *)
Lemma pollUntilDone_stalled (w : World) :
  (forall history operation,
      exists refreshed,
        getVideosOperation w history operation = inr refreshed /\ notDone refreshed) ->
  forall (polls : nat) (operation : Sdk.Operation.t) (t : Trace),
    notDone operation ->
    exists answers,
      List.length answers = polls
      /\ Forall notDone answers
      /\ pollUntilDone polls operation w t = (Polling, t ++ pollTrace operation answers).
Proof.
  intros Hstalled. induction polls as [|polls IH]; intros operation t Hpending.
  - exists []. simpl pollTrace. rewrite app_nil_r.
    split; [reflexivity|]. split; [constructor|].
    apply pollUntilDone_out_of_polls. exact Hpending.
  - rewrite (pollUntilDone_step polls w t Hpending).
    destruct (Hstalled (t ++ [Sleep 10000]) operation) as (refreshed & Hanswer & Hrefreshed).
    rewrite Hanswer.
    destruct (IH refreshed (t ++ [Sleep 10000; GetVideosOperation operation (inr refreshed)])
                Hrefreshed) as (answers & Hlen & Hall & Hrun).
    exists (refreshed :: answers).
    split; [simpl; lia|]. split; [constructor; assumption|].
    rewrite Hrun, <- app_assoc. reflexivity.
Qed.

(** C2: [generateVideo] returns a locator only after it has observed an
    operation state whose flag is set, every state observed before being
    unfinished, and the locator is that state's.  As long as every state
    observed is unfinished the run has not returned and has not failed for
    want of a link: it is still polling, or a remote call was rejected.
    Against a service that never finishes it is still polling after any
    number of polls, each poll preceded by a wait of 10000 milliseconds.
    A run that has settled is not changed by allowing more polls. *)
Theorem C2_locator_only_after_done (polls : nat) (videoPrompt : Value)
    (keyframeImageBase64 mime : string) (w : World) (t : Trace) :
  let request := videosRequest videoPrompt keyframeImageBase64 mime in
  let r := generateVideo polls videoPrompt keyframeImageBase64 mime w t in
  (forall link,
      fst r = Returned link ->
      exists submitted answers earlier final,
        snd r = t ++ GenerateVideos request (inr submitted) :: pollTrace submitted answers
        /\ submitted :: answers = earlier ++ [final]
        /\ Forall notDone earlier
        /\ Sdk.Operation.done final = true
        /\ downloadLinkOf final = Some link
        /\ List.length answers <= polls)
  /\ (forall d,
        snd r = t ++ d ->
        Forall notDone (select operationObserved d) ->
        fst r = Polling \/ (exists e, fst r = Threw e /\ existsb isRejection d = true))
  /\ (forall submitted,
        generateVideos w t request = inr submitted ->
        notDone submitted ->
        (forall history operation,
            exists refreshed,
              getVideosOperation w history operation = inr refreshed /\ notDone refreshed) ->
        exists answers,
          List.length answers = polls
          /\ Forall notDone (submitted :: answers)
          /\ r = (Polling,
                  t ++ GenerateVideos request (inr submitted) :: pollTrace submitted answers))
  /\ (forall extra,
        fst r <> Polling ->
        generateVideo (polls + extra) videoPrompt keyframeImageBase64 mime w t = r).
Proof.
  intros request r.
  pose proof (generateVideo_cases polls videoPrompt keyframeImageBase64 mime w t) as Hcases.
  cbv zeta in Hcases. fold request in Hcases. fold r in Hcases.
  split; [|split; [|split]].
  - intros link Hreturned.
    destruct Hcases as [(e & _ & Hr) | (submitted & answers & earlier & final & _ & Hsplit
                                        & Hearlier & Hlen & Hstand)].
    { rewrite Hr in Hreturned. discriminate Hreturned. }
    destruct Hstand as [[Hdone Hr] | [(_ & _ & Hr) | (e & _ & Hr)]];
      rewrite Hr in Hreturned |- *; simpl in Hreturned; try discriminate Hreturned.
    apply resolveDownloadLink_returned in Hreturned. destruct Hreturned as [Hlink _].
    exists submitted, answers, earlier, final. simpl. tauto.
  - intros d Htrace Hall.
    destruct Hcases as [(e & _ & Hr) | (submitted & answers & earlier & final & _ & Hsplit
                                        & Hearlier & Hlen & Hstand)].
    { rewrite Hr in Htrace |- *. simpl in Htrace. apply app_inv_head in Htrace. subst d.
      right. exists e. split; reflexivity. }
    destruct Hstand as [[Hdone Hr] | [(_ & _ & Hr) | (e & _ & Hr)]];
      rewrite Hr in Htrace |- *; simpl in Htrace; apply app_inv_head in Htrace; subst d.
    + exfalso. simpl in Hall. rewrite select_pollTrace, Hsplit in Hall.
      apply Forall_app in Hall. destruct Hall as [_ Hfinal].
      inversion Hfinal as [|? ? Hpending _]. unfold notDone in Hpending. congruence.
    + left. reflexivity.
    + right. exists e. split; [reflexivity|].
      simpl. rewrite existsb_app. simpl. apply orb_true_r.
  - intros submitted Hsubmitted Hpending Hstalled.
    destruct (@pollUntilDone_stalled w Hstalled polls submitted
                (t ++ [GenerateVideos request (inr submitted)]) Hpending)
      as (answers & Hlen & Hall & Hrun).
    exists answers. split; [exact Hlen|]. split; [constructor; assumption|].
    subst r. unfold generateVideo, bind. fold request.
    rewrite call_eq, Hsubmitted. simpl. rewrite Hrun, <- app_assoc. reflexivity.
  - intros extra. subst r. unfold generateVideo, bind. fold request. rewrite !call_eq.
    destruct (generateVideos w t request) as [e | submitted]; [reflexivity|].
    intros Hsettled. rewrite pollUntilDone_more; [reflexivity|].
    destruct (pollUntilDone polls submitted w (t ++ [GenerateVideos request (inr submitted)]))
      as [[finished | e |] t']; simpl in *; congruence.
Qed.

(** C2, witness: a service that finishes at the second poll yields its
    locator after two waits and two polls; a service that never finishes
    leaves the run polling after seven. *)
Lemma C2_locator_only_after_done_witness :
  (fst (generateVideo 5 (Str "A boat at dawn") "AAAA" "image/png"
          (Sample.studio Sample.videoOnlyText 2) [])
   = Returned "https://video.example/clip?alt=media"
   /\ exists submitted answers earlier final,
        snd (generateVideo 5 (Str "A boat at dawn") "AAAA" "image/png"
               (Sample.studio Sample.videoOnlyText 2) [])
        = [] ++ GenerateVideos (videosRequest (Str "A boat at dawn") "AAAA" "image/png")
                  (inr submitted) :: pollTrace submitted answers
        /\ submitted :: answers = earlier ++ [final]
        /\ Forall notDone earlier
        /\ Sdk.Operation.done final = true
        /\ downloadLinkOf final = Some "https://video.example/clip?alt=media"
        /\ List.length answers <= 5)
  /\ exists answers,
       List.length answers = 7
       /\ Forall notDone (Sample.pendingOperation :: answers)
       /\ generateVideo 7 (Str "A boat at dawn") "AAAA" "image/png" Sample.stalled []
          = (Polling,
             [] ++ GenerateVideos (videosRequest (Str "A boat at dawn") "AAAA" "image/png")
                     (inr Sample.pendingOperation)
                :: pollTrace Sample.pendingOperation answers).
Proof.
  split; [split; [reflexivity|]|].
  - exact (proj1 (C2_locator_only_after_done 5 (Str "A boat at dawn") "AAAA" "image/png"
                    (Sample.studio Sample.videoOnlyText 2) [])
             "https://video.example/clip?alt=media" eq_refl).
  - refine (proj1 (proj2 (proj2 (C2_locator_only_after_done 7 (Str "A boat at dawn") "AAAA"
                                   "image/png" Sample.stalled [])))
              Sample.pendingOperation eq_refl eq_refl _).
    intros history operation. exists Sample.pendingOperation. split; reflexivity.
Defined.

(** ** What the orchestrator and its parts add to the trace *)

Lemma emits_try_catch {A} (good : Event -> Prop) (m : M A) (handler : Exn -> M A) :
  emits good m ->
  (forall e, emits good (handler e)) ->
  (forall e w t, exists e', fst (handler e w t) = Threw e') ->
  emits good (try_catch m handler).
Proof.
  intros Hm Hhandler Hthrows w t. unfold try_catch.
  destruct (Hm w t) as (d1 & Htrace & Hgood & Hrejected).
  destruct (m w t) as [[a | e |] t1]; simpl in Htrace, Hrejected; subst t1.
  - exists d1. split; [reflexivity|]. split; [exact Hgood | exact Hrejected].
  - destruct (Hhandler e w (t ++ d1)) as (d2 & Htrace2 & Hgood2 & _).
    exists (d1 ++ d2). rewrite app_assoc.
    split; [exact Htrace2|]. split; [apply Forall_app; split; assumption|].
    intros _. apply Hthrows.
  - exists d1. split; [reflexivity|]. split; [exact Hgood | exact Hrejected].
Qed.

Lemma emits_pollUntilDone (good : Event -> Prop) :
  good (Sleep 10000) ->
  (forall operation answer, good (GetVideosOperation operation answer)) ->
  forall polls operation, emits good (pollUntilDone polls operation).
Proof.
  intros Hsleep Hpoll. induction polls as [|polls IH]; intros operation; simpl;
    destruct (Sdk.Operation.done operation);
    try apply emits_ret; try apply emits_polling.
  apply emits_bind; [apply emits_emit; [exact Hsleep | reflexivity]|]. intros _.
  apply emits_bind; [|exact IH].
  apply emits_call; [apply Hpoll | reflexivity].
Qed.

Lemma emits_resolveDownloadLink (good : Event -> Prop) (operation : Sdk.Operation.t) :
  emits good (resolveDownloadLink operation).
Proof.
  unfold resolveDownloadLink.
  destruct (downloadLinkOf operation) as [link|]; [destruct (nonempty link)|];
    first [apply emits_ret | apply emits_throw].
Qed.

Lemma emits_generateVideo (good : Event -> Prop) (polls : nat) (videoPrompt : Value)
    (keyframeImageBase64 mime : string) :
  (forall e, neutral e -> good e) ->
  emits good (generateVideo polls videoPrompt keyframeImageBase64 mime).
Proof.
  intros Hneutral. unfold generateVideo.
  apply emits_bind.
  { apply emits_call; [|reflexivity]. intros r. apply Hneutral. repeat split. }
  intros operation. apply emits_bind; [|intros finished; apply emits_resolveDownloadLink].
  apply emits_pollUntilDone; intros; apply Hneutral; repeat split.
Qed.

Lemma emits_fetchVideo (good : Event -> Prop) (videoApiUrl : string) :
  (forall e, neutral e -> good e) ->
  emits good (fetchVideo videoApiUrl).
Proof.
  intros Hneutral w. unfold fetchVideo.
  apply emits_call; [|reflexivity]. intros r. apply Hneutral. repeat split.
Qed.

Lemma emits_URL_createObjectURL (good : Event -> Prop) (blob : string) :
  (forall e, neutral e -> good e) ->
  emits good (URL_createObjectURL blob).
Proof.
  intros Hneutral w t. unfold URL_createObjectURL.
  exists [CreateObjectURL blob (createObjectURL w t blob)].
  split; [reflexivity|]. split; [|discriminate].
  constructor; [|constructor]. apply Hneutral. repeat split.
Qed.

Lemma emits_updateLoadingMessage (good : Event -> Prop) (message : string) :
  (forall e, neutral e -> good e) ->
  emits good (updateLoadingMessage message).
Proof.
  intros Hneutral. apply emits_emit; [|reflexivity]. apply Hneutral. repeat split.
Qed.

Lemma emits_synthesizeAndDownload (good : Event -> Prop) (polls : nat)
    (prepared : string * string * Value) :
  (forall e, neutral e -> good e) ->
  emits good (synthesizeAndDownload polls prepared).
Proof.
  intros Hneutral. destruct prepared as [[keyframeBase64 keyframeMimeType] videoPrompt].
  unfold synthesizeAndDownload.
  apply emits_bind; [apply emits_updateLoadingMessage; exact Hneutral|]. intros _.
  apply emits_bind; [apply emits_generateVideo; exact Hneutral|]. intros videoApiUrl.
  apply emits_bind; [apply emits_updateLoadingMessage; exact Hneutral|]. intros _.
  apply emits_bind; [apply emits_fetchVideo; exact Hneutral|]. intros response.
  apply emits_bind.
  { destruct (negb (Sdk.FetchResponse.ok response)); [apply emits_throw | apply emits_ret]. }
  intros _. apply emits_bind; [apply emits_lift|]. intros videoBlob.
  apply emits_bind; [apply emits_URL_createObjectURL; exact Hneutral|]. intros videoUrl.
  apply emits_ret.
Qed.

Lemma emits_getVideoGenerationPrompts (good : Event -> Prop) (script : Script)
    (needsEditPrompt : bool) :
  (forall answer, good (GenerateContent (promptsRequest script needsEditPrompt) answer)) ->
  emits good (getVideoGenerationPrompts script needsEditPrompt).
Proof.
  intros Hgood. unfold getVideoGenerationPrompts.
  apply emits_bind; [|intros response; apply emits_parse].
  apply emits_call; [exact Hgood | reflexivity].
Qed.

Lemma emits_generateKeyframeWithEdit (good : Event -> Prop) (baseImage : InspirationFile)
    (editPrompt : Value) :
  (forall answer, good (GenerateContent (editRequest baseImage editPrompt) answer)) ->
  emits good (generateKeyframeWithEdit baseImage editPrompt).
Proof.
  intros Hgood. unfold generateKeyframeWithEdit.
  apply emits_bind; [apply emits_call; [exact Hgood | reflexivity]|]. intros response.
  apply emits_bind; [apply emits_lift|]. intros parts.
  destruct (firstInlineData parts); [apply emits_ret | apply emits_throw].
Qed.

Lemma emits_generateInitialKeyframe (good : Event -> Prop) (script : Script)
    (ratio : string) :
  (forall answer, good (GenerateContent (keyframePromptRequest script ratio) answer)) ->
  (forall imagePrompt answer, good (GenerateImages (imagesRequest imagePrompt ratio) answer)) ->
  emits good (generateInitialKeyframe script ratio).
Proof.
  intros Hprompt Himages. unfold generateInitialKeyframe.
  apply emits_bind; [apply emits_call; [exact Hprompt | reflexivity]|]. intros response.
  apply emits_bind; [apply emits_lift|]. intros imagePrompt.
  apply emits_bind; [apply emits_call; [apply Himages | reflexivity]|]. intros images.
  apply emits_bind; [apply emits_lift|]. intros bytes. apply emits_ret.
Qed.

Lemma emits_bind_lift_inr {A B} (good : Event -> Prop) (a : A) (k : A -> M B) :
  emits good (k a) -> emits good (bind (lift (inr a)) k).
Proof. intros Hk w t. rewrite bind_lift. apply Hk. Qed.

Lemma emits_bind_throw {A B} (good : Event -> Prop) (e : Exn) (k : A -> M B) :
  emits good (bind (throw e) k).
Proof. intros w t. rewrite bind_throw. apply (emits_throw (A := B) good e w t). Qed.

Lemma neutral_onEditPath (inspirationImage : InspirationFile) (e : Event) :
  neutral e -> onEditPath inspirationImage e.
Proof.
  intros (Hedit & Hsynthesis & Hschema). unfold onEditPath.
  rewrite Hedit, Hschema. split; [exact Hsynthesis|]. split; discriminate.
Qed.

Lemma neutral_onSynthesisPath (e : Event) : neutral e -> onSynthesisPath e.
Proof.
  intros (Hedit & Hsynthesis & Hschema). unfold onSynthesisPath, isEditCall.
  rewrite Hedit, Hschema. split; [reflexivity | discriminate].
Qed.

Lemma first_image_branch (userInput : UserInput) (first : InspirationFile)
    (rest : list InspirationFile) :
  inspirationImages userInput = first :: rest ->
  (0 <? List.length (inspirationImages userInput))%nat = true
  /\ firstInspirationImage userInput = inr first.
Proof.
  intros Himages. unfold firstInspirationImage. rewrite Himages. split; reflexivity.
Qed.

Lemma no_image_branch (userInput : UserInput) :
  inspirationImages userInput = [] ->
  (0 <? List.length (inspirationImages userInput))%nat = false.
Proof. intros Himages. rewrite Himages. reflexivity. Qed.

(** With an inspiration image, every event of [prepareKeyframe] is on the
    edit path of the first image. *)
Lemma emits_prepareKeyframe_edit (script : Script) (userInput : UserInput)
    (first : InspirationFile) (rest : list InspirationFile) :
  inspirationImages userInput = first :: rest ->
  emits (onEditPath first) (prepareKeyframe script userInput).
Proof.
  intros Himages. destruct (first_image_branch userInput Himages) as [Hbranch Hfirst].
  unfold prepareKeyframe. rewrite Hbranch, Hfirst.
  apply emits_bind_lift_inr.
  apply emits_bind; [apply emits_updateLoadingMessage, neutral_onEditPath|]. intros _.
  apply emits_bind.
  { apply emits_getVideoGenerationPrompts. intros answer.
    split; [reflexivity|]. split.
    - intros schema Hsent. injection Hsent as <-. reflexivity.
    - discriminate. }
  intros prompts. apply emits_bind; [apply emits_lift|]. intros videoPrompt.
  apply emits_bind; [apply emits_updateLoadingMessage, neutral_onEditPath|]. intros _.
  apply emits_bind; [apply emits_lift|]. intros keyframeEditPrompt.
  destruct (truthy keyframeEditPrompt) eqn:Htruthy; cbn [negb].
  - apply emits_bind; [apply emits_ret|]. intros _.
    apply emits_bind; [|intros keyframeBase64; apply emits_ret].
    apply emits_generateKeyframeWithEdit. intros answer.
    split; [reflexivity|]. split; [discriminate|].
    intros parts Hparts. exists keyframeEditPrompt. split; [exact Htruthy|].
    injection Hparts as <-. reflexivity.
  - apply emits_bind_throw.
Qed.

(** Without one, every event of [prepareKeyframe] is on the synthesis
    path. *)
Lemma emits_prepareKeyframe_synthesis (script : Script) (userInput : UserInput) :
  inspirationImages userInput = [] ->
  emits onSynthesisPath (prepareKeyframe script userInput).
Proof.
  intros Himages. unfold prepareKeyframe. rewrite (no_image_branch userInput Himages).
  apply emits_bind; [apply emits_updateLoadingMessage, neutral_onSynthesisPath|]. intros _.
  apply emits_bind.
  { apply emits_generateInitialKeyframe; intros; (split; [reflexivity | discriminate]). }
  intros keyframe.
  apply emits_bind; [apply emits_updateLoadingMessage, neutral_onSynthesisPath|]. intros _.
  apply emits_bind.
  { apply emits_getVideoGenerationPrompts. intros answer.
    split; [reflexivity|]. intros schema Hsent. injection Hsent as <-. reflexivity. }
  intros prompts. apply emits_bind; [apply emits_lift|]. intros videoPrompt.
  apply emits_ret.
Qed.

(** The [catch] block logs and throws [PipelineFailed]. *)
Lemma emits_pipeline_handler (good : Event -> Prop) (error : Exn) :
  (forall e, neutral e -> good e) ->
  emits good (generateVideoFromScript_catch error).
Proof.
  intros Hneutral. apply emits_bind; [|intros _; apply emits_throw].
  apply emits_emit; [|reflexivity]. apply Hneutral. repeat split.
Qed.

Lemma emits_generateVideoFromScript (good : Event -> Prop) (polls : nat) (script : Script)
    (userInput : UserInput) :
  (forall e, neutral e -> good e) ->
  emits good (prepareKeyframe script userInput) ->
  emits good (generateVideoFromScript polls script userInput).
Proof.
  intros Hneutral Hprepare. unfold generateVideoFromScript, generateVideoFromScript_try.
  apply emits_try_catch.
  - apply emits_bind; [exact Hprepare|]. intros prepared.
    apply emits_synthesizeAndDownload. exact Hneutral.
  - intros error. apply emits_pipeline_handler. exact Hneutral.
  - intros error w t. exists PipelineFailed. reflexivity.
Qed.

(** Whatever the brief, a run of [prepareKeyframe] only appends to the
    trace and throws when a remote call was rejected. *)
Lemma emits_prepareKeyframe (script : Script) (userInput : UserInput) :
  emits (fun _ => True) (prepareKeyframe script userInput).
Proof.
  destruct (inspirationImages userInput) as [|first rest] eqn:Himages.
  - eapply emits_weaken;
      [|apply emits_prepareKeyframe_synthesis; exact Himages]. intros; exact I.
  - eapply emits_weaken;
      [|apply (emits_prepareKeyframe_edit script userInput Himages)]. intros; exact I.
Qed.

(** ** The one error of the orchestrator *)

Lemma generateVideoFromScript_caught (polls : nat) (script : Script) (userInput : UserInput)
    (w : World) (t t' : Trace) (e : Exn) :
  generateVideoFromScript_try polls script userInput w t = (Threw e, t') ->
  generateVideoFromScript polls script userInput w t
  = (Threw PipelineFailed, t' ++ [ConsoleError "Error in video generation pipeline:" e]).
Proof.
  intros Htry. unfold generateVideoFromScript, try_catch. rewrite Htry. reflexivity.
Qed.

Lemma generateVideoFromScript_passed (polls : nat) (script : Script) (userInput : UserInput)
    (w : World) (t t' : Trace) (result : VideoResult.t) :
  generateVideoFromScript_try polls script userInput w t = (Returned result, t') ->
  generateVideoFromScript polls script userInput w t = (Returned result, t').
Proof.
  intros Htry. unfold generateVideoFromScript, try_catch. rewrite Htry. reflexivity.
Qed.

Lemma generateVideoFromScript_throws_one (polls : nat) (script : Script)
    (userInput : UserInput) (w : World) (t : Trace) (e : Exn) :
  fst (generateVideoFromScript polls script userInput w t) = Threw e -> e = PipelineFailed.
Proof.
  unfold generateVideoFromScript, try_catch.
  destruct (generateVideoFromScript_try polls script userInput w t) as [[result | e' |] t'];
    simpl; intros Hthrew; try discriminate Hthrew.
  injection Hthrew as <-. reflexivity.
Qed.

(** C3: whatever throws inside the [try] block, be it while the keyframe
    is prepared or after it was produced, the caller gets the one error
    "Failed to generate the final video." and nothing else (the cause is
    only logged); no other error ever leaves the orchestrator; a result
    passes through untouched; and a run in which some remote call was
    rejected ends in that error. *)
Theorem C3_single_pipeline_error (polls : nat) (script : Script) (userInput : UserInput)
    (w : World) (t : Trace) :
  let r := generateVideoFromScript polls script userInput w t in
  (forall e, fst r = Threw e -> e = Error "Failed to generate the final video.")
  /\ (forall e t',
        generateVideoFromScript_try polls script userInput w t = (Threw e, t') ->
        r = (Threw PipelineFailed, t' ++ [ConsoleError "Error in video generation pipeline:" e]))
  /\ (forall e t',
        prepareKeyframe script userInput w t = (Threw e, t') ->
        r = (Threw PipelineFailed, t' ++ [ConsoleError "Error in video generation pipeline:" e]))
  /\ (forall prepared t1 e t',
        prepareKeyframe script userInput w t = (Returned prepared, t1) ->
        synthesizeAndDownload polls prepared w t1 = (Threw e, t') ->
        r = (Threw PipelineFailed, t' ++ [ConsoleError "Error in video generation pipeline:" e]))
  /\ (forall result t',
        generateVideoFromScript_try polls script userInput w t = (Returned result, t') ->
        r = (Returned result, t'))
  /\ (exists d,
        snd r = t ++ d
        /\ (existsb isRejection d = true -> fst r = Threw PipelineFailed)).
Proof.
  intros r. subst r.
  split; [intros e; apply generateVideoFromScript_throws_one|].
  split; [intros e t'; apply generateVideoFromScript_caught|].
  split; [|split; [|split]].
  - intros e t' Hprepare. apply generateVideoFromScript_caught.
    unfold generateVideoFromScript_try, bind. rewrite Hprepare. reflexivity.
  - intros prepared t1 e t' Hprepare Hlater. apply generateVideoFromScript_caught.
    unfold generateVideoFromScript_try, bind. rewrite Hprepare. exact Hlater.
  - intros result t'. apply generateVideoFromScript_passed.
  - destruct (@emits_generateVideoFromScript (fun _ => True) polls script userInput
                (fun _ _ => I) (emits_prepareKeyframe script userInput) w t)
      as (d & Htrace & _ & Hrejected).
    exists d. split; [exact Htrace|]. intros Hsome.
    destruct (Hrejected Hsome) as [e He]. rewrite He.
    rewrite (generateVideoFromScript_throws_one _ _ _ _ _ He). reflexivity.
Qed.

(** C3, witness: the keyframe is edited and the video generated, then the
    download is refused; the caller gets the one error and the trace ends
    with the logged cause. *)
Lemma C3_single_pipeline_error_witness :
  generateVideoFromScript 3 Sample.script
    (Sample.brief [Sample.image "image/webp"] None "9:16") Sample.forbidden []
  = (Threw PipelineFailed,
     snd (synthesizeAndDownload 3 ("RURJVEVE", "image/webp", Str "A boat at dawn")
            Sample.forbidden
            (snd (prepareKeyframe Sample.script
                    (Sample.brief [Sample.image "image/webp"] None "9:16")
                    Sample.forbidden [])))
     ++ [ConsoleError "Error in video generation pipeline:"
           (Error "Failed to download video: Forbidden")]).
Proof.
  refine (proj1 (proj2 (proj2 (proj2
            (C3_single_pipeline_error 3 Sample.script
               (Sample.brief [Sample.image "image/webp"] None "9:16")
               Sample.forbidden []))))
            ("RURJVEVE", "image/webp", Str "A boat at dawn")
            (snd (prepareKeyframe Sample.script
                    (Sample.brief [Sample.image "image/webp"] None "9:16")
                    Sample.forbidden []))
            (Error "Failed to download video: Forbidden")
            (snd (synthesizeAndDownload 3 ("RURJVEVE", "image/webp", Str "A boat at dawn")
                    Sample.forbidden
                    (snd (prepareKeyframe Sample.script
                            (Sample.brief [Sample.image "image/webp"] None "9:16")
                            Sample.forbidden []))))
            _ _);
    vm_compute; reflexivity.
Defined.

(** ** Resuming the orchestrator in the middle of a run *)

Lemma generateVideoFromScript_resume (polls : nat) (script : Script) (userInput : UserInput)
    (w : World) (t t' : Trace) (continue : M (string * string * Value)) :
  prepareKeyframe script userInput w t = continue w t' ->
  generateVideoFromScript polls script userInput w t
  = try_catch (bind continue (synthesizeAndDownload polls)) generateVideoFromScript_catch w t'.
Proof.
  intros Hresume.
  unfold generateVideoFromScript, generateVideoFromScript_try, try_catch, bind.
  rewrite Hresume. reflexivity.
Qed.

Lemma emits_resumed (good : Event -> Prop) (polls : nat)
    (continue : M (string * string * Value)) :
  (forall e, neutral e -> good e) ->
  emits good continue ->
  emits good (try_catch (bind continue (synthesizeAndDownload polls))
                generateVideoFromScript_catch).
Proof.
  intros Hneutral Hcontinue. apply emits_try_catch.
  - apply emits_bind; [exact Hcontinue|]. intros prepared.
    apply emits_synthesizeAndDownload. exact Hneutral.
  - intros error. apply emits_pipeline_handler. exact Hneutral.
  - intros error w t. exists PipelineFailed. reflexivity.
Qed.

(** Discharges [emits (fun _ => True) m] for the terms of this file. *)
Local Ltac appends :=
  repeat first
    [ apply emits_ret | apply emits_throw | apply emits_polling | apply emits_lift
    | apply emits_parse | apply emits_updateLoadingMessage
    | apply emits_generateKeyframeWithEdit | apply emits_generateInitialKeyframe
    | apply emits_getVideoGenerationPrompts | apply emits_synthesizeAndDownload
    | apply emits_call; [intros; exact I | intros; reflexivity]
    | apply emits_bind; [|intro]
    | match goal with |- emits _ (if ?c then _ else _) => destruct c end
    | match goal with |- emits _ (match ?x with _ => _ end) => destruct x end
    | intros; exact I ].

(** With an inspiration image the run opens with the first progress
    message and the request for both prompts. *)
Lemma prepareKeyframe_edit_begins (script : Script) (userInput : UserInput)
    (first : InspirationFile) (rest : list InspirationFile) (w : World) (t : Trace) :
  inspirationImages userInput = first :: rest ->
  exists answer continue,
    prepareKeyframe script userInput w t
    = continue w (t ++ [Progress "Developing creative prompts for AI models...";
                        GenerateContent (promptsRequest script true) answer])
    /\ emits (fun _ => True) continue.
Proof.
  intros Himages. destruct (first_image_branch userInput Himages) as [Hbranch Hfirst].
  unfold prepareKeyframe. rewrite Hbranch, Hfirst, bind_lift. cbv zeta.
  unfold updateLoadingMessage at 1. rewrite bind_emit.
  unfold getVideoGenerationPrompts. rewrite bind_assoc, bind_call.
  destruct (generateContent w
              (t ++ [Progress "Developing creative prompts for AI models..."])
              (promptsRequest script true)) as [e | response].
  - exists (inl e), (throw e). rewrite <- app_assoc. split; [reflexivity | apply emits_throw].
  - exists (inr response). eexists. rewrite <- app_assoc. split; [reflexivity|]. appends.
Qed.


(** ** Which path the orchestrator takes *)



(** ** The check of the edit prompt *)

Lemma bind_parse {B} (text : option string) (k : Value -> M B) (w : World) (t : Trace) :
  bind (JSON_parse_text text) k w t =
  match parseText w text with
  | inl e => (Threw e, t)
  | inr v => k v w t
  end.
Proof. unfold bind, JSON_parse_text. destruct (parseText w text); reflexivity. Qed.

Lemma get_editPromptOf (prompts videoPrompt : Value) :
  Js.get prompts "videoPrompt" = inr videoPrompt ->
  Js.get prompts "keyframeEditPrompt" = inr (editPromptOf prompts).
Proof.
  unfold editPromptOf. destruct prompts; simpl; intros Hread;
    try discriminate Hread; reflexivity.
Qed.

(** The edit branch up to the check: the prompts were derived and read,
    the editing stage was reported, and the run goes on to the edit call or
    throws for want of an edit prompt. *)
Lemma prepareKeyframe_edit_checked (script : Script) (userInput : UserInput)
    (first : InspirationFile) (rest : list InspirationFile) (w : World) (t : Trace)
    (response : Sdk.ContentResponse.t) (prompts videoPrompt : Value) :
  inspirationImages userInput = first :: rest ->
  generateContent w (t ++ [Progress "Developing creative prompts for AI models..."])
    (promptsRequest script true) = inr response ->
  parseText w (Sdk.ContentResponse.text response) = inr prompts ->
  Js.get prompts "videoPrompt" = inr videoPrompt ->
  prepareKeyframe script userInput w t
  = (if truthy (editPromptOf prompts)
     then keyframeBase64 <- generateKeyframeWithEdit first (editPromptOf prompts) ;;
          ret (keyframeBase64, mimeType first, videoPrompt)
     else throw EditPromptMissing)
      w (t ++ [Progress "Developing creative prompts for AI models...";
               GenerateContent (promptsRequest script true) (inr response);
               Progress "Editing inspiration image to create a keyframe..."]).
Proof.
  intros Himages Hanswer Hparse Hread.
  destruct (first_image_branch userInput Himages) as [Hbranch Hfirst].
  unfold prepareKeyframe. rewrite Hbranch, Hfirst, bind_lift. cbv zeta.
  unfold updateLoadingMessage. rewrite bind_emit.
  unfold getVideoGenerationPrompts. rewrite bind_assoc, bind_call, Hanswer.
  rewrite bind_parse, Hparse, bind_lift, Hread, bind_emit, bind_lift.
  rewrite (get_editPromptOf prompts Hread), <- !app_assoc. simpl app.
  destruct (truthy (editPromptOf prompts)); reflexivity.
Qed.

(** The same branch when nothing can be read from the derived prompts. *)
Lemma prepareKeyframe_edit_unreadable (script : Script) (userInput : UserInput)
    (first : InspirationFile) (rest : list InspirationFile) (w : World) (t : Trace)
    (response : Sdk.ContentResponse.t) (prompts : Value) (e : Exn) :
  inspirationImages userInput = first :: rest ->
  generateContent w (t ++ [Progress "Developing creative prompts for AI models..."])
    (promptsRequest script true) = inr response ->
  parseText w (Sdk.ContentResponse.text response) = inr prompts ->
  Js.get prompts "videoPrompt" = inl e ->
  prepareKeyframe script userInput w t
  = (Threw e, t ++ [Progress "Developing creative prompts for AI models...";
                    GenerateContent (promptsRequest script true) (inr response)]).
Proof.
  intros Himages Hanswer Hparse Hread.
  destruct (first_image_branch userInput Himages) as [Hbranch Hfirst].
  unfold prepareKeyframe. rewrite Hbranch, Hfirst, bind_lift. cbv zeta.
  unfold updateLoadingMessage. rewrite bind_emit.
  unfold getVideoGenerationPrompts. rewrite bind_assoc, bind_call, Hanswer.
  rewrite bind_parse, Hparse, bind_lift, Hread, <- !app_assoc. reflexivity.
Qed.

Lemma truthy_not_absent_nor_empty (v : Value) :
  truthy v = true -> v <> Undefined /\ v <> Str "".
Proof. intros Htruthy. split; intros ->; discriminate Htruthy. Qed.

Lemma edit_call_begins (first : InspirationFile) (editPrompt videoPrompt : Value)
    (w : World) (t : Trace) :
  exists answer continue,
    (keyframeBase64 <- generateKeyframeWithEdit first editPrompt ;;
     ret (keyframeBase64, mimeType first, videoPrompt)) w t
    = continue w (t ++ [GenerateContent (editRequest first editPrompt) answer])
    /\ emits (fun _ => True) continue.
Proof.
  unfold generateKeyframeWithEdit. rewrite !bind_assoc, bind_call.
  destruct (generateContent w t (editRequest first editPrompt)) as [e | response].
  - exists (inl e), (throw e). split; [reflexivity | apply emits_throw].
  - exists (inr response). eexists. split; [reflexivity|]. appends.
Qed.

(** The run whose check of the edit prompt fails. *)
Lemma generateVideoFromScript_edit_prompt_missing (polls : nat) (script : Script)
    (userInput : UserInput) (first : InspirationFile) (rest : list InspirationFile)
    (w : World) (t : Trace) (response : Sdk.ContentResponse.t) (prompts videoPrompt : Value) :
  inspirationImages userInput = first :: rest ->
  generateContent w (t ++ [Progress "Developing creative prompts for AI models..."])
    (promptsRequest script true) = inr response ->
  parseText w (Sdk.ContentResponse.text response) = inr prompts ->
  Js.get prompts "videoPrompt" = inr videoPrompt ->
  truthy (editPromptOf prompts) = false ->
  generateVideoFromScript polls script userInput w t
  = (Threw PipelineFailed,
     (t ++ [Progress "Developing creative prompts for AI models...";
            GenerateContent (promptsRequest script true) (inr response);
            Progress "Editing inspiration image to create a keyframe..."])
     ++ [ConsoleError "Error in video generation pipeline:" EditPromptMissing]).
Proof.
  intros Himages Hanswer Hparse Hread Hfalsy.
  pose proof (prepareKeyframe_edit_checked script userInput w t Himages Hanswer Hparse Hread)
    as Hchecked.
  rewrite Hfalsy in Hchecked.
  rewrite (@generateVideoFromScript_resume polls script userInput w t _ _ Hchecked).
  reflexivity.
Qed.

(** C10: on an edit-branch run that gets as far as the check of the edit
    prompt (the prompts were derived, parsed and read), the trace already
    holds the progress message of the editing stage, right after the
    request for the prompts.  When the check then fails, the run ends in
    the pipeline error with that message reported and the missing prompt
    logged after it; when it passes, the edit call follows the message. *)
Theorem C10_editing_reported_before_check (polls : nat) (script : Script)
    (userInput : UserInput) (first : InspirationFile) (rest : list InspirationFile)
    (w : World) (t : Trace) (response : Sdk.ContentResponse.t) (prompts videoPrompt : Value) :
  inspirationImages userInput = first :: rest ->
  generateContent w (t ++ [Progress "Developing creative prompts for AI models..."])
    (promptsRequest script true) = inr response ->
  parseText w (Sdk.ContentResponse.text response) = inr prompts ->
  Js.get prompts "videoPrompt" = inr videoPrompt ->
  let r := generateVideoFromScript polls script userInput w t in
  let reported :=
    t ++ [Progress "Developing creative prompts for AI models...";
          GenerateContent (promptsRequest script true) (inr response);
          Progress "Editing inspiration image to create a keyframe..."] in
  (exists d, snd r = reported ++ d)
  /\ (truthy (editPromptOf prompts) = false ->
      r = (Threw (Error "Failed to generate the final video."),
           reported ++ [ConsoleError "Error in video generation pipeline:"
                          (Error "Failed to generate a keyframe editing prompt.")]))
  /\ (truthy (editPromptOf prompts) = true ->
      exists answer d,
        snd r = reported
                ++ GenerateContent (editRequest first (editPromptOf prompts)) answer :: d).
Proof.
  intros Himages Hanswer Hparse Hread r reported.
  pose proof (prepareKeyframe_edit_checked script userInput w t Himages Hanswer Hparse Hread)
    as Hchecked. fold reported in Hchecked.
  assert (Hmissing : truthy (editPromptOf prompts) = false ->
                     r = (Threw PipelineFailed,
                          reported ++ [ConsoleError "Error in video generation pipeline:"
                                         EditPromptMissing])).
  { intros Hfalsy. subst r reported.
    apply (generateVideoFromScript_edit_prompt_missing polls script userInput w t
             Himages Hanswer Hparse Hread Hfalsy). }
  assert (Hpresent : truthy (editPromptOf prompts) = true ->
                     exists answer d,
                       snd r = reported
                               ++ GenerateContent (editRequest first (editPromptOf prompts))
                                    answer :: d).
  { intros Htruthy. rewrite Htruthy in Hchecked.
    destruct (edit_call_begins first (editPromptOf prompts) videoPrompt w reported)
      as (answer & continue & Hbegin & Hcontinue).
    rewrite Hbegin in Hchecked.
    destruct (emits_resumed polls (fun _ _ => I) Hcontinue w
                (reported ++ [GenerateContent (editRequest first (editPromptOf prompts))
                                answer]))
      as (d & Htrace & _).
    rewrite <- (@generateVideoFromScript_resume polls script userInput w t _ _ Hchecked)
      in Htrace.
    exists answer, d. subst r. rewrite Htrace, <- app_assoc. reflexivity. }
  split; [|split; [exact Hmissing | exact Hpresent]].
  destruct (truthy (editPromptOf prompts)).
  - destruct (Hpresent eq_refl) as (answer & d & Htrace). eexists. exact Htrace.
  - rewrite (Hmissing eq_refl). eexists. reflexivity.
Qed.

(** C10, witness: the model returns a video prompt and an empty edit
    prompt; the run fails, and its trace shows the editing stage reported
    before the failure was logged. *)
Lemma C10_editing_reported_before_check_witness :
  generateVideoFromScript 3 Sample.script
    (Sample.brief [Sample.image "image/webp"] None "9:16")
    (Sample.studio Sample.emptyEditText 1) []
  = (Threw (Error "Failed to generate the final video."),
     ([] ++ [Progress "Developing creative prompts for AI models...";
             GenerateContent (promptsRequest Sample.script true)
               (inr (Sample.textResponse Sample.emptyEditText));
             Progress "Editing inspiration image to create a keyframe..."])
     ++ [ConsoleError "Error in video generation pipeline:"
           (Error "Failed to generate a keyframe editing prompt.")]).
Proof.
  refine (proj1 (proj2
            (@C10_editing_reported_before_check 3 Sample.script
               (Sample.brief [Sample.image "image/webp"] None "9:16")
               (Sample.image "image/webp") []
               (Sample.studio Sample.emptyEditText 1) []
               (Sample.textResponse Sample.emptyEditText)
               (Obj [("videoPrompt", Str "A boat at dawn"); ("keyframeEditPrompt", Str "")])
               (Str "A boat at dawn") _ _ _ _)) _);
    reflexivity.
Defined.

(** C4: on an edit-branch run whose derived prompts carry no truthy
    [keyframeEditPrompt] (it is absent, or the empty string), the caller
    gets the pipeline error and the trace shows neither an edit call nor an
    image synthesis; and whatever the run, an edit call in its trace carries
    an edit prompt that is neither absent nor empty. *)
Theorem C4_edit_prompt_required (polls : nat) (script : Script) (userInput : UserInput)
    (first : InspirationFile) (rest : list InspirationFile) (w : World) (t : Trace) :
  inspirationImages userInput = first :: rest ->
  let r := generateVideoFromScript polls script userInput w t in
  (forall response prompts,
      generateContent w (t ++ [Progress "Developing creative prompts for AI models..."])
        (promptsRequest script true) = inr response ->
      parseText w (Sdk.ContentResponse.text response) = inr prompts ->
      truthy (editPromptOf prompts) = false ->
      fst r = Threw (Error "Failed to generate the final video.")
      /\ exists d,
           snd r = t ++ d
           /\ Forall (fun e => isEditCall e = false /\ isSynthesisCall e = false) d)
  /\ (exists d,
        snd r = t ++ d
        /\ forall e parts,
             In e d ->
             editCall e = Some parts ->
             exists editPrompt,
               truthy editPrompt = true
               /\ editPrompt <> Undefined
               /\ editPrompt <> Str ""
               /\ Sdk.Parts parts
                  = Sdk.ContentRequest.contents (editRequest first editPrompt)).
Proof.
  intros Himages r. subst r. split.
  - intros response prompts Hanswer Hparse Hfalsy.
    destruct (Js.get prompts "videoPrompt") as [e | videoPrompt] eqn:Hread.
    + pose proof (prepareKeyframe_edit_unreadable script userInput w t
                    Himages Hanswer Hparse Hread) as Hprepare.
      assert (Htry : generateVideoFromScript_try polls script userInput w t
                     = (Threw e,
                        t ++ [Progress "Developing creative prompts for AI models...";
                              GenerateContent (promptsRequest script true) (inr response)])).
      { unfold generateVideoFromScript_try, bind. rewrite Hprepare. reflexivity. }
      rewrite (generateVideoFromScript_caught _ _ _ _ _ Htry).
      split; [reflexivity|]. eexists. rewrite <- app_assoc.
      split; [reflexivity|]. repeat constructor.
    + rewrite (generateVideoFromScript_edit_prompt_missing polls script userInput w t
                 Himages Hanswer Hparse Hread Hfalsy).
      split; [reflexivity|]. eexists. rewrite <- app_assoc.
      split; [reflexivity|]. repeat constructor.
  - destruct (@emits_generateVideoFromScript (onEditPath first) polls script userInput
                (neutral_onEditPath first)
                (emits_prepareKeyframe_edit script userInput Himages) w t)
      as (d & Htrace & Hgood & _).
    exists d. split; [exact Htrace|]. intros e parts Hin Hparts.
    rewrite Forall_forall in Hgood.
    destruct (Hgood e Hin) as (_ & _ & Hedit).
    destruct (Hedit parts Hparts) as (editPrompt & Htruthy & Hcontents).
    exists editPrompt. destruct (truthy_not_absent_nor_empty editPrompt Htruthy).
    tauto.
Qed.

(** C4, witness: the model leaves [keyframeEditPrompt] out in one run and
    returns it empty in another; both runs end in the pipeline error. *)
Lemma C4_edit_prompt_required_witness :
  fst (generateVideoFromScript 3 Sample.script
         (Sample.brief [Sample.image "image/webp"] None "9:16")
         (Sample.studio Sample.videoOnlyText 1) [])
  = Threw (Error "Failed to generate the final video.")
  /\ fst (generateVideoFromScript 3 Sample.script
            (Sample.brief [Sample.image "image/webp"] None "9:16")
            (Sample.studio Sample.emptyEditText 1) [])
     = Threw (Error "Failed to generate the final video.").
Proof.
  split.
  - refine (proj1 (proj1 (@C4_edit_prompt_required 3 Sample.script
                            (Sample.brief [Sample.image "image/webp"] None "9:16")
                            (Sample.image "image/webp") []
                            (Sample.studio Sample.videoOnlyText 1) [] eq_refl)
                     (Sample.textResponse Sample.videoOnlyText)
                     (Obj [("videoPrompt", Str "A boat at dawn")]) _ _ _));
      reflexivity.
  - refine (proj1 (proj1 (@C4_edit_prompt_required 3 Sample.script
                            (Sample.brief [Sample.image "image/webp"] None "9:16")
                            (Sample.image "image/webp") []
                            (Sample.studio Sample.emptyEditText 1) [] eq_refl)
                     (Sample.textResponse Sample.emptyEditText)
                     (Obj [("videoPrompt", Str "A boat at dawn");
                           ("keyframeEditPrompt", Str "")]) _ _ _));
      reflexivity.
Defined.

(** ** What a run that returned went through *)

Lemma call_returned {Q A} (ask : World -> Trace -> Q -> Exn + A) (log : Q -> Exn + A -> Event)
    (q : Q) (w : World) (t t' : Trace) (a : A) :
  call ask log q w t = (Returned a, t') ->
  ask w t q = inr a /\ t' = t ++ [log q (inr a)].
Proof.
  rewrite call_eq. destruct (ask w t q) as [e | a']; intros Hrun; [discriminate Hrun|].
  injection Hrun as <- <-. split; reflexivity.
Qed.

Lemma lift_returned {A} (r : Exn + A) (w : World) (t t' : Trace) (a : A) :
  lift r w t = (Returned a, t') -> r = inr a /\ t' = t.
Proof.
  destruct r as [e | a']; simpl; intros Hrun; [discriminate Hrun|].
  injection Hrun as <- <-. split; reflexivity.
Qed.

Lemma parse_returned (text : option string) (w : World) (t t' : Trace) (v : Value) :
  JSON_parse_text text w t = (Returned v, t') -> parseText w text = inr v /\ t' = t.
Proof. unfold JSON_parse_text. apply lift_returned. Qed.

Lemma emit_returned (e : Event) (w : World) (t t' : Trace) (u : unit) :
  emit e w t = (Returned u, t') -> t' = t ++ [e].
Proof. unfold emit. intros Hrun. injection Hrun as _ <-. reflexivity. Qed.

Lemma generateVideo_returned (polls : nat) (videoPrompt : Value)
    (keyframeImageBase64 mime : string) (w : World) (t t' : Trace) (link : string) :
  generateVideo polls videoPrompt keyframeImageBase64 mime w t = (Returned link, t') ->
  exists submitted d,
    t' = t ++ GenerateVideos (videosRequest videoPrompt keyframeImageBase64 mime)
               (inr submitted) :: d.
Proof.
  intros Hrun.
  destruct (generateVideo_cases polls videoPrompt keyframeImageBase64 mime w t)
    as [(e & _ & Hr) | (submitted & answers & earlier & final & _ & _ & _ & _ & Hstand)].
  { rewrite Hr in Hrun. discriminate Hrun. }
  destruct Hstand as [[_ Hr] | [(_ & _ & Hr) | (e & _ & Hr)]];
    rewrite Hr in Hrun; try discriminate Hrun.
  injection Hrun as _ <-. exists submitted, (pollTrace submitted answers). reflexivity.
Qed.

(** After the keyframe: the result's keyframe URL is built from the media
    type and the bytes the branch settled, and the video request carried
    the same two. *)
Lemma synthesizeAndDownload_returned (polls : nat) (keyframeBase64 keyframeMimeType : string)
    (videoPrompt : Value) (w : World) (t t' : Trace) (result : VideoResult.t) :
  synthesizeAndDownload polls (keyframeBase64, keyframeMimeType, videoPrompt) w t
  = (Returned result, t') ->
  VideoResult.keyframeUrl result
  = ("data:" ++ keyframeMimeType ++ ";base64," ++ keyframeBase64)%string
  /\ exists submitted d,
       t' = t ++ Progress "Generating video with VEO 2.0 (this may take several minutes)..."
              :: GenerateVideos (videosRequest videoPrompt keyframeBase64 keyframeMimeType)
                   (inr submitted) :: d.
Proof.
  unfold synthesizeAndDownload, updateLoadingMessage. intros Hrun.
  rewrite bind_emit in Hrun.
  apply bind_returned in Hrun. destruct Hrun as (videoApiUrl & t1 & Hvideo & Hrun).
  apply generateVideo_returned in Hvideo. destruct Hvideo as (submitted & d1 & ->).
  rewrite bind_emit in Hrun.
  apply bind_returned in Hrun. destruct Hrun as (response & t2 & Hfetch & Hrun).
  unfold fetchVideo in Hfetch. apply call_returned in Hfetch. destruct Hfetch as [_ ->].
  apply bind_returned in Hrun. destruct Hrun as ([] & t3 & Hok & Hrun).
  assert (t3 = ((((t ++ [Progress "Generating video with VEO 2.0 (this may take several minutes)..."])
                 ++ GenerateVideos (videosRequest videoPrompt keyframeBase64 keyframeMimeType)
                      (inr submitted) :: d1)
                ++ [Progress "Downloading generated video..."])
               ++ [Fetch (videoApiUrl ++ "&key=" ++ API_KEY w)%string (inr response)])) as ->.
  { destruct (negb (Sdk.FetchResponse.ok response)); [discriminate Hok|].
    injection Hok as <-. reflexivity. }
  apply bind_returned in Hrun. destruct Hrun as (videoBlob & t4 & Hblob & Hrun).
  apply lift_returned in Hblob. destruct Hblob as [_ ->].
  apply bind_returned in Hrun. destruct Hrun as (videoUrl & t5 & Hurl & Hrun).
  unfold URL_createObjectURL in Hurl. injection Hurl as <- <-.
  unfold ret in Hrun. injection Hrun as <- <-.
  split; [reflexivity|].
  exists submitted. eexists. rewrite <- !app_assoc. simpl app. reflexivity.
Qed.

Lemma generateKeyframeWithEdit_returned (baseImage : InspirationFile) (editPrompt : Value)
    (w : World) (t t' : Trace) (data : string) :
  generateKeyframeWithEdit baseImage editPrompt w t = (Returned data, t') ->
  exists response parts,
    t' = t ++ [GenerateContent (editRequest baseImage editPrompt) (inr response)]
    /\ firstCandidateParts response = inr parts
    /\ firstInlineData parts = Some data.
Proof.
  unfold generateKeyframeWithEdit. intros Hrun.
  apply bind_returned in Hrun. destruct Hrun as (response & t1 & Hcall & Hrun).
  apply call_returned in Hcall. destruct Hcall as [_ ->].
  apply bind_returned in Hrun. destruct Hrun as (parts & t2 & Hparts & Hrun).
  apply lift_returned in Hparts. destruct Hparts as [Hparts ->].
  exists response, parts.
  destruct (firstInlineData parts) as [found|]; [|discriminate Hrun].
  injection Hrun as <- <-. repeat split. exact Hparts.
Qed.

Lemma generateInitialKeyframe_returned (script : Script) (ratio : string)
    (w : World) (t t' : Trace) (keyframe : Keyframe.t) :
  generateInitialKeyframe script ratio w t = (Returned keyframe, t') ->
  Keyframe.mimeType keyframe = "image/png"
  /\ exists promptResponse imagePrompt images,
       t' = t ++ [GenerateContent (keyframePromptRequest script ratio) (inr promptResponse);
                  GenerateImages (imagesRequest imagePrompt ratio) (inr images)]
       /\ firstImageBytes images = inr (Keyframe.base64 keyframe).
Proof.
  unfold generateInitialKeyframe. intros Hrun.
  apply bind_returned in Hrun. destruct Hrun as (promptResponse & t1 & Hcall & Hrun).
  apply call_returned in Hcall. destruct Hcall as [_ ->].
  apply bind_returned in Hrun. destruct Hrun as (imagePrompt & t2 & Htext & Hrun).
  apply lift_returned in Htext. destruct Htext as [_ ->].
  apply bind_returned in Hrun. destruct Hrun as (images & t3 & Hcall & Hrun).
  apply call_returned in Hcall. destruct Hcall as [_ ->].
  apply bind_returned in Hrun. destruct Hrun as (bytes & t4 & Hbytes & Hrun).
  apply lift_returned in Hbytes. destruct Hbytes as [Hbytes ->].
  unfold ret in Hrun. injection Hrun as <- <-.
  split; [reflexivity|]. exists promptResponse, imagePrompt, images.
  rewrite <- app_assoc. split; [reflexivity | exact Hbytes].
Qed.

(** The edit branch, when it returned: the media type is the first
    image's own, and the bytes are those of the first inline part the edit
    model returned. *)
Lemma prepareKeyframe_edit_returned (script : Script) (userInput : UserInput)
    (first : InspirationFile) (rest : list InspirationFile) (w : World) (t t' : Trace)
    (keyframeBase64 keyframeMimeType : string) (videoPrompt : Value) :
  inspirationImages userInput = first :: rest ->
  prepareKeyframe script userInput w t
  = (Returned (keyframeBase64, keyframeMimeType, videoPrompt), t') ->
  keyframeMimeType = mimeType first
  /\ exists editPrompt response parts d,
       t' = t ++ d ++ [GenerateContent (editRequest first editPrompt) (inr response)]
       /\ firstCandidateParts response = inr parts
       /\ firstInlineData parts = Some keyframeBase64.
Proof.
  intros Himages Hrun.
  destruct (first_image_branch userInput Himages) as [Hbranch Hfirst].
  unfold prepareKeyframe in Hrun. rewrite Hbranch, Hfirst, bind_lift in Hrun.
  cbv zeta in Hrun. unfold updateLoadingMessage in Hrun. rewrite bind_emit in Hrun.
  apply bind_returned in Hrun. destruct Hrun as (prompts & t1 & Hprompts & Hrun).
  unfold getVideoGenerationPrompts in Hprompts.
  apply bind_returned in Hprompts. destruct Hprompts as (response & t0 & Hcall & Hparse).
  apply call_returned in Hcall. destruct Hcall as [_ ->].
  apply parse_returned in Hparse. destruct Hparse as [_ ->].
  rewrite bind_lift in Hrun.
  destruct (Js.get prompts "videoPrompt") as [e | read]; [discriminate Hrun|].
  rewrite bind_emit, bind_lift in Hrun.
  destruct (Js.get prompts "keyframeEditPrompt") as [e | editPrompt]; [discriminate Hrun|].
  destruct (truthy editPrompt); cbn [negb] in Hrun;
    [rewrite bind_ret in Hrun | rewrite bind_throw in Hrun; discriminate Hrun].
  apply bind_returned in Hrun. destruct Hrun as (data & t2 & Hedit & Hrun).
  apply generateKeyframeWithEdit_returned in Hedit.
  destruct Hedit as (edited & parts & -> & Hparts & Hdata).
  unfold ret in Hrun. injection Hrun as <- <- <- <-.
  split; [reflexivity|]. exists editPrompt, edited, parts.
  exists [Progress "Developing creative prompts for AI models...";
          GenerateContent (promptsRequest script true) (inr response);
          Progress "Editing inspiration image to create a keyframe..."].
  rewrite <- !app_assoc. split; [reflexivity|]. split; assumption.
Qed.

(** The synthesis branch, when it returned: the media type is PNG and the
    bytes are those of the first generated image. *)
Lemma prepareKeyframe_synthesis_returned (script : Script) (userInput : UserInput)
    (w : World) (t t' : Trace) (keyframeBase64 keyframeMimeType : string)
    (videoPrompt : Value) :
  inspirationImages userInput = [] ->
  prepareKeyframe script userInput w t
  = (Returned (keyframeBase64, keyframeMimeType, videoPrompt), t') ->
  keyframeMimeType = "image/png"
  /\ exists imagePrompt images d1 d2,
       t' = t ++ d1 ++ GenerateImages (imagesRequest imagePrompt (aspectRatio userInput))
                         (inr images) :: d2
       /\ firstImageBytes images = inr keyframeBase64.
Proof.
  intros Himages Hrun.
  unfold prepareKeyframe in Hrun. rewrite (no_image_branch userInput Himages) in Hrun.
  unfold updateLoadingMessage in Hrun. rewrite bind_emit in Hrun.
  apply bind_returned in Hrun. destruct Hrun as (keyframe & t1 & Hkeyframe & Hrun).
  apply generateInitialKeyframe_returned in Hkeyframe.
  destruct Hkeyframe as (Hmime & promptResponse & imagePrompt & images & -> & Hbytes).
  rewrite bind_emit in Hrun.
  apply bind_returned in Hrun. destruct Hrun as (prompts & t2 & Hprompts & Hrun).
  unfold getVideoGenerationPrompts in Hprompts.
  apply bind_returned in Hprompts. destruct Hprompts as (response & t0 & Hcall & Hparse).
  apply call_returned in Hcall. destruct Hcall as [_ ->].
  apply parse_returned in Hparse. destruct Hparse as [_ ->].
  rewrite bind_lift in Hrun.
  destruct (Js.get prompts "videoPrompt") as [e | read]; [discriminate Hrun|].
  unfold ret in Hrun. injection Hrun as <- <- <- <-.
  split; [exact Hmime|]. exists imagePrompt, images.
  exists [Progress "Generating a keyframe image from your script...";
          GenerateContent (keyframePromptRequest script (aspectRatio userInput))
            (inr promptResponse)].
  exists [Progress "Developing a video prompt from your script...";
          GenerateContent (promptsRequest script false) (inr response)].
  rewrite <- !app_assoc. split; [reflexivity | exact Hbytes].
Qed.

Lemma generateVideoFromScript_returned (polls : nat) (script : Script) (userInput : UserInput)
    (w : World) (t : Trace) (result : VideoResult.t) :
  fst (generateVideoFromScript polls script userInput w t) = Returned result ->
  exists keyframeBase64 keyframeMimeType videoPrompt t1,
    prepareKeyframe script userInput w t
    = (Returned (keyframeBase64, keyframeMimeType, videoPrompt), t1)
    /\ synthesizeAndDownload polls (keyframeBase64, keyframeMimeType, videoPrompt) w t1
       = (Returned result, snd (generateVideoFromScript polls script userInput w t)).
Proof.
  unfold generateVideoFromScript, try_catch.
  destruct (generateVideoFromScript_try polls script userInput w t)
    as [[returned | e |] t'] eqn:Htry; simpl; intros Hreturned; try discriminate Hreturned.
  injection Hreturned as ->.
  unfold generateVideoFromScript_try in Htry.
  apply bind_returned in Htry.
  destruct Htry as ([[keyframeBase64 keyframeMimeType] videoPrompt] & t1 & Hprepare & Hlater).
  exists keyframeBase64, keyframeMimeType, videoPrompt, t1. split; assumption.
Qed.

(** ** The media type of the keyframe *)

(** C8: in a run that returned a result, the keyframe URL is
    [data:image/png;base64,] followed by the bytes of the first generated
    image when the brief had no inspiration image, and [data:], the first
    inspiration image's own media type, [;base64,] and the data of the first
    inline part returned by the edit model when it had one; the media type
    of that returned part plays no role.  The video request carried the same
    media type and bytes. *)
Theorem C8_keyframe_media_type (polls : nat) (script : Script) (userInput : UserInput)
    (w : World) (t : Trace) (result : VideoResult.t) :
  fst (generateVideoFromScript polls script userInput w t) = Returned result ->
  exists d,
    snd (generateVideoFromScript polls script userInput w t) = t ++ d
    /\ (inspirationImages userInput = [] ->
        exists bytes imagePrompt images videoPrompt submitted,
          VideoResult.keyframeUrl result = ("data:image/png;base64," ++ bytes)%string
          /\ In (GenerateImages (imagesRequest imagePrompt (aspectRatio userInput))
                   (inr images)) d
          /\ firstImageBytes images = inr bytes
          /\ In (GenerateVideos (videosRequest videoPrompt bytes "image/png")
                   (inr submitted)) d)
    /\ (forall first rest,
          inspirationImages userInput = first :: rest ->
          exists data editPrompt response parts videoPrompt submitted,
            VideoResult.keyframeUrl result
            = ("data:" ++ mimeType first ++ ";base64," ++ data)%string
            /\ In (GenerateContent (editRequest first editPrompt) (inr response)) d
            /\ firstCandidateParts response = inr parts
            /\ firstInlineData parts = Some data
            /\ In (GenerateVideos (videosRequest videoPrompt data (mimeType first))
                     (inr submitted)) d).
Proof.
  intros Hreturned.
  destruct (generateVideoFromScript_returned polls script userInput w t Hreturned)
    as (keyframeBase64 & keyframeMimeType & videoPrompt & t1 & Hprepare & Hlater).
  apply synthesizeAndDownload_returned in Hlater.
  destruct Hlater as (Hurl & submitted & d2 & Htrace).
  destruct (inspirationImages userInput) as [|first rest] eqn:Himages.
  - destruct (prepareKeyframe_synthesis_returned script userInput w t Himages Hprepare)
      as (-> & imagePrompt & images & d1 & d1' & -> & Hbytes).
    eexists. split; [rewrite Htrace, <- !app_assoc; reflexivity|].
    split; [|intros first rest Habsurd; discriminate Habsurd].
    intros _. exists keyframeBase64, imagePrompt, images, videoPrompt, submitted.
    split; [exact Hurl|]. split; [|split; [exact Hbytes|]].
    + apply in_or_app. right. left. reflexivity.
    + apply in_or_app. right. right. apply in_or_app. right. right. left. reflexivity.
  - destruct (prepareKeyframe_edit_returned script userInput w t Himages Hprepare)
      as (-> & editPrompt & response & parts & d1 & -> & Hparts & Hdata).
    eexists. split; [rewrite Htrace, <- !app_assoc; reflexivity|].
    split; [intros Habsurd; discriminate Habsurd|].
    intros first' rest' Hsame. injection Hsame as <- <-.
    exists keyframeBase64, editPrompt, response, parts, videoPrompt, submitted.
    split; [exact Hurl|]. split; [|split; [exact Hparts|split; [exact Hdata|]]].
    + apply in_or_app. right. left. reflexivity.
    + apply in_or_app. right. right. right. left. reflexivity.
Qed.

(** C8, witness: the brief has a WebP image and the edit model returns a
    JPEG, and the keyframe URL says WebP; the brief has no image (and an
    unknown aspect ratio), and the keyframe URL says PNG. *)
Lemma C8_keyframe_media_type_witness :
  (fst (generateVideoFromScript 3 Sample.script
          (Sample.brief [Sample.image "image/webp"] None "9:16")
          (Sample.studio Sample.bothPromptsText 1) [])
   = Returned {| VideoResult.videoUrl := "blob:video";
                 VideoResult.keyframeUrl := "data:image/webp;base64,RURJVEVE" |}
   /\ fst (generateVideoFromScript 3 Sample.script (Sample.brief [] None "7:3")
             (Sample.studio Sample.videoOnlyText 1) [])
      = Returned {| VideoResult.videoUrl := "blob:video";
                    VideoResult.keyframeUrl := "data:image/png;base64,iVBORw0KGgo" |})
  /\ (exists d,
        snd (generateVideoFromScript 3 Sample.script
               (Sample.brief [Sample.image "image/webp"] None "9:16")
               (Sample.studio Sample.bothPromptsText 1) []) = [] ++ d
        /\ (inspirationImages (Sample.brief [Sample.image "image/webp"] None "9:16") = [] ->
            exists bytes imagePrompt images videoPrompt submitted,
              "data:image/webp;base64,RURJVEVE" = ("data:image/png;base64," ++ bytes)%string
              /\ In (GenerateImages (imagesRequest imagePrompt "9:16") (inr images)) d
              /\ firstImageBytes images = inr bytes
              /\ In (GenerateVideos (videosRequest videoPrompt bytes "image/png")
                       (inr submitted)) d)
        /\ (forall first rest,
              inspirationImages (Sample.brief [Sample.image "image/webp"] None "9:16")
              = first :: rest ->
              exists data editPrompt response parts videoPrompt submitted,
                "data:image/webp;base64,RURJVEVE"
                = ("data:" ++ mimeType first ++ ";base64," ++ data)%string
                /\ In (GenerateContent (editRequest first editPrompt) (inr response)) d
                /\ firstCandidateParts response = inr parts
                /\ firstInlineData parts = Some data
                /\ In (GenerateVideos (videosRequest videoPrompt data (mimeType first))
                         (inr submitted)) d)).
Proof.
  split; [split; vm_compute; reflexivity|].
  exact (@C8_keyframe_media_type 3 Sample.script
           (Sample.brief [Sample.image "image/webp"] None "9:16")
           (Sample.studio Sample.bothPromptsText 1) []
           {| VideoResult.videoUrl := "blob:video";
              VideoResult.keyframeUrl := "data:image/webp;base64,RURJVEVE" |}
           eq_refl).
Defined.

(** * Further properties of the service *)

(** ** [generateScripts]: one call, and a log on failure only *)

(** What the [catch] block of [generateScripts] is handed, if anything:
    the rejection of the call, the [SyntaxError] of the parse, or the
    [TypeError] of reading [scripts]. *)
Lemma generateScripts_run (userInput : UserInput) (w : World) (t : Trace) :
  let request := scriptsRequest userInput in
  let answer := generateContent w t request in
  generateScripts userInput w t =
  match answer with
  | inl cause =>
      (Threw ScriptGenerationFailed,
       t ++ [GenerateContent request answer; ConsoleError "Error generating scripts:" cause])
  | inr response =>
      match parseText w (Sdk.ContentResponse.text response) with
      | inl cause =>
          (Threw ScriptGenerationFailed,
           t ++ [GenerateContent request answer;
                 ConsoleError "Error generating scripts:" cause])
      | inr v =>
          match Js.get v "scripts" with
          | inl cause =>
              (Threw ScriptGenerationFailed,
               t ++ [GenerateContent request answer;
                     ConsoleError "Error generating scripts:" cause])
          | inr scripts =>
              (Returned (or_else scripts (Arr [])), t ++ [GenerateContent request answer])
          end
      end
  end.
Proof.
  intros request answer. subst answer.
  unfold generateScripts, generateScripts_try, try_catch. fold request.
  rewrite bind_call.
  destruct (generateContent w t request) as [cause | response].
  - unfold console_error. rewrite bind_emit, <- app_assoc. reflexivity.
  - rewrite bind_parse.
    destruct (parseText w (Sdk.ContentResponse.text response)) as [cause | v].
    + unfold console_error. rewrite bind_emit, <- app_assoc. reflexivity.
    + rewrite bind_lift. destruct (Js.get v "scripts") as [cause | scripts].
      * unfold console_error. rewrite bind_emit, <- app_assoc. reflexivity.
      * reflexivity.
Qed.

(** X1: every run of [generateScripts] makes exactly one remote call and
    never a second one; it writes to the console exactly when it throws,
    once, and what it logs is the cause it replaces: the rejection of the
    call, the error of the parse, or the error of reading [scripts]. *)
Theorem generateScripts_one_call_one_log (userInput : UserInput) (w : World) (t : Trace) :
  let r := generateScripts userInput w t in
  let answer := generateContent w t (scriptsRequest userInput) in
  let call := GenerateContent (scriptsRequest userInput) answer in
  (exists v, r = (Returned v, t ++ [call]))
  \/ (exists cause,
        r = (Threw ScriptGenerationFailed,
             t ++ [call; ConsoleError "Error generating scripts:" cause])
        /\ (answer = inl cause
            \/ exists response,
                 answer = inr response
                 /\ (parseText w (Sdk.ContentResponse.text response) = inl cause
                     \/ exists v,
                          parseText w (Sdk.ContentResponse.text response) = inr v
                          /\ Js.get v "scripts" = inl cause))).
Proof.
  intros r answer call. subst r call answer. rewrite generateScripts_run. cbv zeta.
  destruct (generateContent w t (scriptsRequest userInput)) as [cause | response].
  - right. exists cause. split; [reflexivity|]. left. reflexivity.
  - destruct (parseText w (Sdk.ContentResponse.text response)) as [cause | v] eqn:Hparse.
    + right. exists cause. split; [reflexivity|]. right. exists response.
      split; [reflexivity|]. left. exact Hparse.
    + destruct (Js.get v "scripts") as [cause | scripts] eqn:Hread.
      * right. exists cause. split; [reflexivity|]. right. exists response.
        split; [reflexivity|]. right. exists v. split; [exact Hparse | exact Hread].
      * left. eexists. reflexivity.
Qed.

(** ** The inspiration lines of the script prompt *)

Lemma append_assoc (a b c : string) : ((a ++ b) ++ c = a ++ (b ++ c))%string.
Proof. induction a as [|ch a IH]; simpl; [reflexivity|]. rewrite IH. reflexivity. Qed.

Lemma join_app (sep : string) (first second : list string) :
  first <> [] -> second <> [] ->
  join sep (first ++ second) = (join sep first ++ sep ++ join sep second)%string.
Proof.
  intros Hfirst Hsecond. induction first as [|x first IH]; [contradiction|].
  destruct first as [|y first].
  - destruct second as [|z second]; [contradiction|]. reflexivity.
  - change (join sep ((x :: y :: first) ++ second))
      with (x ++ sep ++ join sep ((y :: first) ++ second))%string.
    rewrite IH by discriminate.
    change (join sep (x :: y :: first)) with (x ++ sep ++ join sep (y :: first))%string.
    rewrite !append_assoc. reflexivity.
Qed.

Lemma join_lines_nonempty (line : InspirationFile -> string) (files : list InspirationFile) :
  (forall file, nonempty (line file) = true) ->
  files <> [] ->
  nonempty (join nl (map line files)) = true.
Proof.
  intros Hline Hfiles. destruct files as [|file rest]; [contradiction|].
  specialize (Hline file). simpl.
  destruct (map line rest); [exact Hline|].
  destruct (line file); [discriminate Hline | reflexivity].
Qed.

(** X2: the inspiration text is one line per inspiration image followed by
    one line per inspiration video, in the order of the brief, with no empty
    line and no line lost (an inspiration without description keeps its
    line); and it is empty, so that the prompt says "No specific visual or
    video inspiration provided.", exactly when the brief has neither images
    nor videos. *)
Theorem inspirationText_one_line_each (userInput : UserInput) :
  inspirationText userInput
  = join nl
      (map (fun img => "- Image " ++ dq ++ name img ++ dq ++ ": " ++ description img)%string
           (inspirationImages userInput)
       ++ map (fun vid => "- Video " ++ dq ++ name vid ++ dq ++ ": " ++ description vid)%string
            (inspirationVideos userInput))
  /\ (nonempty (inspirationText userInput) = false
      <-> inspirationImages userInput = [] /\ inspirationVideos userInput = []).
Proof.
  unfold inspirationText, imageInspirationText, videoInspirationText.
  set (imageLine := fun img => ("- Image " ++ dq ++ name img ++ dq ++ ": " ++ description img)%string).
  set (videoLine := fun vid => ("- Video " ++ dq ++ name vid ++ dq ++ ": " ++ description vid)%string).
  assert (Himage : forall images, images <> [] ->
                     nonempty (join nl (map imageLine images)) = true).
  { intros images. apply join_lines_nonempty. reflexivity. }
  assert (Hvideo : forall videos, videos <> [] ->
                     nonempty (join nl (map videoLine videos)) = true).
  { intros videos. apply join_lines_nonempty. reflexivity. }
  assert (Hfilter : forall a b,
            filter nonempty [a; b]
            = (if nonempty a then [a] else []) ++ (if nonempty b then [b] else [])).
  { intros a b. cbn [filter]. destruct (nonempty a), (nonempty b); reflexivity. }
  rewrite Hfilter.
  destruct (inspirationImages userInput) as [|img images];
    destruct (inspirationVideos userInput) as [|vid videos].
  - split; [reflexivity|]. split; [tauto | reflexivity].
  - change (join nl (map imageLine [])) with EmptyString. cbn [nonempty app].
    rewrite (Hvideo (vid :: videos)) by discriminate. cbn [app].
    change (join nl [join nl (map videoLine (vid :: videos))])
      with (join nl (map videoLine (vid :: videos))).
    split; [reflexivity|]. rewrite (Hvideo (vid :: videos)) by discriminate.
    split; [discriminate | intros [_ Habsurd]; discriminate Habsurd].
  - change (join nl (map videoLine [])) with EmptyString. cbn [nonempty].
    rewrite (Himage (img :: images)) by discriminate. cbn [app]. rewrite app_nil_r.
    change (join nl [join nl (map imageLine (img :: images))])
      with (join nl (map imageLine (img :: images))).
    split; [reflexivity|]. rewrite (Himage (img :: images)) by discriminate.
    split; [discriminate | intros [Habsurd _]; discriminate Habsurd].
  - pose proof (Himage (img :: images)) as Hi. pose proof (Hvideo (vid :: videos)) as Hv.
    rewrite Hi, Hv by discriminate. cbn [app].
    rewrite join_app by (cbn [map]; discriminate).
    change (join nl [join nl (map imageLine (img :: images));
                     join nl (map videoLine (vid :: videos))])
      with (join nl (map imageLine (img :: images)) ++ nl
            ++ join nl (map videoLine (vid :: videos)))%string.
    split; [reflexivity|].
    split; [|intros [Habsurd _]; discriminate Habsurd].
    intros Hempty.
    destruct (join nl (map imageLine (img :: images))) eqn:Hjoined;
      [discriminate (Hi ltac:(discriminate)) | discriminate Hempty].
Qed.

(** ** What the edit model has to return *)

Lemma firstInlineData_skips (before after : list Sdk.Part.t) (part : Sdk.Part.t)
    (blob : Sdk.Blob.t) :
  Forall (fun p => Sdk.Part.inlineData p = None) before ->
  Sdk.Part.inlineData part = Some blob ->
  firstInlineData (before ++ part :: after) = Some (Sdk.Blob.data blob).
Proof.
  intros Hbefore Hpart. induction Hbefore as [|p before Hp _ IH]; simpl.
  - rewrite Hpart. reflexivity.
  - rewrite Hp. exact IH.
Qed.

Lemma firstInlineData_none (parts : list Sdk.Part.t) :
  firstInlineData parts = None <-> Forall (fun p => Sdk.Part.inlineData p = None) parts.
Proof.
  induction parts as [|p parts IH]; simpl.
  - split; [constructor | reflexivity].
  - destruct (Sdk.Part.inlineData p) eqn:Hp.
    + split; [discriminate|]. intros Hall. inversion Hall as [|? ? Hnone _]. congruence.
    + rewrite IH. split; [intros Hall; constructor; assumption|].
      intros Hall. inversion Hall. assumption.
Qed.

(** X3: [generateKeyframeWithEdit] returns the data of the first part of
    the first candidate that carries inline data, however many parts without
    inline data come before it and whatever comes after it; the media type
    of that part is not looked at. *)
Theorem generateKeyframeWithEdit_first_inline_part (baseImage : InspirationFile)
    (editPrompt : Value) (w : World) (t : Trace) (response : Sdk.ContentResponse.t)
    (before after : list Sdk.Part.t) (part : Sdk.Part.t) (blob : Sdk.Blob.t) :
  generateContent w t (editRequest baseImage editPrompt) = inr response ->
  firstCandidateParts response = inr (before ++ part :: after) ->
  Forall (fun p => Sdk.Part.inlineData p = None) before ->
  Sdk.Part.inlineData part = Some blob ->
  generateKeyframeWithEdit baseImage editPrompt w t
  = (Returned (Sdk.Blob.data blob),
     t ++ [GenerateContent (editRequest baseImage editPrompt) (inr response)]).
Proof.
  intros Hanswer Hparts Hbefore Hpart.
  unfold generateKeyframeWithEdit. rewrite bind_call, Hanswer, bind_lift, Hparts.
  rewrite (@firstInlineData_skips before after part blob Hbefore Hpart). reflexivity.
Qed.

(** X3, witness: a text part, then a JPEG. *)
Lemma generateKeyframeWithEdit_first_inline_part_witness :
  generateKeyframeWithEdit (Sample.image "image/webp") (Str "Add fog")
    (Sample.studio Sample.bothPromptsText 1) []
  = (Returned "RURJVEVE",
     [] ++ [GenerateContent (editRequest (Sample.image "image/webp") (Str "Add fog"))
              (inr Sample.editedImage)]).
Proof.
  refine (@generateKeyframeWithEdit_first_inline_part
            (Sample.image "image/webp") (Str "Add fog")
            (Sample.studio Sample.bothPromptsText 1) [] Sample.editedImage
            [ {| Sdk.Part.inlineData := None;
                 Sdk.Part.text := Some (Str "Here is the keyframe.") |} ]
            []
            {| Sdk.Part.inlineData :=
                 Some {| Sdk.Blob.data := "RURJVEVE"; Sdk.Blob.mimeType := "image/jpeg" |};
               Sdk.Part.text := None |}
            {| Sdk.Blob.data := "RURJVEVE"; Sdk.Blob.mimeType := "image/jpeg" |}
            eq_refl eq_refl _ eq_refl).
  constructor; [reflexivity | constructor].
Defined.

(** X4: when no part of the first candidate carries inline data (the list
    of parts may be empty), [generateKeyframeWithEdit] throws "Nano Banana
    model did not return an image." after its one call. *)
Theorem generateKeyframeWithEdit_no_image (baseImage : InspirationFile)
    (editPrompt : Value) (w : World) (t : Trace) (response : Sdk.ContentResponse.t)
    (parts : list Sdk.Part.t) :
  generateContent w t (editRequest baseImage editPrompt) = inr response ->
  firstCandidateParts response = inr parts ->
  Forall (fun p => Sdk.Part.inlineData p = None) parts ->
  generateKeyframeWithEdit baseImage editPrompt w t
  = (Threw (Error "Nano Banana model did not return an image."),
     t ++ [GenerateContent (editRequest baseImage editPrompt) (inr response)]).
Proof.
  intros Hanswer Hparts Hnone.
  unfold generateKeyframeWithEdit. rewrite bind_call, Hanswer, bind_lift, Hparts.
  apply firstInlineData_none in Hnone. rewrite Hnone. reflexivity.
Qed.

(** X4, witness: an edit model that answers with words only. *)
Lemma generateKeyframeWithEdit_no_image_witness :
  generateKeyframeWithEdit (Sample.image "image/webp") (Str "Add fog")
    (MoreSamples.barren true) []
  = (Threw (Error "Nano Banana model did not return an image."),
     [] ++ [GenerateContent (editRequest (Sample.image "image/webp") (Str "Add fog"))
              (inr MoreSamples.wordsOnly)]).
Proof.
  refine (@generateKeyframeWithEdit_no_image
            (Sample.image "image/webp") (Str "Add fog") (MoreSamples.barren true) []
            MoreSamples.wordsOnly
            [ {| Sdk.Part.inlineData := None;
                 Sdk.Part.text := Some (Str "I cannot edit this.") |} ]
            eq_refl eq_refl _).
  constructor; [reflexivity | constructor].
Defined.

(** ** What image synthesis is asked and what it has to return *)

Example trim_unicode_spaces :
  trim (bytes [194; 160] ++ "  fog " ++ bytes [10; 239; 187; 191; 226; 128; 168])%string
  = "fog".
Proof. reflexivity. Qed.

Example trim_keeps_zero_width_space :
  trim ("fog" ++ bytes [226; 128; 139] ++ " ")%string = ("fog" ++ bytes [226; 128; 139])%string.
Proof. reflexivity. Qed.

(** X5: once the text model has answered, [generateInitialKeyframe] asks
    image synthesis exactly once, with that answer trimmed as the prompt.
    A missing or empty list of generated images makes it throw "Imagen
    model did not return an image."; a first entry without an image makes
    it throw a [TypeError]; and a first entry with an image makes it return
    that image's bytes, labelled [image/png] whatever media type the image
    states and however many entries follow. *)
Theorem generateInitialKeyframe_first_image_as_png (script : Script) (ratio : string)
    (w : World) (t : Trace) (promptResponse : Sdk.ContentResponse.t) (text : string) :
  generateContent w t (keyframePromptRequest script ratio) = inr promptResponse ->
  Sdk.ContentResponse.text promptResponse = Some text ->
  let t1 := t ++ [GenerateContent (keyframePromptRequest script ratio) (inr promptResponse)] in
  let request := imagesRequest (trim text) ratio in
  let r := generateInitialKeyframe script ratio w t in
  snd r = t1 ++ [GenerateImages request (generateImages w t1 request)]
  /\ (forall images,
        generateImages w t1 request = inr images ->
        Sdk.ImagesResponse.generatedImages images = None
        \/ Sdk.ImagesResponse.generatedImages images = Some [] ->
        fst r = Threw (Error "Imagen model did not return an image."))
  /\ (forall images generated others picture,
        generateImages w t1 request = inr images ->
        Sdk.ImagesResponse.generatedImages images = Some (generated :: others) ->
        Sdk.GeneratedImage.image generated = Some picture ->
        fst r = Returned {| Keyframe.base64 := Sdk.Image.imageBytes picture;
                            Keyframe.mimeType := "image/png" |})
  /\ (forall images generated others,
        generateImages w t1 request = inr images ->
        Sdk.ImagesResponse.generatedImages images = Some (generated :: others) ->
        Sdk.GeneratedImage.image generated = None ->
        exists message, fst r = Threw (TypeError message)).
Proof.
  intros Hanswer Htext t1 request r.
  assert (Hrun : r = (images <- lift (generateImages w t1 request) ;;
                      base64ImageBytes <- lift (firstImageBytes images) ;;
                      ret {| Keyframe.base64 := base64ImageBytes;
                             Keyframe.mimeType := "image/png" |})
                       w (t1 ++ [GenerateImages request (generateImages w t1 request)])).
  { subst r. unfold generateInitialKeyframe.
    rewrite bind_call, Hanswer, bind_lift. unfold trimmedText. rewrite Htext.
    fold t1. fold request. rewrite bind_call, bind_lift.
    destruct (generateImages w t1 request); reflexivity. }
  rewrite Hrun. rewrite bind_lift. split; [|split; [|split]].
  - destruct (generateImages w t1 request) as [e | images]; [reflexivity|].
    rewrite bind_lift. destruct (firstImageBytes images); reflexivity.
  - intros images Himages Hempty. rewrite Himages, bind_lift. unfold firstImageBytes.
    destruct Hempty as [-> | ->]; reflexivity.
  - intros images generated others picture Himages Hlist Hpicture.
    rewrite Himages, bind_lift. unfold firstImageBytes. rewrite Hlist, Hpicture. reflexivity.
  - intros images generated others Himages Hlist Hpicture.
    rewrite Himages, bind_lift. unfold firstImageBytes. rewrite Hlist, Hpicture.
    eexists. reflexivity.
Qed.

(** X5, witness: the sample studio returns one image for the trimmed
    prompt. *)
Lemma generateInitialKeyframe_first_image_as_png_witness :
  fst (generateInitialKeyframe Sample.script "7:3" (Sample.studio Sample.videoOnlyText 1) [])
  = Returned {| Keyframe.base64 := "iVBORw0KGgo"; Keyframe.mimeType := "image/png" |}
  /\ snd (generateInitialKeyframe Sample.script "7:3" (Sample.studio Sample.videoOnlyText 1) [])
     = ([] ++ [GenerateContent (keyframePromptRequest Sample.script "7:3")
                 (inr (Sample.textResponse "  A quay at dawn, film grain.  "))])
       ++ [GenerateImages (imagesRequest (trim "  A quay at dawn, film grain.  ") "7:3")
             (inr Sample.synthesizedImage)].
Proof.
  pose proof (@generateInitialKeyframe_first_image_as_png Sample.script "7:3"
                (Sample.studio Sample.videoOnlyText 1) []
                (Sample.textResponse "  A quay at dawn, film grain.  ")
                "  A quay at dawn, film grain.  " eq_refl eq_refl)
    as (Htrace & _ & Hfirst & _).
  split; [|exact Htrace].
  exact (Hfirst Sample.synthesizedImage
           {| Sdk.GeneratedImage.image :=
                Some {| Sdk.Image.imageBytes := "iVBORw0KGgo";
                        Sdk.Image.mimeType := "image/png" |} |}
           []
           {| Sdk.Image.imageBytes := "iVBORw0KGgo"; Sdk.Image.mimeType := "image/png" |}
           eq_refl eq_refl eq_refl).
Defined.

(** ** The link [generateVideo] resolves *)

(** X6: a link [generateVideo] returns is never empty.  An operation that
    is already done when submitted is resolved at once, with no wait and no
    poll: to its link, or to "Video generation did not produce a download
    link." when it has none or an empty one.  And when no remote call was
    rejected, a run that settled either returned a link or threw that
    error. *)
Theorem generateVideo_link_or_error (polls : nat) (videoPrompt : Value)
    (keyframeImageBase64 mime : string) (w : World) (t : Trace) :
  let request := videosRequest videoPrompt keyframeImageBase64 mime in
  let r := generateVideo polls videoPrompt keyframeImageBase64 mime w t in
  (forall link, fst r = Returned link -> link <> "")
  /\ (forall submitted,
        generateVideos w t request = inr submitted ->
        Sdk.Operation.done submitted = true ->
        r = (match downloadLinkOf submitted with
             | Some "" | None =>
                 Threw (Error "Video generation did not produce a download link.")
             | Some link => Returned link
             end,
             t ++ [GenerateVideos request (inr submitted)]))
  /\ (forall d,
        snd r = t ++ d ->
        existsb isRejection d = false ->
        fst r <> Polling ->
        (exists link, fst r = Returned link)
        \/ fst r = Threw (Error "Video generation did not produce a download link.")).
Proof.
  intros request r.
  pose proof (generateVideo_cases polls videoPrompt keyframeImageBase64 mime w t) as Hcases.
  cbv zeta in Hcases. fold request in Hcases. fold r in Hcases.
  split; [|split].
  - intros link Hreturned ->.
    destruct Hcases as [(e & _ & Hr) | (submitted & answers & earlier & final & _ & _ & _ & _
                                        & Hstand)].
    { rewrite Hr in Hreturned. discriminate Hreturned. }
    destruct Hstand as [[_ Hr] | [(_ & _ & Hr) | (e & _ & Hr)]];
      rewrite Hr in Hreturned; simpl in Hreturned; try discriminate Hreturned.
    apply resolveDownloadLink_returned in Hreturned. destruct Hreturned as [_ Habsurd].
    discriminate Habsurd.
  - intros submitted Hsubmitted Hdone. subst r. unfold generateVideo.
    fold request. rewrite bind_call, Hsubmitted.
    unfold bind. rewrite (pollUntilDone_done polls submitted w _ Hdone).
    unfold resolveDownloadLink.
    destruct (downloadLinkOf submitted) as [[|c link]|]; reflexivity.
  - intros d Htrace Hquiet Hsettled.
    destruct Hcases as [(e & _ & Hr) | (submitted & answers & earlier & final & _ & _ & _ & _
                                        & Hstand)].
    { rewrite Hr in Htrace. simpl in Htrace. apply app_inv_head in Htrace. subst d.
      discriminate Hquiet. }
    destruct Hstand as [[_ Hr] | [(_ & _ & Hr) | (e & _ & Hr)]].
    + rewrite Hr. simpl. unfold resolveDownloadLink.
      destruct (downloadLinkOf final) as [link|]; [destruct (nonempty link)|].
      * left. exists link. reflexivity.
      * right. reflexivity.
      * right. reflexivity.
    + rewrite Hr in Hsettled. simpl in Hsettled. congruence.
    + rewrite Hr in Htrace. simpl in Htrace. apply app_inv_head in Htrace. subst d.
      simpl in Hquiet. rewrite existsb_app in Hquiet. simpl in Hquiet.
      rewrite orb_true_r in Hquiet. discriminate Hquiet.
Qed.

(** X6, witness: a service that is done at once, with a video and without
    one. *)
Lemma generateVideo_link_or_error_witness :
  generateVideo 0 (Str "A boat at dawn") "AAAA" "image/png" (MoreSamples.barren true) []
  = (Returned "https://video.example/clip?alt=media",
     [] ++ [GenerateVideos (videosRequest (Str "A boat at dawn") "AAAA" "image/png")
              (inr Sample.finishedOperation)])
  /\ generateVideo 0 (Str "A boat at dawn") "AAAA" "image/png" (MoreSamples.barren false) []
     = (Threw (Error "Video generation did not produce a download link."),
        [] ++ [GenerateVideos (videosRequest (Str "A boat at dawn") "AAAA" "image/png")
                 (inr MoreSamples.emptyOperation)]).
Proof.
  split.
  - exact (proj1 (proj2 (generateVideo_link_or_error 0 (Str "A boat at dawn") "AAAA"
                           "image/png" (MoreSamples.barren true) []))
             Sample.finishedOperation eq_refl eq_refl).
  - exact (proj1 (proj2 (generateVideo_link_or_error 0 (Str "A boat at dawn") "AAAA"
                           "image/png" (MoreSamples.barren false) []))
             MoreSamples.emptyOperation eq_refl eq_refl).
Defined.

(** ** From the keyframe to the video job *)

(** Discharges [emits (fun _ => True) m] for what follows the submission
    of the video job. *)
Local Ltac appends_after_submission :=
  repeat first
    [ apply emits_ret | apply emits_throw | apply emits_lift
    | apply emits_updateLoadingMessage | apply emits_resolveDownloadLink
    | apply emits_pollUntilDone | apply emits_fetchVideo | apply emits_URL_createObjectURL
    | apply emits_bind; [|intro]
    | match goal with |- emits _ (if ?c then _ else _) => destruct c end
    | intros; exact I ].

Lemma synthesizeAndDownload_begins (polls : nat) (keyframeBase64 keyframeMimeType : string)
    (videoPrompt : Value) (w : World) (t : Trace) :
  exists answer continue,
    synthesizeAndDownload polls (keyframeBase64, keyframeMimeType, videoPrompt) w t
    = continue w
        (t ++ [Progress "Generating video with VEO 2.0 (this may take several minutes)...";
               GenerateVideos (videosRequest videoPrompt keyframeBase64 keyframeMimeType)
                 answer])
    /\ emits (fun _ => True) continue.
Proof.
  unfold synthesizeAndDownload, updateLoadingMessage at 1. rewrite bind_emit.
  unfold generateVideo. rewrite !bind_assoc, bind_call.
  destruct (generateVideos w
              (t ++ [Progress "Generating video with VEO 2.0 (this may take several minutes)..."])
              (videosRequest videoPrompt keyframeBase64 keyframeMimeType))
    as [e | submitted].
  - exists (inl e), (throw e). rewrite <- app_assoc. split; [reflexivity | apply emits_throw].
  - exists (inr submitted). eexists. rewrite <- app_assoc. split; [reflexivity|].
    appends_after_submission.
Qed.

(** X7: once the keyframe branch has settled the bytes, the media type and
    the video prompt, the orchestrator reports the video stage and submits
    the video job with exactly these three, whatever they are: the video
    prompt is sent as it was read from the derived prompts, without the
    check the edit prompt gets, so a response without [videoPrompt] leads to
    a job submitted with an undefined prompt. *)
Theorem video_job_submitted_unchecked (polls : nat) (script : Script) (userInput : UserInput)
    (w : World) (t t1 : Trace) (keyframeBase64 keyframeMimeType : string)
    (videoPrompt : Value) :
  prepareKeyframe script userInput w t
  = (Returned (keyframeBase64, keyframeMimeType, videoPrompt), t1) ->
  exists answer d,
    snd (generateVideoFromScript polls script userInput w t)
    = t1 ++ Progress "Generating video with VEO 2.0 (this may take several minutes)..."
           :: GenerateVideos (videosRequest videoPrompt keyframeBase64 keyframeMimeType)
                answer :: d.
Proof.
  intros Hprepare.
  destruct (synthesizeAndDownload_begins polls keyframeBase64 keyframeMimeType videoPrompt w t1)
    as (answer & continue & Hbegin & Hcontinue).
  assert (Hrun : generateVideoFromScript polls script userInput w t
                 = try_catch continue generateVideoFromScript_catch w
                     (t1 ++ [Progress "Generating video with VEO 2.0 (this may take several minutes)...";
                             GenerateVideos
                               (videosRequest videoPrompt keyframeBase64 keyframeMimeType)
                               answer])).
  { unfold generateVideoFromScript, generateVideoFromScript_try, try_catch, bind.
    rewrite Hprepare, Hbegin. reflexivity. }
  assert (Hemits : emits (fun _ => True) (try_catch continue generateVideoFromScript_catch)).
  { apply emits_try_catch; [exact Hcontinue | |].
    - intros error. apply emits_pipeline_handler. intros; exact I.
    - intros error w' t'. exists PipelineFailed. reflexivity. }
  destruct (Hemits w (t1 ++ [Progress "Generating video with VEO 2.0 (this may take several minutes)...";
                             GenerateVideos
                               (videosRequest videoPrompt keyframeBase64 keyframeMimeType)
                               answer]))
    as (d & Htrace & _).
  exists answer, d. rewrite Hrun, Htrace, <- app_assoc. reflexivity.
Qed.

(** X7, witness: no inspiration image, and a text model that answers the
    request for the video prompt with an empty object; the job is submitted
    with an undefined prompt. *)
Lemma video_job_submitted_unchecked_witness :
  exists answer d,
    snd (generateVideoFromScript 3 Sample.script (Sample.brief [] None "9:16")
           (Sample.studio Sample.emptyObjectText 1) [])
    = snd (prepareKeyframe Sample.script (Sample.brief [] None "9:16")
             (Sample.studio Sample.emptyObjectText 1) [])
      ++ Progress "Generating video with VEO 2.0 (this may take several minutes)..."
         :: GenerateVideos (videosRequest Undefined "iVBORw0KGgo" "image/png") answer :: d.
Proof.
  refine (@video_job_submitted_unchecked 3 Sample.script (Sample.brief [] None "9:16")
            (Sample.studio Sample.emptyObjectText 1) []
            (snd (prepareKeyframe Sample.script (Sample.brief [] None "9:16")
                    (Sample.studio Sample.emptyObjectText 1) []))
            "iVBORw0KGgo" "image/png" Undefined _).
  vm_compute. reflexivity.
Defined.

(** ** The download *)

Lemma bind_of_returned {A B} (m : M A) (k : A -> M B) (w : World) (t t1 : Trace) (a : A) :
  m w t = (Returned a, t1) -> bind m k w t = k a w t1.
Proof. intros Hrun. unfold bind. rewrite Hrun. reflexivity. Qed.

Lemma bind_fetchVideo {B} (videoApiUrl : string) (k : Sdk.FetchResponse.t -> M B)
    (w : World) (t : Trace) :
  bind (fetchVideo videoApiUrl) k w t =
  match fetch w t (videoApiUrl ++ "&key=" ++ API_KEY w)%string with
  | inl e => (Threw e, t ++ [Fetch (videoApiUrl ++ "&key=" ++ API_KEY w)%string (inl e)])
  | inr response =>
      k response w (t ++ [Fetch (videoApiUrl ++ "&key=" ++ API_KEY w)%string (inr response)])
  end.
Proof.
  unfold bind, fetchVideo. rewrite call_eq.
  destruct (fetch w t (videoApiUrl ++ "&key=" ++ API_KEY w)%string); reflexivity.
Qed.

(** The orchestrator from the answer of [fetch] on. *)
Lemma generateVideoFromScript_after_fetch (polls : nat) (script : Script)
    (userInput : UserInput) (w : World) (t t1 t2 : Trace)
    (keyframeBase64 keyframeMimeType : string) (videoPrompt : Value) (link : string)
    (response : Sdk.FetchResponse.t) :
  prepareKeyframe script userInput w t
  = (Returned (keyframeBase64, keyframeMimeType, videoPrompt), t1) ->
  generateVideo polls videoPrompt keyframeBase64 keyframeMimeType w
    (t1 ++ [Progress "Generating video with VEO 2.0 (this may take several minutes)..."])
  = (Returned link, t2) ->
  fetch w (t2 ++ [Progress "Downloading generated video..."])
    (link ++ "&key=" ++ API_KEY w)%string = inr response ->
  generateVideoFromScript polls script userInput w t
  = try_catch
      ((if negb (Sdk.FetchResponse.ok response)
        then throw (Error ("Failed to download video: "
                           ++ Sdk.FetchResponse.statusText response))
        else ret tt) ;;
       videoBlob <- lift (Sdk.FetchResponse.blob response) ;;
       videoUrl <- URL_createObjectURL videoBlob ;;
       ret {| VideoResult.videoUrl := videoUrl;
              VideoResult.keyframeUrl :=
                ("data:" ++ keyframeMimeType ++ ";base64," ++ keyframeBase64)%string |})
      generateVideoFromScript_catch w
      (t2 ++ [Progress "Downloading generated video...";
              Fetch (link ++ "&key=" ++ API_KEY w)%string (inr response)]).
Proof.
  intros Hprepare Hvideo Hfetch.
  unfold generateVideoFromScript, generateVideoFromScript_try, try_catch.
  rewrite (@bind_of_returned _ _ _ _ _ _ _ _ Hprepare).
  unfold synthesizeAndDownload, updateLoadingMessage.
  rewrite bind_emit, (@bind_of_returned _ _ _ _ _ _ _ _ Hvideo), bind_emit, bind_fetchVideo,
    Hfetch.
  rewrite <- app_assoc. reflexivity.
Qed.

(** X8: when the response to the download is not [ok], the caller gets the
    pipeline error, the cause logged is "Failed to download video: "
    followed by the status text, and nothing happens after the fetch: the
    body is not read and no object URL is created.  The URL fetched is the
    link followed by [&key=] and the API key. *)
Theorem download_refused (polls : nat) (script : Script) (userInput : UserInput)
    (w : World) (t t1 t2 : Trace) (keyframeBase64 keyframeMimeType : string)
    (videoPrompt : Value) (link : string) (response : Sdk.FetchResponse.t) :
  prepareKeyframe script userInput w t
  = (Returned (keyframeBase64, keyframeMimeType, videoPrompt), t1) ->
  generateVideo polls videoPrompt keyframeBase64 keyframeMimeType w
    (t1 ++ [Progress "Generating video with VEO 2.0 (this may take several minutes)..."])
  = (Returned link, t2) ->
  fetch w (t2 ++ [Progress "Downloading generated video..."])
    (link ++ "&key=" ++ API_KEY w)%string = inr response ->
  Sdk.FetchResponse.ok response = false ->
  generateVideoFromScript polls script userInput w t
  = (Threw (Error "Failed to generate the final video."),
     t2 ++ [Progress "Downloading generated video...";
            Fetch (link ++ "&key=" ++ API_KEY w)%string (inr response);
            ConsoleError "Error in video generation pipeline:"
              (Error ("Failed to download video: "
                      ++ Sdk.FetchResponse.statusText response))]).
Proof.
  intros Hprepare Hvideo Hfetch Hrefused.
  rewrite (generateVideoFromScript_after_fetch polls script userInput w t
             Hprepare Hvideo Hfetch).
  unfold try_catch. rewrite Hrefused. cbn [negb]. rewrite bind_throw.
  unfold generateVideoFromScript_catch, console_error. rewrite bind_emit, <- app_assoc.
  reflexivity.
Qed.

(** X9: when the response is [ok] and its body can be read, the run
    returns: the video URL is the object URL created for that body, and the
    keyframe URL is [data:], the media type, [;base64,] and the bytes the
    keyframe branch settled; creating the object URL is the last thing the
    run does.  When the body cannot be read, the caller gets the pipeline
    error instead. *)
Theorem download_assembled (polls : nat) (script : Script) (userInput : UserInput)
    (w : World) (t t1 t2 : Trace) (keyframeBase64 keyframeMimeType : string)
    (videoPrompt : Value) (link : string) (response : Sdk.FetchResponse.t) :
  prepareKeyframe script userInput w t
  = (Returned (keyframeBase64, keyframeMimeType, videoPrompt), t1) ->
  generateVideo polls videoPrompt keyframeBase64 keyframeMimeType w
    (t1 ++ [Progress "Generating video with VEO 2.0 (this may take several minutes)..."])
  = (Returned link, t2) ->
  fetch w (t2 ++ [Progress "Downloading generated video..."])
    (link ++ "&key=" ++ API_KEY w)%string = inr response ->
  Sdk.FetchResponse.ok response = true ->
  let fetched := t2 ++ [Progress "Downloading generated video...";
                        Fetch (link ++ "&key=" ++ API_KEY w)%string (inr response)] in
  (forall videoBlob,
      Sdk.FetchResponse.blob response = inr videoBlob ->
      generateVideoFromScript polls script userInput w t
      = (Returned {| VideoResult.videoUrl := createObjectURL w fetched videoBlob;
                     VideoResult.keyframeUrl :=
                       ("data:" ++ keyframeMimeType ++ ";base64," ++ keyframeBase64)%string |},
         fetched ++ [CreateObjectURL videoBlob (createObjectURL w fetched videoBlob)]))
  /\ (forall e,
        Sdk.FetchResponse.blob response = inl e ->
        generateVideoFromScript polls script userInput w t
        = (Threw (Error "Failed to generate the final video."),
           fetched ++ [ConsoleError "Error in video generation pipeline:" e])).
Proof.
  intros Hprepare Hvideo Hfetch Hok fetched.
  rewrite (generateVideoFromScript_after_fetch polls script userInput w t
             Hprepare Hvideo Hfetch).
  fold fetched. unfold try_catch. rewrite Hok. cbn [negb]. rewrite bind_ret, bind_lift.
  split.
  - intros videoBlob Hblob. rewrite Hblob. reflexivity.
  - intros e Hblob. rewrite Hblob. reflexivity.
Qed.

(** X8, witness: the keyframe is edited, the video is done at the first
    poll, and the download is answered "Forbidden". *)
Lemma download_refused_witness :
  generateVideoFromScript 3 Sample.script
    (Sample.brief [Sample.image "image/webp"] None "9:16") Sample.forbidden []
  = (Threw (Error "Failed to generate the final video."),
     snd (generateVideo 3 (Str "A boat at dawn") "RURJVEVE" "image/webp" Sample.forbidden
            (snd (prepareKeyframe Sample.script
                    (Sample.brief [Sample.image "image/webp"] None "9:16")
                    Sample.forbidden [])
             ++ [Progress "Generating video with VEO 2.0 (this may take several minutes)..."]))
     ++ [Progress "Downloading generated video...";
         Fetch "https://video.example/clip?alt=media&key=KEY"
           (inr {| Sdk.FetchResponse.ok := false; Sdk.FetchResponse.statusText := "Forbidden";
                   Sdk.FetchResponse.blob := inr "" |});
         ConsoleError "Error in video generation pipeline:"
           (Error "Failed to download video: Forbidden")]).
Proof.
  refine (@download_refused 3 Sample.script
            (Sample.brief [Sample.image "image/webp"] None "9:16") Sample.forbidden []
            (snd (prepareKeyframe Sample.script
                    (Sample.brief [Sample.image "image/webp"] None "9:16")
                    Sample.forbidden []))
            (snd (generateVideo 3 (Str "A boat at dawn") "RURJVEVE" "image/webp"
                    Sample.forbidden
                    (snd (prepareKeyframe Sample.script
                            (Sample.brief [Sample.image "image/webp"] None "9:16")
                            Sample.forbidden [])
                     ++ [Progress "Generating video with VEO 2.0 (this may take several minutes)..."])))
            "RURJVEVE" "image/webp" (Str "A boat at dawn")
            "https://video.example/clip?alt=media"
            {| Sdk.FetchResponse.ok := false; Sdk.FetchResponse.statusText := "Forbidden";
               Sdk.FetchResponse.blob := inr "" |}
            _ _ _ _);
    vm_compute; reflexivity.
Defined.

(** X9, witness: the same run in a studio whose download succeeds. *)
Lemma download_assembled_witness :
  fst (generateVideoFromScript 3 Sample.script
         (Sample.brief [Sample.image "image/webp"] None "9:16")
         (Sample.studio Sample.bothPromptsText 1) [])
  = Returned {| VideoResult.videoUrl := "blob:video";
                VideoResult.keyframeUrl := "data:image/webp;base64,RURJVEVE" |}.
Proof.
  pose proof (@download_assembled 3 Sample.script
                (Sample.brief [Sample.image "image/webp"] None "9:16")
                (Sample.studio Sample.bothPromptsText 1) []
                (snd (prepareKeyframe Sample.script
                        (Sample.brief [Sample.image "image/webp"] None "9:16")
                        (Sample.studio Sample.bothPromptsText 1) []))
                (snd (generateVideo 3 (Str "A boat at dawn") "RURJVEVE" "image/webp"
                        (Sample.studio Sample.bothPromptsText 1)
                        (snd (prepareKeyframe Sample.script
                                (Sample.brief [Sample.image "image/webp"] None "9:16")
                                (Sample.studio Sample.bothPromptsText 1) [])
                         ++ [Progress "Generating video with VEO 2.0 (this may take several minutes)..."])))
                "RURJVEVE" "image/webp" (Str "A boat at dawn")
                "https://video.example/clip?alt=media"
                {| Sdk.FetchResponse.ok := true; Sdk.FetchResponse.statusText := "OK";
                   Sdk.FetchResponse.blob := inr "AAAAIGZ0eXBpc29t" |}
                ltac:(vm_compute; reflexivity) ltac:(vm_compute; reflexivity)
                ltac:(vm_compute; reflexivity) eq_refl)
    as [Hassembled _].
  rewrite (Hassembled "AAAAIGZ0eXBpc29t" eq_refl). reflexivity.
Defined.

(** ** The order of the progress messages *)

Lemma reports_ret {A} (a : A) : reports (ret a) [].
Proof.
  intros w t. exists []. rewrite app_nil_r. split; [reflexivity|].
  split; [exists []; reflexivity | reflexivity].
Qed.

Lemma reports_throw {A} (e : Exn) (messages : list string) : reports (@throw A e) messages.
Proof.
  intros w t. exists []. rewrite app_nil_r. split; [reflexivity|].
  split; [exists messages; reflexivity | discriminate].
Qed.

Lemma reports_polling {A} (messages : list string) : reports (@polling A) messages.
Proof.
  intros w t. exists []. rewrite app_nil_r. split; [reflexivity|].
  split; [exists messages; reflexivity | discriminate].
Qed.

Lemma reports_lift {A} (r : Exn + A) : reports (lift r) [].
Proof. destruct r; [apply reports_throw | apply reports_ret]. Qed.

Lemma reports_parse (text : option string) : reports (JSON_parse_text text) [].
Proof. intros w t. unfold JSON_parse_text. apply reports_lift. Qed.

Lemma reports_call {Q A} (ask : World -> Trace -> Q -> Exn + A)
    (log : Q -> Exn + A -> Event) (q : Q) :
  (forall r, progressOf (log q r) = None) ->
  reports (call ask log q) [].
Proof.
  intros Hsilent w t. rewrite call_eq. exists [log q (ask w t q)].
  split; [reflexivity|]. simpl. rewrite Hsilent.
  split; [exists []; reflexivity | reflexivity].
Qed.

Lemma reports_bind {A B} (m : M A) (k : A -> M B) (first second : list string) :
  reports m first -> (forall a, reports (k a) second) ->
  reports (bind m k) (first ++ second).
Proof.
  intros Hm Hk w t. unfold bind.
  destruct (Hm w t) as (d1 & Htrace & [rest Hprefix] & Hall).
  destruct (m w t) as [[a | e |] t1]; simpl in Htrace, Hall; subst t1.
  - destruct (Hk a w (t ++ d1)) as (d2 & Htrace2 & [rest2 Hprefix2] & Hall2).
    exists (d1 ++ d2). rewrite app_assoc. split; [exact Htrace2|].
    rewrite select_app, (Hall a eq_refl). split.
    + exists rest2. rewrite <- app_assoc, <- Hprefix2. reflexivity.
    + intros b Hreturned. rewrite (Hall2 b Hreturned). reflexivity.
  - exists d1. split; [reflexivity|]. split; [|discriminate].
    exists (rest ++ second). rewrite app_assoc, <- Hprefix. reflexivity.
  - exists d1. split; [reflexivity|]. split; [|discriminate].
    exists (rest ++ second). rewrite app_assoc, <- Hprefix. reflexivity.
Qed.

Lemma reports_bind_silent {A B} (m : M A) (k : A -> M B) (messages : list string) :
  reports m [] -> (forall a, reports (k a) messages) -> reports (bind m k) messages.
Proof. intros Hm Hk. apply (@reports_bind _ _ m k [] messages); assumption. Qed.

Lemma reports_bind_progress {B} (message : string) (k : unit -> M B)
    (messages : list string) :
  reports (k tt) messages ->
  reports (bind (updateLoadingMessage message) k) (message :: messages).
Proof.
  intros Hk. apply (@reports_bind _ _ _ k [message] messages).
  - intros w t. exists [Progress message]. split; [reflexivity|].
    split; [exists []; reflexivity | reflexivity].
  - intros []. exact Hk.
Qed.

Lemma reports_try_catch {A} (m : M A) (handler : Exn -> M A) (messages : list string) :
  reports m messages ->
  (forall e, reports (handler e) []) ->
  (forall e w t a, fst (handler e w t) <> Returned a) ->
  reports (try_catch m handler) messages.
Proof.
  intros Hm Hhandler Hthrows w t. unfold try_catch.
  destruct (Hm w t) as (d1 & Htrace & [rest Hprefix] & Hall).
  destruct (m w t) as [[a | e |] t1]; simpl in Htrace, Hall; subst t1.
  - exists d1. split; [reflexivity|]. split; [exists rest; exact Hprefix | exact Hall].
  - destruct (Hhandler e w (t ++ d1)) as (d2 & Htrace2 & [rest2 Hprefix2] & _).
    exists (d1 ++ d2). rewrite app_assoc. split; [exact Htrace2|].
    assert (Hsilent : select progressOf d2 = []).
    { destruct (select progressOf d2); [reflexivity | discriminate Hprefix2]. }
    rewrite select_app, Hsilent, app_nil_r. split; [exists rest; exact Hprefix|].
    intros a Hreturned. exfalso. exact (Hthrows e w (t ++ d1) a Hreturned).
  - exists d1. split; [reflexivity|]. split; [exists rest; exact Hprefix | exact Hall].
Qed.

Lemma reports_pollUntilDone (polls : nat) :
  forall operation, reports (pollUntilDone polls operation) [].
Proof.
  induction polls as [|polls IH]; intros operation; simpl;
    destruct (Sdk.Operation.done operation);
    try apply reports_ret; try apply reports_polling.
  apply reports_bind_silent.
  { intros w t. exists [Sleep 10000]. split; [reflexivity|].
    split; [exists []; reflexivity | reflexivity]. }
  intros _. apply reports_bind_silent; [|exact IH].
  apply reports_call. reflexivity.
Qed.

Lemma reports_generateVideo (polls : nat) (videoPrompt : Value)
    (keyframeImageBase64 mime : string) :
  reports (generateVideo polls videoPrompt keyframeImageBase64 mime) [].
Proof.
  unfold generateVideo.
  apply reports_bind_silent; [apply reports_call; reflexivity|]. intros operation.
  apply reports_bind_silent; [apply reports_pollUntilDone|]. intros finished.
  unfold resolveDownloadLink.
  destruct (downloadLinkOf finished) as [link|]; [destruct (nonempty link)|];
    first [apply reports_ret | apply reports_throw].
Qed.

Lemma reports_getVideoGenerationPrompts (script : Script) (needsEditPrompt : bool) :
  reports (getVideoGenerationPrompts script needsEditPrompt) [].
Proof.
  unfold getVideoGenerationPrompts.
  apply reports_bind_silent; [apply reports_call; reflexivity|]. intros response.
  apply reports_parse.
Qed.

Lemma reports_synthesizeAndDownload (polls : nat) (prepared : string * string * Value) :
  reports (synthesizeAndDownload polls prepared)
    [ "Generating video with VEO 2.0 (this may take several minutes)...";
      "Downloading generated video..." ].
Proof.
  destruct prepared as [[keyframeBase64 keyframeMimeType] videoPrompt].
  unfold synthesizeAndDownload.
  apply reports_bind_progress.
  apply (@reports_bind _ _ _ _ [] ["Downloading generated video..."]);
    [apply reports_generateVideo|]. intros videoApiUrl.
  apply reports_bind_progress.
  apply reports_bind_silent.
  { intros w. unfold fetchVideo. apply reports_call. reflexivity. }
  intros response. apply reports_bind_silent.
  { destruct (negb (Sdk.FetchResponse.ok response));
      [apply reports_throw | apply reports_ret]. }
  intros _. apply reports_bind_silent; [apply reports_lift|]. intros videoBlob.
  apply reports_bind_silent; [|intros videoUrl; apply reports_ret].
  intros w t. exists [CreateObjectURL videoBlob (createObjectURL w t videoBlob)].
  split; [reflexivity|]. split; [exists []; reflexivity | reflexivity].
Qed.

Lemma reports_prepareKeyframe (script : Script) (userInput : UserInput) :
  reports (prepareKeyframe script userInput)
    (match inspirationImages userInput with
     | [] => [ "Generating a keyframe image from your script...";
               "Developing a video prompt from your script..." ]
     | _ :: _ => [ "Developing creative prompts for AI models...";
                   "Editing inspiration image to create a keyframe..." ]
     end).
Proof.
  unfold prepareKeyframe.
  destruct (inspirationImages userInput) as [|first rest] eqn:Himages.
  - change (0 <? List.length (@nil InspirationFile))%nat with false. cbv iota.
    apply reports_bind_progress.
    apply (@reports_bind _ _ _ _ [] ["Developing a video prompt from your script..."]).
    { unfold generateInitialKeyframe.
      apply reports_bind_silent; [apply reports_call; reflexivity|]. intros response.
      apply reports_bind_silent; [apply reports_lift|]. intros imagePrompt.
      apply reports_bind_silent; [apply reports_call; reflexivity|]. intros images.
      apply reports_bind_silent; [apply reports_lift|]. intros bytes. apply reports_ret. }
    intros keyframe. apply reports_bind_progress.
    apply reports_bind_silent; [apply reports_getVideoGenerationPrompts|]. intros prompts.
    apply reports_bind_silent; [apply reports_lift|]. intros videoPrompt. apply reports_ret.
  - change (0 <? List.length (first :: rest))%nat with true. cbv iota.
    apply reports_bind_silent; [apply reports_lift|]. intros inspirationImage. cbv zeta.
    apply reports_bind_progress.
    apply (@reports_bind _ _ _ _ [] ["Editing inspiration image to create a keyframe..."]);
      [apply reports_getVideoGenerationPrompts|]. intros prompts.
    apply (@reports_bind _ _ _ _ [] ["Editing inspiration image to create a keyframe..."]);
      [apply reports_lift|]. intros videoPrompt.
    apply reports_bind_progress.
    apply reports_bind_silent; [apply reports_lift|]. intros keyframeEditPrompt.
    apply reports_bind_silent.
    { destruct (negb (truthy keyframeEditPrompt));
        [apply reports_throw | apply reports_ret]. }
    intros _. apply reports_bind_silent; [|intros keyframeBase64; apply reports_ret].
    unfold generateKeyframeWithEdit.
    apply reports_bind_silent; [apply reports_call; reflexivity|]. intros response.
    apply reports_bind_silent; [apply reports_lift|]. intros parts.
    destruct (firstInlineData parts); [apply reports_ret | apply reports_throw].
Qed.

(** X10: the progress messages of a run are an initial part of the four
    messages of its path, in their order: prompts, editing, video,
    download with an inspiration image; keyframe, video prompt, video,
    download without one.  No message is repeated or reported out of turn,
    and a run that returns a result has reported all four. *)
Theorem progress_follows_the_path (polls : nat) (script : Script) (userInput : UserInput)
    (w : World) (t : Trace) :
  let messages :=
    match inspirationImages userInput with
    | [] => synthesisPathMessages
    | _ :: _ => editPathMessages
    end in
  exists d,
    snd (generateVideoFromScript polls script userInput w t) = t ++ d
    /\ (exists rest, messages = select progressOf d ++ rest)
    /\ (forall result,
          fst (generateVideoFromScript polls script userInput w t) = Returned result ->
          select progressOf d = messages).
Proof.
  intros messages.
  assert (Hreports : reports (generateVideoFromScript polls script userInput) messages).
  { unfold generateVideoFromScript, generateVideoFromScript_try.
    apply reports_try_catch.
    - pose proof (reports_prepareKeyframe script userInput) as Hprepare.
      subst messages. unfold synthesisPathMessages, editPathMessages.
      destruct (inspirationImages userInput) as [|first rest].
      + apply (@reports_bind _ _ _ _ [ "Generating a keyframe image from your script...";
                             "Developing a video prompt from your script..." ] [ "Generating video with VEO 2.0 (this may take several minutes)...";
                              "Downloading generated video..." ]); [exact Hprepare|].
        intros prepared. apply reports_synthesizeAndDownload.
      + apply (@reports_bind _ _ _ _ [ "Developing creative prompts for AI models...";
                             "Editing inspiration image to create a keyframe..." ] [ "Generating video with VEO 2.0 (this may take several minutes)...";
                              "Downloading generated video..." ]); [exact Hprepare|].
        intros prepared. apply reports_synthesizeAndDownload.
    - intros error. unfold generateVideoFromScript_catch.
      apply reports_bind_silent; [|intros _; apply reports_throw].
      intros w' t'. exists [ConsoleError "Error in video generation pipeline:" error].
      split; [reflexivity|]. split; [exists []; reflexivity | reflexivity].
    - intros error w' t' a. discriminate. }
  exact (Hreports w t).
Qed.

(** ** What the orchestrator reads of the brief *)

(** X11: a run reads the brief only through its first inspiration image
    and, when it has none, its aspect ratio.  Two briefs with the same first
    image (whatever follows it, and whatever their idea, mood, audience,
    duration, aspect ratio, videos and audio) lead to the same run, and so
    do two briefs without images that have the same aspect ratio. *)
Theorem only_first_image_or_ratio_read (polls : nat) (script : Script) (u1 u2 : UserInput) :
  hd_error (inspirationImages u1) = hd_error (inspirationImages u2) ->
  (inspirationImages u1 = [] -> aspectRatio u1 = aspectRatio u2) ->
  forall w t,
    generateVideoFromScript polls script u1 w t = generateVideoFromScript polls script u2 w t.
Proof.
  intros Hfirst Hratio w t.
  assert (Hprepare : prepareKeyframe script u1 = prepareKeyframe script u2).
  { unfold prepareKeyframe, firstInspirationImage.
    destruct (inspirationImages u1) as [|first1 rest1];
      destruct (inspirationImages u2) as [|first2 rest2];
      simpl in Hfirst; try discriminate Hfirst.
    - rewrite (Hratio eq_refl). reflexivity.
    - injection Hfirst as <-. reflexivity. }
  unfold generateVideoFromScript, generateVideoFromScript_try. rewrite Hprepare. reflexivity.
Qed.

(** X11, witness: a second image and another idea change nothing. *)
Lemma only_first_image_or_ratio_read_witness :
  Sample.brief [Sample.image "image/webp"; Sample.image "image/png"] None "1:1"
  <> Sample.brief [Sample.image "image/webp"] None "9:16"
  /\ generateVideoFromScript 3 Sample.script
       (Sample.brief [Sample.image "image/webp"; Sample.image "image/png"] None "1:1")
       (Sample.studio Sample.bothPromptsText 1) []
     = generateVideoFromScript 3 Sample.script
         (Sample.brief [Sample.image "image/webp"] None "9:16")
         (Sample.studio Sample.bothPromptsText 1) [].
Proof.
  split; [discriminate|].
  apply (@only_first_image_or_ratio_read 3 Sample.script
           (Sample.brief [Sample.image "image/webp"; Sample.image "image/png"] None "1:1")
           (Sample.brief [Sample.image "image/webp"] None "9:16")).
  - reflexivity.
  - discriminate.
Defined.

(** * Properties of the component *)

(** ** What the two handlers show the user *)

Lemma or_else_truthy (v : Value) : truthy (or_else v (Arr [])) = true.
Proof. unfold or_else. destruct (truthy v) eqn:Hv; [exact Hv | reflexivity]. Qed.

Lemma get_of_truthy (v : Value) (key : string) :
  truthy v = true -> exists read, Js.get v key = inr read.
Proof.
  destruct v; simpl; intros Htruthy; try discriminate Htruthy; eexists; reflexivity.
Qed.

(** X12: [handleScriptGeneration] always clears the loading flag.  Either
    it moves to the script selection with the error cleared and the scripts
    stored, which happens exactly when [generateScripts] returned a value
    whose [length] is not 0; or it leaves the stage and the stored scripts
    alone and shows one of two messages: the "try adjusting your inputs" one
    for an empty list, or "Failed to generate scripts from the idea.".  The
    fallback "An unknown error occurred." is never shown. *)
Theorem handleScriptGeneration_outcomes (userInput : UserInput) (state : App.State)
    (w : World) (t : Trace) :
  let after := fst (App.handleScriptGeneration userInput state w t) in
  App.isLoading after = false
  /\ ((App.stage after = SCRIPT_SELECT
       /\ App.error after = None
       /\ exists len,
            fst (generateScripts userInput w t) = Returned (App.scripts after)
            /\ Js.get (App.scripts after) "length" = inr len
            /\ is_zero len = false)
      \/ (App.stage after = App.stage state
          /\ App.scripts after = App.scripts state
          /\ ((App.error after
               = Some "The AI couldn't generate any scripts. Try adjusting your inputs."
               /\ exists v, fst (generateScripts userInput w t) = Returned v
                            /\ Js.get v "length" = inr (Num 0))
              \/ (App.error after = Some "Failed to generate scripts from the idea."
                  /\ fst (generateScripts userInput w t) = Threw ScriptGenerationFailed)))).
Proof.
  intros after. subst after. unfold App.handleScriptGeneration.
  pose proof (generateScripts_run userInput w t) as Hrun. cbv zeta in Hrun.
  assert (Hfailed : forall t',
            generateScripts userInput w t = (Threw ScriptGenerationFailed, t') ->
            let after := fst (App.handleScriptGeneration userInput state w t) in
            App.isLoading after = false
            /\ App.stage after = App.stage state
            /\ App.scripts after = App.scripts state
            /\ App.error after = Some "Failed to generate scripts from the idea.").
  { intros t' Hthrew. unfold App.handleScriptGeneration, bind. rewrite Hthrew.
    repeat split. }
  destruct (generateContent w t (scriptsRequest userInput)) as [cause | response].
  { destruct (Hfailed _ Hrun) as (Hloading & Hstage & Hscripts & Herror).
    unfold App.handleScriptGeneration in Hloading, Hstage, Hscripts, Herror.
    split; [exact Hloading|]. right. split; [exact Hstage|]. split; [exact Hscripts|].
    right. split; [exact Herror|]. rewrite Hrun. reflexivity. }
  destruct (parseText w (Sdk.ContentResponse.text response)) as [cause | v].
  { destruct (Hfailed _ Hrun) as (Hloading & Hstage & Hscripts & Herror).
    unfold App.handleScriptGeneration in Hloading, Hstage, Hscripts, Herror.
    split; [exact Hloading|]. right. split; [exact Hstage|]. split; [exact Hscripts|].
    right. split; [exact Herror|]. rewrite Hrun. reflexivity. }
  destruct (Js.get v "scripts") as [cause | scripts].
  { destruct (Hfailed _ Hrun) as (Hloading & Hstage & Hscripts & Herror).
    unfold App.handleScriptGeneration in Hloading, Hstage, Hscripts, Herror.
    split; [exact Hloading|]. right. split; [exact Hstage|]. split; [exact Hscripts|].
    right. split; [exact Herror|]. rewrite Hrun. reflexivity. }
  clear Hfailed.
  destruct (get_of_truthy (or_else scripts (Arr [])) "length" (or_else_truthy scripts))
    as [len Hlen].
  rewrite (@bind_of_returned _ _ _ _ _ _ _ _ Hrun), bind_lift, Hlen. unfold ret.
  rewrite Hrun. cbn [fst].
  destruct (is_zero len) eqn:Hzero; cbn [fst App.isLoading App.stage App.error App.scripts].
  - split; [reflexivity|]. right. split; [reflexivity|]. split; [reflexivity|].
    left. split; [reflexivity|]. exists (or_else scripts (Arr [])).
    split; [reflexivity|]. rewrite Hlen.
    destruct len; simpl in Hzero; try discriminate Hzero.
    apply Z.eqb_eq in Hzero. subst z. reflexivity.
  - split; [reflexivity|]. left. split; [reflexivity|]. split; [reflexivity|].
    exists len. split; [reflexivity|]. split; [exact Hlen | exact Hzero].
Qed.

(** X13: [handleVideoGeneration] records the chosen script and leaves the
    brief alone.  When the pipeline returns, the stage is the result with
    both URLs of the result stored and no error; when it throws, the stage
    is the script selection again, the stored URLs are untouched and the
    message shown is "Failed to generate the final video.", never the inner
    cause and never the fallback "An unknown error occurred during video
    generation."; while the pipeline is polling the stage stays at the
    generation screen. *)
Theorem handleVideoGeneration_outcomes (polls : nat) (script : Script)
    (state : Session.State) (w : World) (t : Trace) :
  let r := generateVideoFromScript polls script (Session.userInput state) w t in
  let after := fst (Session.handleVideoGeneration polls script state w t) in
  Session.selectedScript after = Some script
  /\ Session.userInput after = Session.userInput state
  /\ snd (Session.handleVideoGeneration polls script state w t) = snd r
  /\ ((exists result,
         fst r = Returned result
         /\ Session.stage after = RESULT
         /\ Session.error after = None
         /\ Session.finalVideoUrl after = Some (VideoResult.videoUrl result)
         /\ Session.finalKeyframeUrl after = Some (VideoResult.keyframeUrl result))
      \/ (fst r = Threw PipelineFailed
          /\ Session.stage after = SCRIPT_SELECT
          /\ Session.error after = Some "Failed to generate the final video."
          /\ Session.finalVideoUrl after = Session.finalVideoUrl state
          /\ Session.finalKeyframeUrl after = Session.finalKeyframeUrl state)
      \/ (fst r = Polling
          /\ Session.stage after = GENERATING_VIDEO
          /\ Session.error after = None)).
Proof.
  intros r after. subst r after. unfold Session.handleVideoGeneration.
  pose proof (@generateVideoFromScript_throws_one polls script (Session.userInput state) w t)
    as Hone.
  destruct (generateVideoFromScript polls script (Session.userInput state) w t)
    as [[result | e |] t']; cbn [fst snd] in *.
  - repeat split. left. exists result. repeat split.
  - rewrite (Hone e eq_refl). repeat split. right. left. repeat split.
  - repeat split. right. right. repeat split.
Qed.

(** ** The waiting messages *)

(** X14: the index the interval callback has reached after any number of
    ticks is that number modulo ten, so the message it sets is always one of
    the ten (the array is never read out of bounds), and the messages it
    sets repeat with period ten. *)
Theorem waiting_messages_cycle (ticks : nat) :
  Session.messageIndexAfter ticks = ticks mod 10
  /\ (exists message,
        Session.loadingMessageAfter ticks = Some message
        /\ In message Session.VEO_GENERATION_MESSAGES)
  /\ Session.loadingMessageAfter (ticks + 10) = Session.loadingMessageAfter ticks.
Proof.
  assert (Hindex : forall n, Session.messageIndexAfter n = n mod 10).
  { induction n as [|n IH]; [reflexivity|].
    cbn [Session.messageIndexAfter]. unfold Session.nextMessageIndex. rewrite IH.
    change (List.length Session.VEO_GENERATION_MESSAGES) with 10.
    rewrite Nat.Div0.add_mod_idemp_l. f_equal. lia. }
  split; [apply Hindex|]. split.
  - unfold Session.loadingMessageAfter. rewrite Hindex.
    destruct (nth_error Session.VEO_GENERATION_MESSAGES (ticks mod 10)) as [message|] eqn:Hnth.
    + exists message. split; [reflexivity|]. eapply nth_error_In. exact Hnth.
    + apply nth_error_None in Hnth.
      change (List.length Session.VEO_GENERATION_MESSAGES) with 10 in Hnth.
      pose proof (Nat.mod_upper_bound ticks 10). lia.
  - unfold Session.loadingMessageAfter. rewrite !Hindex.
    replace ((ticks + 10) mod 10) with (ticks mod 10); [reflexivity|].
    rewrite <- (Nat.Div0.mod_add ticks 1 10). reflexivity.
Qed.

(** ** Describing an inspiration *)

Lemma describeAt_length (items : list InspirationFile) (index : nat) (text : string) :
  List.length (Session.describeAt items index text) = List.length items.
Proof.
  revert index. induction items as [|file rest IH]; intros [|index]; simpl;
    try reflexivity. rewrite IH. reflexivity.
Qed.

Lemma describeAt_same (items : list InspirationFile) (index : nat) (text : string)
    (file : InspirationFile) :
  nth_error items index = Some file ->
  nth_error (Session.describeAt items index text) index
  = Some (Session.withDescription file text).
Proof.
  revert index. induction items as [|head rest IH]; intros [|index]; simpl;
    intros Hfile; try discriminate Hfile.
  - injection Hfile as <-. reflexivity.
  - apply IH. exact Hfile.
Qed.

Lemma describeAt_other (items : list InspirationFile) (index other : nat) (text : string) :
  other <> index ->
  nth_error (Session.describeAt items index text) other = nth_error items other.
Proof.
  revert index other. induction items as [|head rest IH]; intros [|index] [|other] Hother;
    simpl; try reflexivity; try congruence.
  apply IH. congruence.
Qed.

Lemma at_index_nat {A} (items : list A) (index : nat) :
  Session.at_index items (Z.of_nat index) = nth_error items index.
Proof.
  unfold Session.at_index.
  destruct (Z.ltb_spec (Z.of_nat index) 0) as [Hneg | _]; [lia|].
  rewrite Nat2Z.id. reflexivity.
Qed.

Lemma at_index_some {A} (items : list A) (index : Z) (a : A) :
  Session.at_index items index = Some a ->
  (0 <= index)%Z /\ nth_error items (Z.to_nat index) = Some a.
Proof.
  unfold Session.at_index.
  destruct (Z.ltb_spec index 0) as [Hneg | Hpos]; [discriminate|].
  intros Hfile. split; assumption.
Qed.

(** X15: [handleInspirationDescriptionChange] on an index that holds a
    file replaces the description of that file and nothing else: the chosen
    list keeps its length and every other entry, the file keeps its bytes,
    media type, name and preview, and the other list and the rest of the
    brief are unchanged.  On an index that holds no file (negative, or past
    the end) it throws a [TypeError] instead of extending the list. *)
Theorem describe_one_inspiration (userInput : UserInput) (index : Z) (text : string)
    (type : Session.InspirationType) :
  let chosen := fun u => match type with
                         | Session.image => inspirationImages u
                         | Session.video => inspirationVideos u
                         end in
  let other := fun u => match type with
                        | Session.image => inspirationVideos u
                        | Session.video => inspirationImages u
                        end in
  (forall file,
      Session.at_index (chosen userInput) index = Some file ->
      exists updated,
        Session.handleInspirationDescriptionChange userInput index text type = inr updated
        /\ List.length (chosen updated) = List.length (chosen userInput)
        /\ Session.at_index (chosen updated) index
           = Some {| base64 := base64 file; mimeType := mimeType file; name := name file;
                     description := text; previewUrl := previewUrl file |}
        /\ (forall j, j <> index ->
                      Session.at_index (chosen updated) j
                      = Session.at_index (chosen userInput) j)
        /\ other updated = other userInput
        /\ inspirationAudio updated = inspirationAudio userInput
        /\ (idea updated, duration updated, mood updated, aspectRatio updated,
            audience updated)
           = (idea userInput, duration userInput, mood userInput, aspectRatio userInput,
              audience userInput))
  /\ ((index < 0)%Z \/ (Z.of_nat (List.length (chosen userInput)) <= index)%Z ->
      Session.handleInspirationDescriptionChange userInput index text type
      = inl (TypeError "Cannot set properties of undefined (setting 'description')")).
Proof.
  intros chosen other. split.
  - intros file Hfile. unfold Session.handleInspirationDescriptionChange.
    fold (chosen userInput). rewrite Hfile.
    destruct (at_index_some _ _ Hfile) as [Hpos Hnth].
    eexists. split; [reflexivity|].
    assert (Hchosen : forall updated',
              chosen (match type with
                      | Session.image =>
                          {| idea := idea userInput; inspirationImages := updated';
                             inspirationVideos := inspirationVideos userInput;
                             inspirationAudio := inspirationAudio userInput;
                             duration := duration userInput; mood := mood userInput;
                             aspectRatio := aspectRatio userInput;
                             audience := audience userInput |}
                      | Session.video =>
                          {| idea := idea userInput;
                             inspirationImages := inspirationImages userInput;
                             inspirationVideos := updated';
                             inspirationAudio := inspirationAudio userInput;
                             duration := duration userInput; mood := mood userInput;
                             aspectRatio := aspectRatio userInput;
                             audience := audience userInput |}
                      end) = updated').
    { intros updated'. subst chosen. destruct type; reflexivity. }
    rewrite Hchosen.
    split; [apply describeAt_length|]. split; [|split].
    + unfold Session.at_index. destruct (Z.ltb_spec index 0); [lia|].
      apply describeAt_same. exact Hnth.
    + intros j Hj. unfold Session.at_index. destruct (Z.ltb_spec j 0); [reflexivity|].
      apply describeAt_other. intros Heq. apply Hj. apply Z2Nat.inj; assumption.
    + subst other. destruct type; repeat split.
  - intros Hout. unfold Session.handleInspirationDescriptionChange.
    fold (chosen userInput). unfold Session.at_index.
    destruct (Z.ltb_spec index 0) as [Hneg | Hpos]; [reflexivity|].
    destruct (nth_error (chosen userInput) (Z.to_nat index)) eqn:Hnth; [|reflexivity].
    assert (Hlt : Z.to_nat index < List.length (chosen userInput)).
    { apply nth_error_Some. congruence. }
    lia.
Qed.

(** X15, witness: the second of two images gets a description. *)
Lemma describe_one_inspiration_witness :
  exists updated,
    Session.handleInspirationDescriptionChange
      (Sample.brief [Sample.image "image/webp"; Sample.image "image/png"] None "9:16")
      1 "the grain" Session.image = inr updated
    /\ inspirationImages updated
       = [Sample.image "image/webp";
          Session.withDescription (Sample.image "image/png") "the grain"].
Proof.
  destruct (proj1 (describe_one_inspiration
                     (Sample.brief [Sample.image "image/webp"; Sample.image "image/png"]
                        None "9:16")
                     1 "the grain" Session.image)
              (Sample.image "image/png") eq_refl)
    as (updated & Hupdated & _).
  exists updated. split; [exact Hupdated|].
  vm_compute in Hupdated. injection Hupdated as <-. reflexivity.
Defined.

(** ** The description boxes of the inspiration list *)

(** X16: when every inspiration image has a media type that starts with
    [image] and no inspiration video has, typing in the box rendered at
    position [index] of the list of images followed by videos sets the
    description of the file shown at that position, and of no other
    position. *)
Theorem describeRendered_hits_the_file_shown (userInput : UserInput) (index : nat)
    (text : string) (file : InspirationFile) :
  Forall (fun f => Session.isImage f = true) (inspirationImages userInput) ->
  Forall (fun f => Session.isImage f = false) (inspirationVideos userInput) ->
  nth_error (inspirationImages userInput ++ inspirationVideos userInput) index = Some file ->
  exists updated,
    Session.describeRendered userInput index text = Some (inr updated)
    /\ nth_error (inspirationImages updated ++ inspirationVideos updated) index
       = Some (Session.withDescription file text)
    /\ forall j, j <> index ->
                 nth_error (inspirationImages updated ++ inspirationVideos updated) j
                 = nth_error (inspirationImages userInput ++ inspirationVideos userInput) j.
Proof.
  intros Himages Hvideos Hfile. unfold Session.describeRendered. rewrite Hfile.
  destruct (Nat.lt_ge_cases index (List.length (inspirationImages userInput)))
    as [Hin | Hout].
  - rewrite nth_error_app1 in Hfile by exact Hin.
    assert (Hkind : Session.isImage file = true).
    { rewrite Forall_forall in Himages. apply Himages. eapply nth_error_In. exact Hfile. }
    unfold Session.originalIndex. rewrite Hkind.
    unfold Session.handleInspirationDescriptionChange.
    rewrite at_index_nat, Hfile, Nat2Z.id.
    eexists. split; [reflexivity|]. cbn [inspirationImages inspirationVideos].
    split.
    + rewrite nth_error_app1 by (rewrite describeAt_length; exact Hin).
      apply describeAt_same. exact Hfile.
    + intros j Hj.
      destruct (Nat.lt_ge_cases j (List.length (inspirationImages userInput)))
        as [Hjin | Hjout].
      * rewrite !nth_error_app1 by (rewrite ?describeAt_length; exact Hjin).
        apply describeAt_other. exact Hj.
      * rewrite !nth_error_app2 by (rewrite ?describeAt_length; exact Hjout).
        rewrite describeAt_length. reflexivity.
  - rewrite nth_error_app2 in Hfile by exact Hout.
    assert (Hkind : Session.isImage file = false).
    { rewrite Forall_forall in Hvideos. apply Hvideos. eapply nth_error_In. exact Hfile. }
    unfold Session.originalIndex. rewrite Hkind.
    replace (Z.of_nat index - Z.of_nat (List.length (inspirationImages userInput)))%Z
      with (Z.of_nat (index - List.length (inspirationImages userInput))) by lia.
    unfold Session.handleInspirationDescriptionChange.
    rewrite at_index_nat, Hfile, Nat2Z.id.
    eexists. split; [reflexivity|]. cbn [inspirationImages inspirationVideos].
    split.
    + rewrite nth_error_app2 by exact Hout. apply describeAt_same. exact Hfile.
    + intros j Hj.
      destruct (Nat.lt_ge_cases j (List.length (inspirationImages userInput)))
        as [Hjin | Hjout].
      * rewrite !nth_error_app1 by exact Hjin. reflexivity.
      * rewrite !nth_error_app2 by exact Hjout. apply describeAt_other. lia.
Qed.

(** X16, witness: one image and one video; the box of the video. *)
Lemma describeRendered_hits_the_file_shown_witness :
  exists updated,
    Session.describeRendered
      {| idea := "A robot chef";
         inspirationImages := [Sample.image "image/webp"];
         inspirationVideos := [Sample.image "video/mp4"];
         inspirationAudio := None; duration := "15"; mood := "Nostalgic";
         aspectRatio := "9:16"; audience := "Everyone" |}
      1 "the pacing" = Some (inr updated)
    /\ nth_error (inspirationImages updated ++ inspirationVideos updated) 1
       = Some (Session.withDescription (Sample.image "video/mp4") "the pacing")
    /\ forall j, j <> 1 ->
                 nth_error (inspirationImages updated ++ inspirationVideos updated) j
                 = nth_error ([Sample.image "image/webp"] ++ [Sample.image "video/mp4"]) j.
Proof.
  apply (@describeRendered_hits_the_file_shown
           {| idea := "A robot chef";
              inspirationImages := [Sample.image "image/webp"];
              inspirationVideos := [Sample.image "video/mp4"];
              inspirationAudio := None; duration := "15"; mood := "Nostalgic";
              aspectRatio := "9:16"; audience := "Everyone" |}
           1 "the pacing" (Sample.image "video/mp4")).
  - constructor; [reflexivity | constructor].
  - constructor; [reflexivity | constructor].
  - reflexivity.
Defined.

(** X17: a file kept among the inspiration images whose media type does
    not start with [image] cannot be described: its box computes a negative
    index into the list of videos, and typing in it throws a [TypeError]
    without changing the brief. *)
Theorem describeRendered_misfiled (userInput : UserInput) (index : nat) (text : string)
    (file : InspirationFile) :
  nth_error (inspirationImages userInput) index = Some file ->
  Session.isImage file = false ->
  (Session.originalIndex userInput file (Z.of_nat index) < 0)%Z
  /\ Session.describeRendered userInput index text
     = Some (inl (TypeError "Cannot set properties of undefined (setting 'description')")).
Proof.
  intros Hfile Hkind.
  assert (Hin : index < List.length (inspirationImages userInput)).
  { apply nth_error_Some. congruence. }
  assert (Hnegative : (Session.originalIndex userInput file (Z.of_nat index) < 0)%Z).
  { unfold Session.originalIndex. rewrite Hkind. lia. }
  split; [exact Hnegative|].
  unfold Session.describeRendered. rewrite nth_error_app1, Hfile by exact Hin.
  rewrite Hkind. unfold Session.handleInspirationDescriptionChange, Session.at_index.
  destruct (Z.ltb_spec (Session.originalIndex userInput file (Z.of_nat index)) 0);
    [reflexivity | lia].
Qed.

(** ** Where uploads go *)

(** What the encodings decide: records for all the files when every
    encoding succeeds, and otherwise exactly the failures of the files. *)
Lemma newInspirationFiles_settles (toBase64 : Uploads.File -> Exn + string)
    (createObjectURL : Uploads.File -> string) (files : list Uploads.File) :
  match Uploads.newInspirationFiles toBase64 createObjectURL files with
  | inr records =>
      Forall (fun file => exists encoded, toBase64 file = inr encoded) files
      /\ map mimeType records = map Uploads.type files
      /\ map name records = map Uploads.fileName files
      /\ Forall (fun record => description record = "") records
  | inl causes =>
      causes <> []
      /\ forall e, In e causes <-> exists file, In file files /\ toBase64 file = inl e
  end.
Proof.
  induction files as [|file rest IH]; simpl.
  - repeat split; constructor.
  - destruct (toBase64 file) as [e | encoded] eqn:Hencoded;
      destruct (Uploads.newInspirationFiles toBase64 createObjectURL rest)
        as [causes | records].
    + destruct IH as [_ IH]. split; [discriminate|]. intros e'. split.
      * intros [<- | Hin].
        -- exists file. split; [left; reflexivity | exact Hencoded].
        -- apply IH in Hin. destruct Hin as (found & Hfound & Hfailed).
           exists found. split; [right; exact Hfound | exact Hfailed].
      * intros (found & [<- | Hfound] & Hfailed).
        -- left. congruence.
        -- right. apply IH. exists found. split; assumption.
    + destruct IH as (Hall & _). split; [discriminate|]. intros e'. split.
      * intros [<- | []]. exists file. split; [left; reflexivity | exact Hencoded].
      * intros (found & [<- | Hfound] & Hfailed).
        -- left. congruence.
        -- exfalso. rewrite Forall_forall in Hall.
           destruct (Hall found Hfound) as [encoded Hok]. congruence.
    + destruct IH as [Hsome IH]. split; [exact Hsome|]. intros e'. split.
      * intros Hin. apply IH in Hin. destruct Hin as (found & Hfound & Hfailed).
        exists found. split; [right; exact Hfound | exact Hfailed].
      * intros (found & [<- | Hfound] & Hfailed).
        -- congruence.
        -- apply IH. exists found. split; assumption.
    + destruct IH as (Hall & Htypes & Hnames & Hblank). simpl.
      rewrite Htypes, Hnames. repeat split.
      * constructor; [exists encoded; exact Hencoded | exact Hall].
      * constructor; [reflexivity | exact Hblank].
Qed.

(** X18: whatever files are chosen in the input for images and videos,
    the handler is told they are images, because the input's [accept]
    attribute contains [image].  When every encoding succeeds, all files are
    appended to the inspiration images, in order, each with its own media
    type and name and an empty description, and the inspiration videos and
    the audio are left as they were.  When the encoding of some file fails,
    the handler rejects and no brief is produced; what it rejects with is
    the failed encoding of one of the chosen files.  Without a file list
    the brief is returned as it is. *)
Theorem uploads_go_to_the_images (toBase64 : Uploads.File -> Exn + string)
    (createObjectURL : Uploads.File -> string) (userInput : UserInput)
    (files : list Uploads.File) :
  let result :=
    Uploads.onInspirationFiles toBase64 createObjectURL userInput
      Uploads.inspirationAccept (Some files) in
  ((forall file, In file files -> exists encoded, toBase64 file = inr encoded) ->
   exists updated records,
     result = inr updated
     /\ inspirationImages updated = inspirationImages userInput ++ records
     /\ map mimeType records = map Uploads.type files
     /\ map name records = map Uploads.fileName files
     /\ Forall (fun record => description record = "") records
     /\ inspirationVideos updated = inspirationVideos userInput
     /\ inspirationAudio updated = inspirationAudio userInput)
  /\ (forall file e,
        In file files ->
        toBase64 file = inl e ->
        exists causes,
          result = inl causes
          /\ In e causes
          /\ forall e', In e' causes ->
                         exists failed, In failed files /\ toBase64 failed = inl e')
  /\ Uploads.onInspirationFiles toBase64 createObjectURL userInput
       Uploads.inspirationAccept None = inr userInput.
Proof.
  intros result. subst result.
  unfold Uploads.onInspirationFiles, Uploads.handleInspirationFilesChange.
  change (Uploads.containsText Uploads.inspirationAccept "image") with true. cbv iota.
  pose proof (newInspirationFiles_settles toBase64 createObjectURL files) as Hsettles.
  destruct (Uploads.newInspirationFiles toBase64 createObjectURL files)
    as [causes | records].
  - destruct Hsettles as [Hsome Hcauses]. split; [|split; [|reflexivity]].
    + intros Hall. exfalso. destruct causes as [|e causes]; [apply Hsome; reflexivity|].
      destruct (proj1 (Hcauses e) (or_introl eq_refl)) as (failed & Hin & Hfailed).
      destruct (Hall failed Hin) as [encoded Hok]. congruence.
    + intros file e Hin Hfailed. exists causes. split; [reflexivity|]. split.
      * apply Hcauses. exists file. split; assumption.
      * intros e' He'. apply Hcauses. exact He'.
  - destruct Hsettles as (Hall & Htypes & Hnames & Hblank). split; [|split; [|reflexivity]].
    + intros _. eexists. exists records. split; [reflexivity|].
      cbn [inspirationImages inspirationVideos inspirationAudio]. repeat split; assumption.
    + intros file e Hin Hfailed. exfalso. rewrite Forall_forall in Hall.
      destruct (Hall file Hin) as [encoded Hok]. congruence.
Qed.

(** X18, witness: of a picture and a file that cannot be read, the second
    makes the handler reject. *)
Lemma uploads_go_to_the_images_witness :
  exists causes,
    Uploads.onInspirationFiles
      (fun file => if String.eqb (Uploads.content file) "" then inl (Rejected "unreadable")
                   else inr "iVBORw0KGgo")
      (fun _ => "blob:upload") Session.INITIAL_USER_INPUT Uploads.inspirationAccept
      (Some [ {| Uploads.type := "image/png"; Uploads.fileName := "sky.png";
                 Uploads.content := "bytes" |};
              {| Uploads.type := "image/png"; Uploads.fileName := "lost.png";
                 Uploads.content := "" |} ]) = inl causes
    /\ In (Rejected "unreadable") causes
    /\ forall e', In e' causes ->
          exists failed,
            In failed [ {| Uploads.type := "image/png"; Uploads.fileName := "sky.png";
                           Uploads.content := "bytes" |};
                        {| Uploads.type := "image/png"; Uploads.fileName := "lost.png";
                           Uploads.content := "" |} ]
            /\ (if String.eqb (Uploads.content failed) "" then inl (Rejected "unreadable")
                else inr "iVBORw0KGgo") = inl e'.
Proof.
  apply (proj1 (proj2 (@uploads_go_to_the_images
           (fun file => if String.eqb (Uploads.content file) "" then inl (Rejected "unreadable")
                        else inr "iVBORw0KGgo")
           (fun _ => "blob:upload") Session.INITIAL_USER_INPUT
           [ {| Uploads.type := "image/png"; Uploads.fileName := "sky.png";
                Uploads.content := "bytes" |};
             {| Uploads.type := "image/png"; Uploads.fileName := "lost.png";
                Uploads.content := "" |} ]))
         {| Uploads.type := "image/png"; Uploads.fileName := "lost.png";
            Uploads.content := "" |}
         (Rejected "unreadable")).
  - right. left. reflexivity.
  - reflexivity.
Defined.

(** X19: the aspect ratios the form offers are exactly the ones image
    synthesis accepts, and the initial brief has one of them: a ratio chosen
    in the form, or left at its initial value, reaches the image model
    unchanged. *)
Theorem offered_ratios_are_the_valid_ones (ratio : string) :
  (In ratio Session.aspectRatioOptions <-> In ratio validAspectRatios)
  /\ (In ratio Session.aspectRatioOptions \/ ratio = aspectRatio Session.INITIAL_USER_INPUT ->
      validatedAspectRatio ratio = ratio).
Proof.
  assert (Hsame : In ratio Session.aspectRatioOptions <-> In ratio validAspectRatios).
  { unfold Session.aspectRatioOptions, validAspectRatios. simpl. tauto. }
  split; [exact Hsame|].
  intros [Hoffered | ->].
  - unfold validatedAspectRatio.
    apply Hsame, includes_In in Hoffered. rewrite Hoffered. reflexivity.
  - reflexivity.
Qed.

(** X17, witness: a clip filed among the images. *)
Lemma describeRendered_misfiled_witness :
  (Session.originalIndex (Sample.brief [Sample.image "video/mp4"] None "9:16")
     (Sample.image "video/mp4") (Z.of_nat 0) < 0)%Z
  /\ Session.describeRendered (Sample.brief [Sample.image "video/mp4"] None "9:16")
       0 "the pacing"
     = Some (inl (TypeError "Cannot set properties of undefined (setting 'description')")).
Proof.
  apply (@describeRendered_misfiled (Sample.brief [Sample.image "video/mp4"] None "9:16")
           0 "the pacing" (Sample.image "video/mp4")); reflexivity.
Defined.

(** ** An uploaded file as the base image *)

(** X20: a brief without inspiration images that receives one upload
    through the input for images and videos, of whatever media type, takes
    the edit path from then on: the run opens with the request for both
    prompts, never calls image synthesis, and any edit call it makes sends
    the bytes and the media type of the uploaded file as the base image. *)
Theorem uploaded_file_becomes_base_image (toBase64 : Uploads.File -> Exn + string)
    (createObjectURL : Uploads.File -> string) (userInput : UserInput)
    (file : Uploads.File) (encoded : string) (polls : nat) (script : Script)
    (w : World) (t : Trace) :
  inspirationImages userInput = [] ->
  toBase64 file = inr encoded ->
  exists updated answer d,
    Uploads.onInspirationFiles toBase64 createObjectURL userInput
      Uploads.inspirationAccept (Some [file]) = inr updated
    /\ snd (generateVideoFromScript polls script updated w t)
       = t ++ Progress "Developing creative prompts for AI models..."
              :: GenerateContent (promptsRequest script true) answer :: d
    /\ Forall (onEditPath (Uploads.recordOf encoded createObjectURL file))
         (Progress "Developing creative prompts for AI models..."
            :: GenerateContent (promptsRequest script true) answer :: d).
Proof.
  intros Hnone Hencoded.
  set (updated :=
         {| idea := idea userInput;
            inspirationImages := [Uploads.recordOf encoded createObjectURL file];
            inspirationVideos := inspirationVideos userInput;
            inspirationAudio := inspirationAudio userInput;
            duration := duration userInput; mood := mood userInput;
            aspectRatio := aspectRatio userInput; audience := audience userInput |}).
  assert (Himages : inspirationImages updated
                    = Uploads.recordOf encoded createObjectURL file :: []) by reflexivity.
  destruct (prepareKeyframe_edit_begins script updated w t Himages)
    as (answer & continue & Hbegin & Hcontinue).
  destruct (emits_resumed polls (fun _ _ => I) Hcontinue w
              (t ++ [Progress "Developing creative prompts for AI models...";
                     GenerateContent (promptsRequest script true) answer]))
    as (d & Htrace & _).
  rewrite <- (@generateVideoFromScript_resume polls script updated w t _ continue Hbegin)
    in Htrace.
  destruct (@emits_generateVideoFromScript
              (onEditPath (Uploads.recordOf encoded createObjectURL file)) polls script updated
              (neutral_onEditPath (Uploads.recordOf encoded createObjectURL file))
              (emits_prepareKeyframe_edit script updated Himages) w t)
    as (d0 & Htrace0 & Hgood & _).
  exists updated, answer, d. split.
  - unfold Uploads.onInspirationFiles, Uploads.handleInspirationFilesChange.
    change (Uploads.containsText Uploads.inspirationAccept "image") with true. cbv iota.
    cbn [Uploads.newInspirationFiles]. rewrite Hencoded, Hnone. reflexivity.
  - rewrite <- app_assoc in Htrace. simpl app in Htrace. split; [exact Htrace|].
    rewrite Htrace0 in Htrace. apply app_inv_head in Htrace. subst d0. exact Hgood.
Qed.

(** X20, witness: the upload is a video clip. *)
Lemma uploaded_file_becomes_base_image_witness :
  exists updated answer d,
    Uploads.onInspirationFiles (fun _ => inr "AAAAGGZ0eXA") (fun _ => "blob:clip")
      Session.INITIAL_USER_INPUT Uploads.inspirationAccept
      (Some [ {| Uploads.type := "video/mp4"; Uploads.fileName := "clip.mp4";
                 Uploads.content := "bytes" |} ]) = inr updated
    /\ snd (generateVideoFromScript 3 Sample.script updated
              (Sample.studio Sample.bothPromptsText 1) [])
       = [] ++ Progress "Developing creative prompts for AI models..."
              :: GenerateContent (promptsRequest Sample.script true) answer :: d
    /\ Forall (onEditPath
                 (Uploads.recordOf "AAAAGGZ0eXA" (fun _ => "blob:clip")
                    {| Uploads.type := "video/mp4"; Uploads.fileName := "clip.mp4";
                       Uploads.content := "bytes" |}))
         (Progress "Developing creative prompts for AI models..."
            :: GenerateContent (promptsRequest Sample.script true) answer :: d).
Proof.
  apply (@uploaded_file_becomes_base_image (fun _ => inr "AAAAGGZ0eXA") (fun _ => "blob:clip")
           Session.INITIAL_USER_INPUT
           {| Uploads.type := "video/mp4"; Uploads.fileName := "clip.mp4";
              Uploads.content := "bytes" |}
           "AAAAGGZ0eXA" 3 Sample.script (Sample.studio Sample.bothPromptsText 1) []);
    reflexivity.
Defined.
